(** * MarineTraffic MCP server: API client, identifier validation, tools

    A shallow embedding of [src/api-client.ts], the tool handlers under
    [src/tools/] and the resource readers under [src/resources/], together
    with the properties of the retry policy, the error classification, the
    identifier rules and the response formatting.

    Conventions of the embedding.
    - JavaScript strings are [string]; the regular expressions of the source
      ([/^\d{9}$/], [/^\d{7}$/], [/^IMO\d{7}$/], [/^vessel:\/\/([^/]+)$/]) are
      written as boolean matchers over the characters.
    - A JavaScript object used as a query-parameter map is a
      [gmap string JsVal]; a key whose value is [undefined] is an absent key.
    - Asynchronous, effectful code threads a [World]: the chronological log
      of HTTP requests sent and of [setTimeout] waits.  The upstream service,
      [decodeURIComponent] and [Date] are supplied by a [Host].
    - Two calls of the client started together ([Promise.all]) are two
      calls in flight: each is resumed at its [await]s, one at a time, in
      the order in which the [Host] lets answers arrive and timers fire.
    - [throw] is the left summand of a result; [try]/[catch] is [try_catch]. *)

From Stdlib Require Import ZArith String Ascii List Lia Bool.
From stdpp Require Import base option gmap strings pretty.
From Equations Require Import Equations.
From Stdlib Require QArith.
Import ListNotations.

Local Open Scope string_scope.
Local Open Scope Z_scope.
Local Open Scope list_scope.

(** ** Strings and the regular expressions of the source *)

Module Str.

(** [\d]: an ASCII decimal digit. *)
Definition is_digit (c : ascii) : bool :=
  (48 <=? nat_of_ascii c)%nat && (nat_of_ascii c <=? 57)%nat.

Fixpoint all_digits (s : string) : bool :=
  match s with
  | EmptyString => true
  | String c r => is_digit c && all_digits r
  end.

(** [/^\d{n}$/.test(s)] *)
Definition digits_exactly (n : nat) (s : string) : bool :=
  (String.length s =? n)%nat && all_digits s.

(** [s.startsWith(p)] *)
Definition startsWith (p s : string) : bool := String.prefix p s.

(** [s.substring(n)]: the characters from index [n] to the end. *)
Fixpoint substring_from (n : nat) (s : string) : string :=
  match n, s with
  | O, _ => s
  | S _, EmptyString => EmptyString
  | S k, String _ r => substring_from k r
  end.

(** [/^\d{9}$/.test(s)] *)
Definition re_mmsi (s : string) : bool := digits_exactly 9 s.

(** [/^\d{7}$/.test(s)] *)
Definition re_imo_bare (s : string) : bool := digits_exactly 7 s.

(** [/^IMO\d{7}$/.test(s)] *)
Definition re_imo_prefixed (s : string) : bool :=
  startsWith "IMO" s && digits_exactly 7 (substring_from 3 s).

(** [[^/]+] anchored on both sides: one or more characters, none a slash. *)
Fixpoint no_slash (s : string) : bool :=
  match s with
  | EmptyString => true
  | String c r => negb (Ascii.eqb c "/") && no_slash r
  end.

Definition is_empty (s : string) : bool :=
  match s with EmptyString => true | _ => false end.

(** [s.match(/^vessel:\/\/([^/]+)$/)]: the captured group, when it matches. *)
Definition match_vessel_uri (uri : string) : option string :=
  if startsWith "vessel://" uri then
    let rest := substring_from 9 uri in
    if negb (is_empty rest) && no_slash rest then Some rest else None
  else None.

End Str.

(** ** The text of an integral number *)

(** [Number::toString] on an integral value [z]: the decimal digits when
    the magnitude is below 10^21, and from there on the exponent form
    ("1e+21", "1.1805916207174113e+21") on the shortest digits that
    denote the same value. *)
Module NumberText.

(** The Number value nearest to the integer [z > 0], ties to even;
    [None] past the largest finite value. *)
Definition nearest (z : Z) : option Z :=
  let e := Z.log2 z + 1 - 53 in
  if e <=? 0 then Some z
  else
    let m := Z.shiftr z e in
    let rest := z - Z.shiftl m e in
    let half := Z.shiftl 1 (e - 1) in
    let m' := if (half <? rest) || ((rest =? half) && Z.odd m) then m + 1 else m in
    let v := Z.shiftl m' e in
    if v <? 2 ^ 1024 then Some v else None.

Definition denotes (v z : Z) : bool :=
  match nearest v with
  | Some x => x =? z
  | None => false
  end.

(** The digits [s], their number [k] and the exponent [n] of
    Number::toString: [k] as small as possible with [s * 10^(n-k)]
    denoting [z], and [s] as close to [z] as possible. *)
Fixpoint shortest (fuel : nat) (k n z : Z) : Z * Z * Z :=
  match fuel with
  | O => (z, n, n)
  | S fuel' =>
      let unit := 10 ^ (n - k) in
      let lo := z / unit in
      let hi := lo + 1 in
      let pick s := if s =? 10 ^ k then (1, 1, n + 1) else (s, k, n) in
      match denotes (lo * unit) z, denotes (hi * unit) z with
      | true, true =>
          if (z - lo * unit <? hi * unit - z)
             || ((z - lo * unit =? hi * unit - z) && Z.even lo)
          then pick lo else pick hi
      | true, false => pick lo
      | false, true => pick hi
      | false, false => shortest fuel' (k + 1) n z
      end
  end.

(** [d.ddd e+x] for a positive integral value of 10^21 or more. *)
Definition exponential (z : Z) : string :=
  let n := Z.of_nat (String.length (pretty z)) in
  let '(s, k, n') := shortest 17 1 n z in
  match pretty s with
  | String d EmptyString => String d ("e+" +:+ pretty (n' - 1))
  | String d rest => String d ("." +:+ rest +:+ "e+" +:+ pretty (n' - 1))
  | EmptyString => EmptyString
  end.

(** Number::toString on an integral value. *)
Definition integral (z : Z) : string :=
  if Z.abs z <? 10 ^ 21 then pretty z
  else if z <? 0 then "-" +:+ exponential (- z)
  else exponential z.

End NumberText.

(** ** JavaScript values that occur in the payloads *)

(** A finite [number].  [NInt z] is the integral value [z] (both zeros are
    [NInt 0]: they print alike and are both falsy); [NFrac repr] is a
    non-integral value, kept as the text JavaScript prints for it. *)
Inductive number : Type :=
| NInt (z : Z)
| NFrac (repr : string).

(** [ToBoolean] on a number: only zero is falsy. *)
Definition num_truthy (n : number) : bool :=
  match n with
  | NInt z => negb (z =? 0)
  | NFrac _ => true
  end.

(** [ToString] on a number, as used by template literals. *)
Definition num_to_string (n : number) : string :=
  match n with
  | NInt z => NumberText.integral z
  | NFrac repr => repr
  end.

(** Truthiness of an optional number ([undefined] is falsy). *)
Definition opt_num_truthy (o : option number) : bool :=
  match o with
  | Some n => num_truthy n
  | None => false
  end.

(** Truthiness of an optional string ([undefined] and the empty string are
    falsy). *)
Definition opt_str_truthy (o : option string) : bool :=
  match o with
  | Some s => negb (Str.is_empty s)
  | None => false
  end.

(** [o || d] for an optional string [o]. *)
Definition str_or (o : option string) (d : string) : string :=
  match o with
  | Some s => if Str.is_empty s then d else s
  | None => d
  end.

Inductive JsVal : Type :=
| VStr (s : string)
| VNum (n : number).

(** ** Errors *)

Inductive ErrorCode : Type :=
| InvalidParams
| InvalidRequest
| InternalError
| MethodNotFound.

(** What a [throw] carries: an [McpError], or any other error, of which only
    the [message] is ever read. *)
Inductive Thrown : Type :=
| McpError (code : ErrorCode) (message : string)
| JsError (message : string).

Definition is_McpError (t : Thrown) : bool :=
  match t with
  | McpError _ _ => true
  | JsError _ => false
  end.

Definition error_message (t : Thrown) : string :=
  match t with
  | McpError _ m => m
  | JsError m => m
  end.

(** ** Response entities ([api-client.ts]) *)

Record VesselPosition : Type := {
  vp_mmsi : string;
  vp_imo : option string;
  vp_ship_name : option string;
  vp_latitude : number;
  vp_longitude : number;
  vp_speed : number;
  vp_heading : option number;
  vp_course : option number;
  vp_status : option string;
  vp_timestamp : string;
  vp_ship_type : option number;
  vp_destination : option string;
  vp_eta : option string;
}.




Record VesselDetails : Type := {
  vd_mmsi : string;
  vd_imo : option string;
  vd_name : string;
  vd_ship_type : number;
  vd_type_name : option string;
  vd_callsign : option string;
  vd_flag : option string;
  vd_gross_tonnage : option number;
  vd_summer_dwt : option number;
  vd_length_overall : option number;
  vd_breadth_extreme : option number;
  vd_year_built : option number;
  vd_home_port : option string;
}.

Record SearchParams : Type := {
  sp_vessel_name : option string;
  sp_mmsi : option string;
  sp_imo : option string;
  sp_ship_type : option number;
}.

Record AreaParams : Type := {
  ap_center_lat : number;
  ap_center_lon : number;
  ap_radius : number;
  ap_min_ship_type : option number;
  ap_max_ship_type : option number;
}.

(** ** Endpoints *)

Inductive Endpoint : Type :=
| VESSEL_POSITION
| VESSEL_DETAILS
| VESSEL_SEARCH
| VESSELS_IN_AREA.

(** The [ENDPOINTS] table. *)
Definition ENDPOINTS (e : Endpoint) : string :=
  match e with
  | VESSEL_POSITION => "/exportvessel/v:5/position"
  | VESSEL_DETAILS => "/exportvessel/v:4/vesseldetails"
  | VESSEL_SEARCH => "/exportvessel/v:5/ps01"
  | VESSELS_IN_AREA => "/exportvessel/v:5/ps02"
  end.

(** The type argument [T] each operation gives to [makeRequest<T>]. *)
Definition payload (e : Endpoint) : Type :=
  match e with
  | VESSEL_POSITION => VesselPosition
  | VESSEL_DETAILS => VesselDetails
  | VESSEL_SEARCH => list VesselPosition
  | VESSELS_IN_AREA => list VesselPosition
  end.

(** ** Error messages *)

Module ERROR_MESSAGES.
Definition MISSING_API_KEY : string := "MarineTraffic API key is required".
Definition RATE_LIMIT_EXCEEDED : string := "Rate limit exceeded for MarineTraffic API".
Definition INVALID_API_KEY : string := "Invalid MarineTraffic API key".
Definition API_ERROR : string := "MarineTraffic API error".
Definition NETWORK_ERROR : string := "Network error while connecting to MarineTraffic API".
End ERROR_MESSAGES.

(** ** The world: what the process does to its environment *)

Inductive Event : Type :=
| EvGet (e : Endpoint) (params : gmap string JsVal)
| EvSleep (ms : Z).

Definition World : Type := list Event.

(** Number of HTTP requests sent so far. *)
Fixpoint requests_sent (w : World) : nat :=
  match w with
  | [] => 0%nat
  | EvGet _ _ :: r => S (requests_sent r)
  | EvSleep _ :: r => requests_sent r
  end.

(** The waits made so far, in order. *)
Fixpoint waits (w : World) : list Z :=
  match w with
  | [] => []
  | EvGet _ _ :: r => waits r
  | EvSleep ms :: r => ms :: waits r
  end.

(** How [axiosInstance.get] settles. *)
Inductive AxiosOutcome (T : Type) : Type :=
| Resolved (data : T)
| RejectedWithResponse (status : Z) (data : string)
| RejectedNoResponse
| RejectedOther (err : Thrown).
Arguments Resolved {T} data.
Arguments RejectedWithResponse {T} status data.
Arguments RejectedNoResponse {T}.
Arguments RejectedOther {T} err.

(** The environment.  [http_get n e params] is how the [n]-th request of
    the process (counting from 0) settles when it goes to endpoint [e] with
    query parameters [params]: a response with a 2xx status resolves, any
    other status rejects with the response attached, a connection failure
    or timeout rejects with no response.  [decodeURIComponent] is [None]
    when it throws [URIError]; [dateToISOString s] is
    [new Date(s).toISOString()], [None] when that throws [RangeError].
    [resumes_first w] is the order in which answers arrive and timers
    fire while two calls of the client are in flight: with the log [w] so
    far and both calls able to go on, the event loop resumes the call that
    was started first when it is [true], the other one when it is
    [false]. *)
Record Host : Type := {
  http_get : nat -> forall e : Endpoint, gmap string JsVal -> AxiosOutcome (payload e);
  decodeURIComponent : string -> option string;
  dateToISOString : string -> option string;
  resumes_first : World -> bool;
}.

(** ** A small monad for code that throws and touches the world *)

Definition M (A : Type) : Type := World -> (Thrown + A) * World.

Definition ret {A} (a : A) : M A := fun w => (inr a, w).

Definition throw {A} (t : Thrown) : M A := fun w => (inl t, w).

Definition bind {A B} (m : M A) (k : A -> M B) : M B :=
  fun w =>
    match m w with
    | (inl t, w1) => (inl t, w1)
    | (inr a, w1) => k a w1
    end.

(** [try { body } catch (error) { handler(error) }] *)
Definition try_catch {A} (body : M A) (handler : Thrown -> M A) : M A :=
  fun w =>
    match body w with
    | (inl t, w1) => handler t w1
    | (inr a, w1) => (inr a, w1)
    end.

Notation "'do' x <- m ; k" := (bind m (fun x => k))
  (at level 10, x name, m at level 100, k at level 200).

(** ** MarineTrafficApiClient *)

Record MarineTrafficApiClient : Type := {
  apiKey : string;
  baseUrl : string;
  timeout : Z;
  retryDelay : Z;
  maxRetries : nat;
}.

(** [new MarineTrafficApiClient(apiKey)]; [undefined] is [None]. *)
Definition new_MarineTrafficApiClient (key : option string)
  : Thrown + MarineTrafficApiClient :=
  if negb (opt_str_truthy key) then
    inl (McpError InvalidParams ERROR_MESSAGES.MISSING_API_KEY)
  else
    inr {| apiKey := default EmptyString key;
           baseUrl := "https://services.marinetraffic.com/api";
           timeout := 10000;
           retryDelay := 1000;
           maxRetries := 3 |}.

(** The request interceptor: [{ ...config.params, apiKey: this.apiKey }]. *)
Definition request_interceptor (c : MarineTrafficApiClient)
    (params : gmap string JsVal) : gmap string JsVal :=
  <["apiKey" := VStr (apiKey c)]> params.

(** [obj[k] = v], where an [undefined] value leaves the key absent. *)
Definition set_prop (k : string) (v : option JsVal)
    (obj : gmap string JsVal) : gmap string JsVal :=
  match v with
  | Some x => <[k := x]> obj
  | None => obj
  end.

(** A [SearchParams] object, and an [AreaParams] object, as the map from
    their defined properties to their values. *)
Definition SearchParams_obj (sp : SearchParams) : gmap string JsVal :=
  set_prop "vessel_name" (VStr <$> sp_vessel_name sp)
    (set_prop "mmsi" (VStr <$> sp_mmsi sp)
       (set_prop "imo" (VStr <$> sp_imo sp)
          (set_prop "ship_type" (VNum <$> sp_ship_type sp) ∅))).

Definition AreaParams_obj (ap : AreaParams) : gmap string JsVal :=
  set_prop "center_lat" (Some (VNum (ap_center_lat ap)))
    (set_prop "center_lon" (Some (VNum (ap_center_lon ap)))
       (set_prop "radius" (Some (VNum (ap_radius ap)))
          (set_prop "min_ship_type" (VNum <$> ap_min_ship_type ap)
             (set_prop "max_ship_type" (VNum <$> ap_max_ship_type ap) ∅)))).

Section Client.

Variable host : Host.
Variable c : MarineTrafficApiClient.

(** [await this.axiosInstance.get(endpoint, { params })] *)
Definition axios_get (e : Endpoint) (params : gmap string JsVal)
    (w : World) : AxiosOutcome (payload e) * World :=
  let sent := request_interceptor c params in
  (http_get host (requests_sent w) e sent, w ++ [EvGet e sent]).

(** [await new Promise(resolve => setTimeout(resolve, delay))] *)
Definition sleep (delay : Z) (w : World) : World := w ++ [EvSleep delay].

Equations? makeRequest (e : Endpoint) (params : gmap string JsVal)
    (retryCount : nat) (w : World) : (Thrown + payload e) * World
    by wf (maxRetries c - retryCount)%nat lt :=
  makeRequest e params retryCount w with axios_get e params w := {
    | (Resolved data, w1) := (inr data, w1);
    | (RejectedWithResponse status data, w1)
        with bool_decide (status = 429), decide (retryCount < maxRetries c)%nat := {
        | true, left Hlt :=
            let delay := retryDelay c * 2 ^ Z.of_nat retryCount in
            makeRequest e params (retryCount + 1) (sleep delay w1);
        | _, _ :=
            if bool_decide (status = 401) then
              (inl (McpError InvalidRequest ERROR_MESSAGES.INVALID_API_KEY), w1)
            else
              (inl (McpError InternalError
                      (ERROR_MESSAGES.API_ERROR +:+ ": " +:+ pretty status
                         +:+ " - " +:+ data)), w1) };
    | (RejectedNoResponse, w1) := (inl (McpError InternalError ERROR_MESSAGES.NETWORK_ERROR), w1);
    | (RejectedOther err, w1) := (inl err, w1) }.
Proof. lia. Qed.

(** [getVesselPosition(identifier)] *)
Definition getVesselPosition (identifier : string) : M VesselPosition :=
  let isMMSI := Str.re_mmsi identifier in
  let params : gmap string JsVal :=
    if isMMSI then <["mmsi" := VStr identifier]> ∅
    else <["imo" := VStr identifier]> ∅ in
  makeRequest VESSEL_POSITION params 0.

(** [getVesselDetails(identifier)] *)
Definition getVesselDetails (identifier : string) : M VesselDetails :=
  let isMMSI := Str.re_mmsi identifier in
  let params : gmap string JsVal :=
    if isMMSI then <["mmsi" := VStr identifier]> ∅
    else <["imo" := VStr identifier]> ∅ in
  makeRequest VESSEL_DETAILS params 0.

(** [searchVessels(searchParams)] *)
Definition searchVessels (searchParams : SearchParams) : M (list VesselPosition) :=
  makeRequest VESSEL_SEARCH (SearchParams_obj searchParams) 0.

(** [getVesselsInArea(areaParams)] *)
Definition getVesselsInArea (areaParams : AreaParams) : M (list VesselPosition) :=
  makeRequest VESSELS_IN_AREA (AreaParams_obj areaParams) 0.

End Client.

(** ** Two calls in flight *)

(** A call of [makeRequest] at one of its [await]s: about to send the
    attempt numbered [retryCount] (at its start, or when the timer of its
    wait has fired); awaiting the answer [o] to the attempt it has sent;
    or settled. *)
Inductive Call (T : Type) : Type :=
| Sending (retryCount : nat)
| Awaiting (retryCount : nat) (o : AxiosOutcome T)
| Settled (r : Thrown + T).
Arguments Sending {T} retryCount.
Arguments Awaiting {T} retryCount o.
Arguments Settled {T} r.

#[global] Instance Endpoint_eq_dec : EqDecision Endpoint.
Proof. solve_decision. Defined.

(** The parameter map [getVesselPosition] and [getVesselDetails] build
    for their call of [makeRequest]. *)
Definition identifier_params (identifier : string) : gmap string JsVal :=
  let isMMSI := Str.re_mmsi identifier in
  if isMMSI then <["mmsi" := VStr identifier]> ∅
  else <["imo" := VStr identifier]> ∅.

Section InFlight.

Variable host : Host.
Variable c : MarineTrafficApiClient.

(** What a call of [makeRequest] on [e] and [params] does when the event
    loop resumes it, up to its next [await]: it sends its attempt
    (line 113), or it takes the answer (lines 114-143), which settles it
    or, for a 429 with a retry left, starts the timer of the wait. *)
Definition resume (e : Endpoint) (params : gmap string JsVal)
    (k : Call (payload e)) (w : World) : Call (payload e) * World :=
  match k with
  | Sending retryCount =>
      (Awaiting retryCount (fst (axios_get host c e params w)),
       snd (axios_get host c e params w))
  | Awaiting retryCount (Resolved data) => (Settled (inr data), w)
  | Awaiting retryCount (RejectedWithResponse status data) =>
      if bool_decide (status = 429) && bool_decide (retryCount < maxRetries c)%nat then
        let delay := retryDelay c * 2 ^ Z.of_nat retryCount in
        (Sending (retryCount + 1), sleep delay w)
      else if bool_decide (status = 401) then
        (Settled (inl (McpError InvalidRequest ERROR_MESSAGES.INVALID_API_KEY)), w)
      else
        (Settled (inl (McpError InternalError
                         (ERROR_MESSAGES.API_ERROR +:+ ": " +:+ pretty status
                            +:+ " - " +:+ data))), w)
  | Awaiting retryCount RejectedNoResponse =>
      (Settled (inl (McpError InternalError ERROR_MESSAGES.NETWORK_ERROR)), w)
  | Awaiting retryCount (RejectedOther err) => (Settled (inl err), w)
  | Settled r => (Settled r, w)
  end.

(** A bound on the number of times a call can still be resumed. *)
Definition remaining {T} (k : Call T) : nat :=
  match k with
  | Sending retryCount => 2 * (maxRetries c - retryCount) + 2
  | Awaiting retryCount _ => 2 * (maxRetries c - retryCount) + 1
  | Settled _ => 0
  end.

Section Pair.

Variables e1 e2 : Endpoint.
Variables params1 params2 : gmap string JsVal.

(** Two calls in flight until both have settled: the event loop resumes
    one of them at a time, in the order the host gives. *)
Equations? await_both (first : Call (payload e1)) (second : Call (payload e2))
    (w : World) : (Thrown + payload e1) * (Thrown + payload e2) * World
    by wf (remaining first + remaining second)%nat lt :=
  await_both (Settled r1) (Settled r2) w := (r1, r2, w);
  await_both (Settled r1) second w :=
    await_both (Settled r1) (fst (resume e2 params2 second w))
      (snd (resume e2 params2 second w));
  await_both first (Settled r2) w :=
    await_both (fst (resume e1 params1 first w)) (Settled r2)
      (snd (resume e1 params1 first w));
  await_both first second w :=
    if resumes_first host w then
      await_both (fst (resume e1 params1 first w)) second
        (snd (resume e1 params1 first w))
    else
      await_both first (fst (resume e2 params2 second w))
        (snd (resume e2 params2 second w)).
Proof.
  all: repeat match goal with
              | o : AxiosOutcome _ |- _ => destruct o
              end; simpl;
    repeat match goal with
           | |- context [if ?b then _ else _] => destruct b eqn:?
           end; simpl;
    repeat match goal with
           | H : _ && _ = true |- _ => apply andb_true_iff in H; destruct H
           | H : bool_decide _ = true |- _ => apply bool_decide_eq_true_1 in H
           end; lia.
Qed.

End Pair.

End InFlight.

(** ** Vocabulary for the retry policy *)

(** How an attempt that is not retried settles: the value returned at
    line 114, or what lines 126-143 throw. *)
Definition settle {T} (o : AxiosOutcome T) : Thrown + T :=
  match o with
  | Resolved data => inr data
  | RejectedWithResponse status data =>
      if bool_decide (status = 401) then
        inl (McpError InvalidRequest ERROR_MESSAGES.INVALID_API_KEY)
      else
        inl (McpError InternalError
               (ERROR_MESSAGES.API_ERROR +:+ ": " +:+ pretty status +:+ " - " +:+ data))
  | RejectedNoResponse => inl (McpError InternalError ERROR_MESSAGES.NETWORK_ERROR)
  | RejectedOther err => inl err
  end.

(** Whether the catch block takes the retry branch (line 120). *)
Definition retries (c : MarineTrafficApiClient) {T} (o : AxiosOutcome T)
    (retryCount : nat) : bool :=
  match o with
  | RejectedWithResponse status _ =>
      bool_decide (status = 429) && bool_decide (retryCount < maxRetries c)%nat
  | _ => false
  end.

(** A 429 response. *)
Definition rate_limited {T} (o : AxiosOutcome T) : Prop :=
  exists data, o = RejectedWithResponse 429 data.

(** The events of [k] attempts that are each answered 429 and retried,
    the first of them made at retry count [retryCount]. *)
Fixpoint backoff_log (c : MarineTrafficApiClient) (e : Endpoint)
    (sent : gmap string JsVal) (retryCount k : nat) : World :=
  match k with
  | O => []
  | S k' =>
      EvGet e sent :: EvSleep (retryDelay c * 2 ^ Z.of_nat retryCount)
        :: backoff_log c e sent (retryCount + 1) k'
  end.

(** Every request of a log satisfies [P]. *)
Definition all_requests (P : Endpoint -> gmap string JsVal -> Prop) (evs : World) : Prop :=
  Forall (fun ev => match ev with
                    | EvGet e q => P e q
                    | EvSleep _ => True
                    end) evs.

(** The query map [q] identifies the vessel by exactly one of [mmsi] and
    [imo]: by [mmsi] when [identifier] is 9 digits, by [imo] otherwise. *)
Definition one_identifier (identifier : string) (q : gmap string JsVal) : Prop :=
  if Str.re_mmsi identifier then
    q !! "mmsi" = Some (VStr identifier) /\ q !! "imo" = None
  else
    q !! "imo" = Some (VStr identifier) /\ q !! "mmsi" = None.

(** The query map [q] is the caller's [params] plus the credential [key]. *)
Definition carries_credential (key : string) (params q : gmap string JsVal) : Prop :=
  q !! "apiKey" = Some (VStr key)
  /\ forall k, k <> "apiKey" -> q !! k = params !! k.

(** What [.catch(() => null)] makes of a settled promise. *)
Definition or_null {A} (r : Thrown + A) : option A :=
  match r with
  | inl _ => None
  | inr a => Some a
  end.

(** The query map of a lookup by one key, as it is sent. *)
Definition id_query (c : MarineTrafficApiClient) (k identifier : string)
  : gmap string JsVal :=
  request_interceptor c (<[k := VStr identifier]> ∅).

(** An optional string that is absent or empty. *)
Definition blank (o : option string) : Prop :=
  o = None \/ o = Some EmptyString.

(** An optional mmsi, and an optional imo, that the format checks of the
    search tool let through: absent or empty, or of the right form. *)
Definition mmsi_format_ok (o : option string) : Prop :=
  blank o \/ exists m, o = Some m /\ Str.re_mmsi m = true.

Definition imo_format_ok (o : option string) : Prop :=
  blank o
  \/ exists s, o = Some s /\ (Str.re_imo_prefixed s = true \/ Str.re_imo_bare s = true).

(** An imo without its "IMO" prefix, if it has one. *)
Definition without_IMO (s : string) : string :=
  if Str.startsWith "IMO" s then Str.substring_from 3 s else s.

(** The query map [q] of a search request made for the criteria [args]
    with the credential [key]: the criteria as given, the imo without its
    prefix. *)
Definition search_query (key : string) (args : SearchParams)
    (q : gmap string JsVal) : Prop :=
  q !! "apiKey" = Some (VStr key)
  /\ q !! "vessel_name" = VStr <$> sp_vessel_name args
  /\ q !! "mmsi" = VStr <$> sp_mmsi args
  /\ q !! "imo" = VStr <$> (without_IMO <$> sp_imo args)
  /\ q !! "ship_type" = VNum <$> sp_ship_type args.

(** Running [m] from [w] sends [ev] before anything else. *)
Definition sends_first {A} (m : M A) (w : World) (ev : Event) : Prop :=
  exists rest, snd (m w) = w ++ ev :: rest.

(** Running [m] from [w] throws [err] and leaves the world as it was. *)
Definition rejects {A} (m : M A) (w : World) (err : Thrown) : Prop :=
  m w = (inl err, w).

(** ** Helpers shared by the handlers *)

(** The one-character string holding a double quote. *)
Definition dquote : string := String (ascii_of_nat 34) EmptyString.

(** A value already serialised: [JSON.stringify(value, null, 2)]. *)
Inductive JsonText (A : Type) : Type :=
| JSON_stringify (value : A).
Arguments JSON_stringify {A} value.

(** [{ content: [{ type: 'text', text }] }] *)
Inductive ToolResult (A : Type) : Type :=
| ToolText (text : JsonText A).
Arguments ToolText {A} text.

(** [new Date(s).toISOString()] *)
Definition new_Date_toISOString (host : Host) (s : string) : Thrown + string :=
  match dateToISOString host s with
  | Some iso => inr iso
  | None => inl (JsError "Invalid time value")
  end.

(** [x ? `${x}suffix` : fallback] for an optional number [x]. *)
Definition num_with_suffix (x : option number) (suffix fallback : string) : string :=
  match x with
  | Some n => if num_truthy n then num_to_string n +:+ suffix else fallback
  | None => fallback
  end.

(** [TABLE[n]] for a table keyed by integers. *)
Definition table_lookup (table : gmap Z string) (n : number) : option string :=
  match n with
  | NInt z => table !! z
  | NFrac _ => None
  end.

(** [vessels.map(f)] for an [f] that may throw. *)
Fixpoint map_throwing {A B} (f : A -> Thrown + B) (l : list A) : Thrown + list B :=
  match l with
  | [] => inr []
  | x :: r =>
      match f x with
      | inl t => inl t
      | inr y =>
          match map_throwing f r with
          | inl t => inl t
          | inr ys => inr (y :: ys)
          end
      end
  end.

(** The catch block every handler ends with. *)
Definition rethrow_or_wrap {A} (what : string) (error : Thrown) : M A :=
  if is_McpError error then throw error
  else throw (McpError InternalError (what +:+ ": " +:+ error_message error)).

Definition lift {A} (r : Thrown + A) : M A := fun w => (r, w).

Record LatLon : Type := {
  latitude : number;
  longitude : number;
}.

(** The ship type table of the files that carry the simplified version. *)
Definition SHIP_TYPE_MAPPING_simplified : gmap Z string :=
  list_to_map
    [(0, "Not available"); (1, "Reserved"); (2, "Wing In Ground");
     (4, "High-Speed Craft"); (6, "Passenger"); (7, "Cargo"); (8, "Tanker");
     (9, "Other"); (30, "Fishing"); (31, "Towing"); (32, "Towing");
     (33, "Dredging"); (34, "Diving"); (35, "Military"); (36, "Sailing");
     (37, "Pleasure Craft"); (50, "Pilot Vessel"); (51, "Search and Rescue");
     (52, "Tug"); (53, "Port Tender"); (54, "Anti-Pollution");
     (55, "Law Enforcement")].

(** The payload [formatVesselData] builds; the function is repeated in
    [tools/vessel-search.ts], [tools/vessels-in-area.ts] and
    [resources/vessels-area.ts]. *)
Record FormattedVessel : Type := {
  fv_mmsi : string;
  fv_imo : string;
  fv_name : string;
  fv_position : LatLon;
  fv_speed : string;
  fv_course : string;
  fv_status : string;
  fv_type : string;
  fv_destination : string;
  fv_eta : string;
  fv_last_update : string;
}.

(** ** [tools/vessel-position.ts] *)

Module PositionTool.

Record FormattedResponse : Type := {
  mmsi : string;
  imo : string;
  name : string;
  position : LatLon;
  speed : string;
  course : string;
  heading : string;
  status : string;
  last_update : string;
  destination : string;
  eta : string;
}.

Definition invalid_identifier : string :=
  "Invalid vessel identifier. Must be a 9-digit MMSI number or IMO number (format: IMO1234567)".

Section Tool.
Variable host : Host.
Variable apiClient : MarineTrafficApiClient.

(** The object literal of lines 42-57; it throws when the timestamp is
    not a date. *)
Definition formattedResponse (vesselPosition : VesselPosition)
  : Thrown + FormattedResponse :=
  match new_Date_toISOString host (vp_timestamp vesselPosition) with
  | inl t => inl t
  | inr iso =>
      inr {| mmsi := vp_mmsi vesselPosition;
             imo := str_or (vp_imo vesselPosition) "N/A";
             name := str_or (vp_ship_name vesselPosition) "Unknown";
             position := {| latitude := vp_latitude vesselPosition;
                            longitude := vp_longitude vesselPosition |};
             speed := num_to_string (vp_speed vesselPosition) +:+ " knots";
             course := num_with_suffix (vp_course vesselPosition) "°" "N/A";
             heading := num_with_suffix (vp_heading vesselPosition) "°" "N/A";
             status := str_or (vp_status vesselPosition) "Unknown";
             last_update := iso;
             destination := str_or (vp_destination vesselPosition) "Unknown";
             eta := str_or (vp_eta vesselPosition) "Unknown" |}
  end.

Definition getVesselPositionTool (identifier : string) : M (ToolResult FormattedResponse) :=
  try_catch
    (if negb (Str.re_mmsi identifier) && negb (Str.re_imo_prefixed identifier) then
       throw (McpError InvalidParams invalid_identifier)
     else
       let cleanIdentifier :=
         if Str.startsWith "IMO" identifier then Str.substring_from 3 identifier
         else identifier in
       do vesselPosition <- getVesselPosition host apiClient cleanIdentifier;
       do response <- lift (formattedResponse vesselPosition);
       ret (ToolText (JSON_stringify response)))
    (rethrow_or_wrap "Error retrieving vessel position").

End Tool.
End PositionTool.

(** ** [tools/vessel-details.ts] *)

Module DetailsTool.

Definition SHIP_TYPE_MAPPING : gmap Z string :=
  list_to_map
    [(0, "Not available"); (1, "Reserved"); (2, "Wing In Ground");
     (3, "Special Category"); (4, "High-Speed Craft"); (5, "Special Category");
     (6, "Passenger"); (7, "Cargo"); (8, "Tanker"); (9, "Other");
     (10, "Reserved"); (11, "Reserved"); (12, "Reserved"); (13, "Reserved");
     (14, "Reserved"); (15, "Reserved"); (16, "Reserved"); (17, "Reserved");
     (18, "Reserved"); (19, "Reserved");
     (20, "Wing In Ground (WIG)"); (21, "Wing In Ground (WIG)");
     (22, "Wing In Ground (WIG)"); (23, "Wing In Ground (WIG)");
     (24, "Wing In Ground (WIG)"); (25, "Wing In Ground (WIG)");
     (26, "Wing In Ground (WIG)"); (27, "Wing In Ground (WIG)");
     (28, "Wing In Ground (WIG)"); (29, "Wing In Ground (WIG)");
     (30, "Fishing"); (31, "Towing"); (32, "Towing"); (33, "Dredging");
     (34, "Diving"); (35, "Military"); (36, "Sailing"); (37, "Pleasure Craft");
     (38, "Reserved"); (39, "Reserved");
     (40, "High-Speed Craft"); (41, "High-Speed Craft"); (42, "High-Speed Craft");
     (43, "High-Speed Craft"); (44, "High-Speed Craft"); (45, "High-Speed Craft");
     (46, "High-Speed Craft"); (47, "High-Speed Craft"); (48, "High-Speed Craft");
     (49, "High-Speed Craft");
     (50, "Pilot Vessel"); (51, "Search and Rescue"); (52, "Tug");
     (53, "Port Tender"); (54, "Anti-Pollution"); (55, "Law Enforcement");
     (56, "Local Vessel"); (57, "Local Vessel"); (58, "Medical Transport");
     (59, "Special Craft");
     (60, "Passenger"); (61, "Passenger"); (62, "Passenger"); (63, "Passenger");
     (64, "Passenger"); (65, "Passenger"); (66, "Passenger"); (67, "Passenger");
     (68, "Passenger"); (69, "Passenger");
     (70, "Cargo"); (71, "Cargo"); (72, "Cargo"); (73, "Cargo"); (74, "Cargo");
     (75, "Cargo"); (76, "Cargo"); (77, "Cargo"); (78, "Cargo"); (79, "Cargo");
     (80, "Tanker"); (81, "Tanker"); (82, "Tanker"); (83, "Tanker"); (84, "Tanker");
     (85, "Tanker"); (86, "Tanker"); (87, "Tanker"); (88, "Tanker"); (89, "Tanker");
     (90, "Other"); (91, "Other"); (92, "Other"); (93, "Other"); (94, "Other");
     (95, "Other"); (96, "Other"); (97, "Other"); (98, "Other"); (99, "Other")].

Record VesselType : Type := {
  code : number;
  type_name : string;
}.

Record Dimensions : Type := {
  length_overall : string;
  breadth_extreme : string;
}.

Record Tonnage : Type := {
  gross : string;
  summer_dwt : string;
}.

Record FormattedResponse : Type := {
  mmsi : string;
  imo : string;
  name : string;
  vessel_type : VesselType;
  callsign : string;
  flag : string;
  dimensions : Dimensions;
  tonnage : Tonnage;
  year_built : JsVal;
  home_port : string;
}.

Definition invalid_identifier : string :=
  "Invalid vessel identifier. Must be a 9-digit MMSI number or IMO number (format: IMO1234567)".

(** The object literal of lines 146-176. *)
Definition formattedResponse (vesselDetails : VesselDetails) : FormattedResponse :=
  {| mmsi := vd_mmsi vesselDetails;
     imo := str_or (vd_imo vesselDetails) "N/A";
     name := vd_name vesselDetails;
     vessel_type :=
       {| code := vd_ship_type vesselDetails;
          type_name :=
            str_or (vd_type_name vesselDetails)
              (str_or (table_lookup SHIP_TYPE_MAPPING (vd_ship_type vesselDetails))
                 "Unknown") |};
     callsign := str_or (vd_callsign vesselDetails) "N/A";
     flag := str_or (vd_flag vesselDetails) "N/A";
     dimensions :=
       {| length_overall := num_with_suffix (vd_length_overall vesselDetails) " m" "N/A";
          breadth_extreme := num_with_suffix (vd_breadth_extreme vesselDetails) " m" "N/A" |};
     tonnage :=
       {| gross := num_with_suffix (vd_gross_tonnage vesselDetails) " GT" "N/A";
          summer_dwt := num_with_suffix (vd_summer_dwt vesselDetails) " t" "N/A" |};
     year_built :=
       match vd_year_built vesselDetails with
       | Some y => if num_truthy y then VNum y else VStr "N/A"
       | None => VStr "N/A"
       end;
     home_port := str_or (vd_home_port vesselDetails) "N/A" |}.

Section Tool.
Variable host : Host.
Variable apiClient : MarineTrafficApiClient.

Definition getVesselDetailsTool (identifier : string) : M (ToolResult FormattedResponse) :=
  try_catch
    (if negb (Str.re_mmsi identifier) && negb (Str.re_imo_prefixed identifier) then
       throw (McpError InvalidParams invalid_identifier)
     else
       let cleanIdentifier :=
         if Str.startsWith "IMO" identifier then Str.substring_from 3 identifier
         else identifier in
       do vesselDetails <- getVesselDetails host apiClient cleanIdentifier;
       ret (ToolText (JSON_stringify (formattedResponse vesselDetails))))
    (rethrow_or_wrap "Error retrieving vessel details").

End Tool.
End DetailsTool.

(** ** [tools/vessel-search.ts] *)

Module SearchTool.

Definition SHIP_TYPE_MAPPING : gmap Z string := SHIP_TYPE_MAPPING_simplified.

Record Response : Type := {
  count : nat;
  vessels : list FormattedVessel;
}.

Definition missing_parameter : string :=
  "At least one search parameter (vessel_name, mmsi, imo, or ship_type) must be provided".

Definition invalid_mmsi : string :=
  "Invalid MMSI number. Must be a 9-digit number".

Definition invalid_imo : string :=
  "Invalid IMO number. Must be a 7-digit number, optionally prefixed with "
    +:+ dquote +:+ "IMO" +:+ dquote.

Section Tool.
Variable host : Host.
Variable apiClient : MarineTrafficApiClient.

Definition formatVesselData (vessel : VesselPosition) : Thrown + FormattedVessel :=
  match new_Date_toISOString host (vp_timestamp vessel) with
  | inl t => inl t
  | inr iso =>
      inr {| fv_mmsi := vp_mmsi vessel;
             fv_imo := str_or (vp_imo vessel) "N/A";
             fv_name := str_or (vp_ship_name vessel) "Unknown";
             fv_position := {| latitude := vp_latitude vessel;
                               longitude := vp_longitude vessel |};
             fv_speed := num_to_string (vp_speed vessel) +:+ " knots";
             fv_course := num_with_suffix (vp_course vessel) "°" "N/A";
             fv_status := str_or (vp_status vessel) "Unknown";
             fv_type :=
               match vp_ship_type vessel with
               | Some t =>
                   if num_truthy t then
                     num_to_string t +:+ " (" +:+
                       str_or (table_lookup SHIP_TYPE_MAPPING t) "Unknown" +:+ ")"
                   else "Unknown"
               | None => "Unknown"
               end;
             fv_destination := str_or (vp_destination vessel) "Unknown";
             fv_eta := str_or (vp_eta vessel) "Unknown";
             fv_last_update := iso |}
  end.

(** The statements of the [try] block up to the call of the client
    (lines 67-94).  [args] is the caller's object: the result carries the
    object as those statements leave it. *)
Definition validate_and_clean (args : SearchParams) : (Thrown + unit) * SearchParams :=
  if negb (opt_str_truthy (sp_vessel_name args)) && negb (opt_str_truthy (sp_mmsi args))
     && negb (opt_str_truthy (sp_imo args)) && negb (opt_num_truthy (sp_ship_type args))
  then (inl (McpError InvalidParams missing_parameter), args)
  else if opt_str_truthy (sp_mmsi args) && negb (Str.re_mmsi (default EmptyString (sp_mmsi args)))
  then (inl (McpError InvalidParams invalid_mmsi), args)
  else if opt_str_truthy (sp_imo args)
          && negb (Str.re_imo_prefixed (default EmptyString (sp_imo args)))
          && negb (Str.re_imo_bare (default EmptyString (sp_imo args)))
  then (inl (McpError InvalidParams invalid_imo), args)
  else if opt_str_truthy (sp_imo args) && Str.startsWith "IMO" (default EmptyString (sp_imo args))
  then (inr tt,
        {| sp_vessel_name := sp_vessel_name args;
           sp_mmsi := sp_mmsi args;
           sp_imo := Some (Str.substring_from 3 (default EmptyString (sp_imo args)));
           sp_ship_type := sp_ship_type args |})
  else (inr tt, args).

(** [searchVesselsTool(apiClient, args)].  The second component is the
    caller's [args] object after the call. *)
Definition searchVesselsTool (args : SearchParams) (w : World)
  : (Thrown + ToolResult Response) * SearchParams * World :=
  let '(checked, args1) := validate_and_clean args in
  let body : M (ToolResult Response) :=
    do _ <- lift checked;
    do vessels <- searchVessels host apiClient args1;
    do formattedVessels <- lift (map_throwing formatVesselData vessels);
    ret (ToolText (JSON_stringify
           {| count := length formattedVessels; vessels := formattedVessels |})) in
  let '(r, w1) := try_catch body (rethrow_or_wrap "Error searching for vessels") w in
  (r, args1, w1).

End Tool.
End SearchTool.

(** ** [tools/vessels-in-area.ts]: the formatter *)

Module AreaTool.

Definition SHIP_TYPE_MAPPING : gmap Z string := SHIP_TYPE_MAPPING_simplified.

Section Tool.
Variable host : Host.

Definition formatVesselData (vessel : VesselPosition) : Thrown + FormattedVessel :=
  match new_Date_toISOString host (vp_timestamp vessel) with
  | inl t => inl t
  | inr iso =>
      inr {| fv_mmsi := vp_mmsi vessel;
             fv_imo := str_or (vp_imo vessel) "N/A";
             fv_name := str_or (vp_ship_name vessel) "Unknown";
             fv_position := {| latitude := vp_latitude vessel;
                               longitude := vp_longitude vessel |};
             fv_speed := num_to_string (vp_speed vessel) +:+ " knots";
             fv_course := num_with_suffix (vp_course vessel) "°" "N/A";
             fv_status := str_or (vp_status vessel) "Unknown";
             fv_type :=
               match vp_ship_type vessel with
               | Some t =>
                   if num_truthy t then
                     num_to_string t +:+ " (" +:+
                       str_or (table_lookup SHIP_TYPE_MAPPING t) "Unknown" +:+ ")"
                   else "Unknown"
               | None => "Unknown"
               end;
             fv_destination := str_or (vp_destination vessel) "Unknown";
             fv_eta := str_or (vp_eta vessel) "Unknown";
             fv_last_update := iso |}
  end.

End Tool.
End AreaTool.

(** ** [resources/vessels-area.ts]: the formatter *)

Module AreaResource.

Definition SHIP_TYPE_MAPPING : gmap Z string := SHIP_TYPE_MAPPING_simplified.

Section Resource.
Variable host : Host.

Definition formatVesselData (vessel : VesselPosition) : Thrown + FormattedVessel :=
  match new_Date_toISOString host (vp_timestamp vessel) with
  | inl t => inl t
  | inr iso =>
      inr {| fv_mmsi := vp_mmsi vessel;
             fv_imo := str_or (vp_imo vessel) "N/A";
             fv_name := str_or (vp_ship_name vessel) "Unknown";
             fv_position := {| latitude := vp_latitude vessel;
                               longitude := vp_longitude vessel |};
             fv_speed := num_to_string (vp_speed vessel) +:+ " knots";
             fv_course := num_with_suffix (vp_course vessel) "°" "N/A";
             fv_status := str_or (vp_status vessel) "Unknown";
             fv_type :=
               match vp_ship_type vessel with
               | Some t =>
                   if num_truthy t then
                     num_to_string t +:+ " (" +:+
                       str_or (table_lookup SHIP_TYPE_MAPPING t) "Unknown" +:+ ")"
                   else "Unknown"
               | None => "Unknown"
               end;
             fv_destination := str_or (vp_destination vessel) "Unknown";
             fv_eta := str_or (vp_eta vessel) "Unknown";
             fv_last_update := iso |}
  end.

End Resource.
End AreaResource.

(** ** [resources/vessel.ts] *)

Module VesselResource.

Definition SHIP_TYPE_MAPPING : gmap Z string := SHIP_TYPE_MAPPING_simplified.

Record VesselType : Type := {
  code : number;
  type_name : string;
}.

Record PositionBlock : Type := {
  latitude : number;
  longitude : number;
  speed : string;
  course : string;
  heading : string;
  status : string;
  last_update : string;
}.

Record Dimensions : Type := {
  length_overall : string;
  breadth_extreme : string;
}.

Record Tonnage : Type := {
  gross : string;
  summer_dwt : string;
}.

Record DetailsBlock : Type := {
  callsign : string;
  flag : string;
  dimensions : Dimensions;
  tonnage : Tonnage;
  year_built : JsVal;
  home_port : string;
}.

Record Voyage : Type := {
  destination : string;
  eta : string;
}.

(** Fields whose value is [undefined] are [None]. *)
Record VesselData : Type := {
  mmsi : string;
  imo : string;
  name : string;
  vessel_type : option VesselType;
  position : option PositionBlock;
  details : option DetailsBlock;
  voyage : option Voyage;
}.

Definition invalid_identifier : string :=
  "Invalid vessel identifier. Must be a 9-digit MMSI number or IMO number (optionally prefixed with "
    +:+ dquote +:+ "IMO" +:+ dquote +:+ ")".

Section Resource.
Variable host : Host.
Variable apiClient : MarineTrafficApiClient.

(** The object literal of lines 86-134; [position] and [details] are
    [None] when they are [null]. *)
Definition vesselData (identifier : string)
    (position : option VesselPosition) (details : option VesselDetails)
  : Thrown + VesselData :=
  match
    match position with
    | Some p =>
        match new_Date_toISOString host (vp_timestamp p) with
        | inl t => inl t
        | inr iso =>
            inr (Some {| latitude := vp_latitude p;
                         longitude := vp_longitude p;
                         speed := num_to_string (vp_speed p) +:+ " knots";
                         course := num_with_suffix (vp_course p) "°" "N/A";
                         heading := num_with_suffix (vp_heading p) "°" "N/A";
                         status := str_or (vp_status p) "Unknown";
                         last_update := iso |})
        end
    | None => inr None
    end
  with
  | inl t => inl t
  | inr position_block =>
      inr {| mmsi := str_or (vp_mmsi <$> position) (str_or (vd_mmsi <$> details) identifier);
             imo := str_or (position ≫= vp_imo) (str_or (details ≫= vd_imo) "N/A");
             name := str_or (position ≫= vp_ship_name) (str_or (vd_name <$> details) "Unknown");
             vessel_type :=
               match details with
               | Some d =>
                   Some {| code := vd_ship_type d;
                           type_name :=
                             str_or (vd_type_name d)
                               (str_or (table_lookup SHIP_TYPE_MAPPING (vd_ship_type d))
                                  "Unknown") |}
               | None =>
                   match position ≫= vp_ship_type with
                   | Some t =>
                       if num_truthy t then
                         Some {| code := t;
                                 type_name :=
                                   str_or (table_lookup SHIP_TYPE_MAPPING t) "Unknown" |}
                       else None
                   | None => None
                   end
               end;
             position := position_block;
             details :=
               match details with
               | Some d =>
                   Some {| callsign := str_or (vd_callsign d) "N/A";
                           flag := str_or (vd_flag d) "N/A";
                           dimensions :=
                             {| length_overall :=
                                  num_with_suffix (vd_length_overall d) " m" "N/A";
                                breadth_extreme :=
                                  num_with_suffix (vd_breadth_extreme d) " m" "N/A" |};
                           tonnage :=
                             {| gross := num_with_suffix (vd_gross_tonnage d) " GT" "N/A";
                                summer_dwt := num_with_suffix (vd_summer_dwt d) " t" "N/A" |};
                           year_built :=
                             match vd_year_built d with
                             | Some y => if num_truthy y then VNum y else VStr "N/A"
                             | None => VStr "N/A"
                             end;
                           home_port := str_or (vd_home_port d) "N/A" |}
               | None => None
               end;
             voyage :=
               match position with
               | Some p =>
                   Some {| destination := str_or (vp_destination p) "Unknown";
                           eta := str_or (vp_eta p) "Unknown" |}
               | None => None
               end |}
  end.

(** [Promise.all] over the two guarded calls.  Both calls are started
    when the array is built, the position call first: each sends its
    first request before anything else can happen.  From then on both are
    in flight, and the event loop resumes them as answers arrive and
    timers fire, until both have settled; a call that settles with an
    error is [null] by its own [.catch]. *)
Definition fetch_both (cleanIdentifier : string)
  : M (option VesselPosition * option VesselDetails) :=
  fun w =>
    let params := identifier_params cleanIdentifier in
    let '(position, w1) := resume host apiClient VESSEL_POSITION params (Sending 0) w in
    let '(details, w2) := resume host apiClient VESSEL_DETAILS params (Sending 0) w1 in
    let '(position, details, w3) :=
      await_both host apiClient VESSEL_POSITION VESSEL_DETAILS params params
        position details w2 in
    (inr (or_null position, or_null details), w3).

Definition no_data (identifier : string) : Thrown :=
  McpError InvalidRequest ("No data found for vessel with identifier: " +:+ identifier).

Definition getVesselResource (uri : string) : M (JsonText VesselData) :=
  try_catch
    (match Str.match_vessel_uri uri with
     | None => throw (McpError InvalidRequest ("Invalid vessel resource URI: " +:+ uri))
     | Some group =>
         match decodeURIComponent host group with
         | None => throw (JsError "URI malformed")
         | Some identifier =>
             if negb (Str.re_mmsi identifier) && negb (Str.re_imo_prefixed identifier)
                && negb (Str.re_imo_bare identifier)
             then throw (McpError InvalidRequest invalid_identifier)
             else
               let cleanIdentifier :=
                 if Str.startsWith "IMO" identifier then Str.substring_from 3 identifier
                 else identifier in
               do both <- fetch_both cleanIdentifier;
               match both with
               | (None, None) => throw (no_data identifier)
               | (position, details) =>
                   do data <- lift (vesselData identifier position details);
                   ret (JSON_stringify data)
               end
         end
     end)
    (rethrow_or_wrap "Error retrieving vessel resource").

End Resource.
End VesselResource.

(** ** Vocabulary for calls in flight *)

(** The answers to the requests of the log [evs] that went to endpoint
    [e], in the order the requests were sent; [n] requests had been sent
    before the first event of [evs]. *)
Fixpoint answers (host : Host) (e : Endpoint) (n : nat) (evs : World)
  : list (AxiosOutcome (payload e)) :=
  match evs with
  | [] => []
  | EvGet e' q :: rest =>
      (if decide (e' = e) then [http_get host n e q] else [])
        ++ answers host e (S n) rest
  | EvSleep _ :: rest => answers host e n rest
  end.

(** What one call of [makeRequest], started at [retryCount], makes of the
    answers to its own requests: every answer but the last one is retried,
    the last one is not and settles the call.  [None] when the answers are
    not those of a call that ran to its end. *)
Fixpoint verdict (c : MarineTrafficApiClient) {T} (retryCount : nat)
    (given : list (AxiosOutcome T)) : option (Thrown + T) :=
  match given with
  | [] => None
  | o :: rest =>
      match rest with
      | [] => if retries c o retryCount then None else Some (settle o)
      | _ :: _ => if retries c o retryCount then verdict c (S retryCount) rest else None
      end
  end.

(** Every answer of [given] is retried at its place, counting from
    [retryCount]. *)
Definition retried (c : MarineTrafficApiClient) {T} (retryCount : nat)
    (given : list (AxiosOutcome T)) : Prop :=
  forall i o, given !! i = Some o -> retries c o (retryCount + i) = true.

(** What a call in flight has made so far of the answers [given] to its
    own requests. *)
Definition call_inv (c : MarineTrafficApiClient) {T} (k : Call T)
    (given : list (AxiosOutcome T)) : Prop :=
  match k with
  | Sending retryCount => retried c 0 given /\ length given = retryCount
  | Awaiting retryCount o =>
      exists before,
        given = before ++ [o] /\ retried c 0 before /\ length before = retryCount
  | Settled r => verdict c 0 given = Some r
  end.

Definition unsettled {T} (k : Call T) : Prop :=
  match k with
  | Settled _ => False
  | _ => True
  end.

(** A request of one of two calls in flight. *)
Definition of_the_two (c : MarineTrafficApiClient) (e1 e2 : Endpoint)
    (params1 params2 : gmap string JsVal) (e : Endpoint) (q : gmap string JsVal) : Prop :=
  (e = e1 /\ q = request_interceptor c params1)
  \/ (e = e2 /\ q = request_interceptor c params2).

(** ** Vocabulary for the rendering of a zero *)


(** ** Concrete environments and inputs *)

Module Examples.

Definition position : VesselPosition :=
  {| vp_mmsi := "123456789";
     vp_imo := Some "1234567";
     vp_ship_name := Some "EVER GIVEN";
     vp_latitude := NFrac "37.8199";
     vp_longitude := NFrac "-122.4783";
     vp_speed := NInt 12;
     vp_heading := Some (NInt 0);
     vp_course := Some (NInt 0);
     vp_status := None;
     vp_timestamp := "2024-01-01T00:00:00Z";
     vp_ship_type := Some (NInt 0);
     vp_destination := None;
     vp_eta := None |}.

Definition details : VesselDetails :=
  {| vd_mmsi := "123456789";
     vd_imo := Some "1234567";
     vd_name := "EVER GIVEN";
     vd_ship_type := NInt 0;
     vd_type_name := None;
     vd_callsign := None;
     vd_flag := None;
     vd_gross_tonnage := None;
     vd_summer_dwt := None;
     vd_length_overall := None;
     vd_breadth_extreme := None;
     vd_year_built := None;
     vd_home_port := None |}.

(** What the upstream service resolves each endpoint with. *)
Definition data (e : Endpoint) : payload e :=
  match e with
  | VESSEL_POSITION => position
  | VESSEL_DETAILS => details
  | VESSEL_SEARCH => [position]
  | VESSELS_IN_AREA => [position]
  end.

(** A host whose dates are already ISO strings and whose URI components
    need no decoding; two calls in flight are resumed in turn. *)
Definition host_with (get : nat -> forall e : Endpoint, gmap string JsVal -> AxiosOutcome (payload e))
  : Host :=
  {| http_get := get;
     decodeURIComponent := Some;
     dateToISOString := Some;
     resumes_first := fun w => Nat.even (length w) |}.

(** Every request succeeds. *)
Definition host_ok : Host :=
  host_with (fun _ e _ => Resolved (data e)).

(** The first [k] requests are answered 429, the later ones succeed. *)
Definition host_limited (k : nat) : Host :=
  host_with (fun n e _ =>
               if (n <? k)%nat then RejectedWithResponse 429 "Too Many Requests"
               else Resolved (data e)).

(** The first [k] requests are answered 429, the later ones 401. *)
Definition host_limited_then_401 (k : nat) : Host :=
  host_with (fun n e _ =>
               if (n <? k)%nat then RejectedWithResponse 429 "Too Many Requests"
               else RejectedWithResponse 401 "Unauthorized").

(** Position requests fail with a 500, all others succeed. *)
Definition host_no_position : Host :=
  host_with (fun _ e _ =>
               match e with
               | VESSEL_POSITION => RejectedWithResponse 500 "Internal Server Error"
               | _ => Resolved (data e)
               end).

(** Every request succeeds, and no timestamp is a date. *)
Definition host_no_dates : Host :=
  {| http_get := fun _ e _ => Resolved (data e);
     decodeURIComponent := Some;
     dateToISOString := fun _ => None;
     resumes_first := fun w => Nat.even (length w) |}.

Definition client : MarineTrafficApiClient :=
  {| apiKey := "secret";
     baseUrl := "https://services.marinetraffic.com/api";
     timeout := 10000;
     retryDelay := 1000;
     maxRetries := 3 |}.

Definition no_criteria : SearchParams :=
  {| sp_vessel_name := None; sp_mmsi := None; sp_imo := None; sp_ship_type := None |}.

End Examples.

(** ** Numbers by value *)

(** The comparisons of the area handlers are on the values of numbers.
    The value of an integral number is the integer; the value of a
    non-integral one is read back from its printed text, a decimal
    numeral with an optional exponent ("37.8199", "-0.5", "1.5e-7").
    A text that is not such a numeral has no value, and every comparison
    with it is false. *)
Module Num.
Import QArith.
Local Open Scope Z_scope.

Fixpoint digits_to_N (acc : N) (s : string) : option N :=
  match s with
  | EmptyString => Some acc
  | String ch r =>
      if Str.is_digit ch then digits_to_N (10 * acc + (N_of_ascii ch - 48))%N r
      else None
  end.

(** One or more digits. *)
Definition natural (s : string) : option N :=
  if Str.is_empty s then None else digits_to_N 0%N s.

(** The text before the first [sep], and the text after it when there is
    one. *)
Fixpoint split_at (sep : ascii) (s : string) : string * option string :=
  match s with
  | EmptyString => (EmptyString, None)
  | String ch r =>
      if Ascii.eqb ch sep then (EmptyString, Some r)
      else (String ch (fst (split_at sep r)), snd (split_at sep r))
  end.

(** The sign and the digits of an exponent. *)
Definition signed (s : string) : bool * string :=
  match s with
  | String "-" r => (true, r)
  | String "+" r => (false, r)
  | _ => (false, s)
  end.

Definition exponent (s : option string) : option Z :=
  match s with
  | None => Some 0
  | Some t =>
      match natural (snd (signed t)) with
      | Some n => Some (if fst (signed t) then - Z.of_N n else Z.of_N n)
      | None => None
      end
  end.

Definition fraction (s : option string) : option (N * nat) :=
  match s with
  | None => Some (0%N, 0%nat)
  | Some t =>
      match natural t with
      | Some n => Some (n, String.length t)
      | None => None
      end
  end.

Definition decimal_value (s : string) : option Q :=
  let negative := match s with String "-" _ => true | _ => false end in
  let body := match s with String "-" r => r | _ => s end in
  let mantissa := fst (split_at "e" body) in
  match natural (fst (split_at "." mantissa)),
        fraction (snd (split_at "." mantissa)),
        exponent (snd (split_at "e" body)) with
  | Some i, Some (f, places), Some e =>
      let digits := Z.of_N (i * 10 ^ N.of_nat places + f) in
      Some (inject_Z (if negative then - digits else digits)
            * Qpower (inject_Z 10) (e - Z.of_nat places))%Q
  | _, _, _ => None
  end.

Definition value (n : number) : option Q :=
  match n with
  | NInt z => Some (inject_Z z)
  | NFrac repr => decimal_value repr
  end.

(** [a < b] *)
Definition lt (a b : number) : bool :=
  match value a, value b with
  | Some x, Some y => negb (Qle_bool y x)
  | _, _ => false
  end.

(** [a > b] *)
Definition gt (a b : number) : bool := lt b a.

(** The number has a value, and it lies between the integers [lo] and
    [hi], both included. *)
Definition in_range (lo hi : Z) (n : number) : Prop :=
  match value n with
  | Some x => (inject_Z lo <= x /\ x <= inject_Z hi)%Q
  | None => False
  end.

End Num.

(** ** [tools/vessels-in-area.ts]: the handler *)

Module VesselsInAreaTool.

Record Args : Type := {
  arg_latitude : number;
  arg_longitude : number;
  arg_radius : number;
  arg_min_ship_type : option number;
  arg_max_ship_type : option number;
}.

Record Area : Type := {
  center : LatLon;
  radius : string;
}.

Record Response : Type := {
  area : Area;
  count : nat;
  vessels : list FormattedVessel;
}.

Definition invalid_latitude : string :=
  "Invalid latitude. Must be between -90 and 90".

Definition invalid_longitude : string :=
  "Invalid longitude. Must be between -180 and 180".

Definition invalid_radius : string :=
  "Invalid radius. Must be between 1 and 100 nautical miles".

Section Tool.
Variable host : Host.
Variable apiClient : MarineTrafficApiClient.

Definition getVesselsInAreaTool (args : Args) : M (ToolResult Response) :=
  try_catch
    (if Num.lt (arg_latitude args) (NInt (-90)) || Num.gt (arg_latitude args) (NInt 90) then
       throw (McpError InvalidParams invalid_latitude)
     else if Num.lt (arg_longitude args) (NInt (-180))
             || Num.gt (arg_longitude args) (NInt 180) then
       throw (McpError InvalidParams invalid_longitude)
     else if Num.lt (arg_radius args) (NInt 1) || Num.gt (arg_radius args) (NInt 100) then
       throw (McpError InvalidParams invalid_radius)
     else
       let areaParams :=
         {| ap_center_lat := arg_latitude args;
            ap_center_lon := arg_longitude args;
            ap_radius := arg_radius args;
            ap_min_ship_type := arg_min_ship_type args;
            ap_max_ship_type := arg_max_ship_type args |} in
       do vessels <- getVesselsInArea host apiClient areaParams;
       do formattedVessels <- lift (map_throwing (AreaTool.formatVesselData host) vessels);
       ret (ToolText (JSON_stringify
              {| area :=
                   {| center := {| latitude := arg_latitude args;
                                   longitude := arg_longitude args |};
                      radius := num_to_string (arg_radius args) +:+ " nautical miles" |};
                 count := length formattedVessels;
                 vessels := formattedVessels |})))
    (rethrow_or_wrap "Error retrieving vessels in area").

End Tool.
End VesselsInAreaTool.

(** ** [resources/vessels-area.ts]: the reader *)

(** What the reader takes from the JavaScript runtime besides the [Host]:
    [parseFloat], [None] when the result is [NaN] or infinite (the reader
    rejects both on the same branch), and the text of
    [new Date().toISOString()]. *)
Record Runtime : Type := {
  parseFloat : string -> option number;
  Date_now : string;
}.

Module VesselsAreaResource.

(** [uri.match(/^vessels:\/\/area\/([^/]+)\/([^/]+)\/([^/]+)$/)]: the
    three captured groups, when it matches. *)
Definition match_area_uri (uri : string) : option (string * string * string) :=
  if Str.startsWith "vessels://area/" uri then
    let rest := Str.substring_from 15 uri in
    match Num.split_at "/" rest with
    | (lat, Some rest1) =>
        match Num.split_at "/" rest1 with
        | (lon, Some radius) =>
            if negb (Str.is_empty lat) && negb (Str.is_empty lon)
               && negb (Str.is_empty radius) && Str.no_slash radius
            then Some (lat, lon, radius)
            else None
        | (_, None) => None
        end
    | (_, None) => None
    end
  else None.

Record Area : Type := {
  center : LatLon;
  radius : string;
}.

Record Response : Type := {
  area : Area;
  timestamp : string;
  count : nat;
  vessels : list FormattedVessel;
}.

Definition invalid_latitude : string :=
  "Invalid latitude. Must be a number between -90 and 90".

Definition invalid_longitude : string :=
  "Invalid longitude. Must be a number between -180 and 180".

Definition invalid_radius : string :=
  "Invalid radius. Must be a number between 1 and 100 nautical miles".

(** [if (isNaN(x) || x < lo || x > hi) throw ...], for [x] the result of
    [parseFloat] ([None] is [NaN]): the number, once past the check. *)
Definition check_range (x : option number) (lo hi : Z) (message : string)
  : Thrown + number :=
  match x with
  | None => inl (McpError InvalidRequest message)
  | Some n =>
      if Num.lt n (NInt lo) || Num.gt n (NInt hi) then
        inl (McpError InvalidRequest message)
      else inr n
  end.

Section Resource.
Variable host : Host.
Variable runtime : Runtime.
Variable apiClient : MarineTrafficApiClient.

(** [parseFloat(decodeURIComponent(group))]; the decoding may throw. *)
Definition parse_group (group : string) : Thrown + option number :=
  match decodeURIComponent host group with
  | None => inl (JsError "URI malformed")
  | Some text => inr (parseFloat runtime text)
  end.

Definition getVesselsAreaResource (uri : string) : M (JsonText Response) :=
  try_catch
    (match match_area_uri uri with
     | None => throw (McpError InvalidRequest ("Invalid vessels area resource URI: " +:+ uri))
     | Some (g1, g2, g3) =>
         do parsed_latitude <- lift (parse_group g1);
         do parsed_longitude <- lift (parse_group g2);
         do parsed_radius <- lift (parse_group g3);
         do lat <- lift (check_range parsed_latitude (-90) 90 invalid_latitude);
         do lon <- lift (check_range parsed_longitude (-180) 180 invalid_longitude);
         do rad <- lift (check_range parsed_radius 1 100 invalid_radius);
         let areaParams :=
           {| ap_center_lat := lat;
              ap_center_lon := lon;
              ap_radius := rad;
              ap_min_ship_type := None;
              ap_max_ship_type := None |} in
         do vessels <- getVesselsInArea host apiClient areaParams;
         do formattedVessels <-
           lift (map_throwing (AreaResource.formatVesselData host) vessels);
         ret (JSON_stringify
                {| area :=
                     {| center := {| latitude := lat; longitude := lon |};
                        radius := num_to_string rad +:+ " nautical miles" |};
                   timestamp := Date_now runtime;
                   count := length formattedVessels;
                   vessels := formattedVessels |})
     end)
    (rethrow_or_wrap "Error retrieving vessels in area").

End Resource.
End VesselsAreaResource.

(** ** The server ([index.ts]) *)

Module Server.

Definition missing_environment : string :=
  "MARINETRAFFIC_API_KEY environment variable is required".

(** The state of a [MarineTrafficServer]: the client, once made. *)
Record MarineTrafficServer : Type := {
  apiClient : option MarineTrafficApiClient;
}.

(** [new MarineTrafficServer()] *)
Definition new_MarineTrafficServer : MarineTrafficServer :=
  {| apiClient := None |}.

(** [getApiClient()]; [env] is [process.env.MARINETRAFFIC_API_KEY] at the
    time of the call. *)
Definition getApiClient (env : option string) (s : MarineTrafficServer)
  : (Thrown + MarineTrafficApiClient) * MarineTrafficServer :=
  match apiClient s with
  | Some c => (inr c, s)
  | None =>
      if negb (opt_str_truthy env) then
        (inl (McpError InvalidRequest missing_environment), s)
      else
        match new_MarineTrafficApiClient env with
        | inl t => (inl t, s)
        | inr c => (inr c, {| apiClient := Some c |})
        end
  end.

(** A tool call: the name, with the arguments as the handler casts them
    for that name.  [call_other name] is a call under any name that is
    none of the four. *)
Inductive CallToolRequest : Type :=
| get_vessel_position (identifier : string)
| get_vessel_details (identifier : string)
| search_vessels (args : SearchParams)
| get_vessels_in_area (args : VesselsInAreaTool.Args)
| call_other (name : string).

Inductive CallToolResult : Type :=
| position_result (r : ToolResult PositionTool.FormattedResponse)
| details_result (r : ToolResult DetailsTool.FormattedResponse)
| search_result (r : ToolResult SearchTool.Response)
| area_result (r : ToolResult VesselsInAreaTool.Response).

Inductive ResourceText : Type :=
| vessel_text (content : JsonText VesselResource.VesselData)
| area_text (content : JsonText VesselsAreaResource.Response).

(** [{ contents: [{ uri, mimeType, text }] }] *)
Record ReadResourceResult : Type := {
  uri : string;
  mimeType : string;
  text : ResourceText;
}.

Definition returns {A B} (f : A -> B) (r : Thrown + A) : Thrown + B :=
  match r with
  | inl t => inl t
  | inr a => inr (f a)
  end.

Section Handlers.
Variable host : Host.
Variable runtime : Runtime.

(** The handler of [CallToolRequestSchema]. *)
Definition CallTool (env : option string) (request : CallToolRequest)
    (s : MarineTrafficServer) (w : World)
  : (Thrown + CallToolResult) * MarineTrafficServer * World :=
  match getApiClient env s with
  | (inl t, s1) => (inl t, s1, w)
  | (inr client, s1) =>
      match request with
      | get_vessel_position identifier =>
          (returns position_result
             (fst (PositionTool.getVesselPositionTool host client identifier w)),
           s1, snd (PositionTool.getVesselPositionTool host client identifier w))
      | get_vessel_details identifier =>
          (returns details_result
             (fst (DetailsTool.getVesselDetailsTool host client identifier w)),
           s1, snd (DetailsTool.getVesselDetailsTool host client identifier w))
      | search_vessels args =>
          (returns search_result
             (fst (fst (SearchTool.searchVesselsTool host client args w))),
           s1, snd (SearchTool.searchVesselsTool host client args w))
      | get_vessels_in_area args =>
          (returns area_result
             (fst (VesselsInAreaTool.getVesselsInAreaTool host client args w)),
           s1, snd (VesselsInAreaTool.getVesselsInAreaTool host client args w))
      | call_other name =>
          (inl (McpError MethodNotFound ("Unknown tool: " +:+ name)), s1, w)
      end
  end.

(** The handler of [ReadResourceRequestSchema]. *)
Definition ReadResource (env : option string) (request_uri : string)
    (s : MarineTrafficServer) (w : World)
  : (Thrown + ReadResourceResult) * MarineTrafficServer * World :=
  match getApiClient env s with
  | (inl t, s1) => (inl t, s1, w)
  | (inr client, s1) =>
      let respond (content : ResourceText) : ReadResourceResult :=
        {| uri := request_uri; mimeType := "application/json"; text := content |} in
      if Str.startsWith "vessel://" request_uri then
        (returns (fun c => respond (vessel_text c))
           (fst (VesselResource.getVesselResource host client request_uri w)),
         s1, snd (VesselResource.getVesselResource host client request_uri w))
      else if Str.startsWith "vessels://area/" request_uri then
        (returns (fun c => respond (area_text c))
           (fst (VesselsAreaResource.getVesselsAreaResource host runtime client request_uri w)),
         s1,
         snd (VesselsAreaResource.getVesselsAreaResource host runtime client request_uri w))
      else
        (inl (McpError InvalidRequest ("Unsupported resource URI: " +:+ request_uri)), s1, w)
  end.

End Handlers.
End Server.

(** ** Vocabulary for the further properties *)

(** The sum of the waits of a log, in milliseconds. *)
Definition total_wait (w : World) : Z := fold_right Z.add 0 (waits w).

(** Whatever the world [m] starts from, it only adds to the log, and
    every request it adds satisfies [P]. *)
Definition sends_only (P : Endpoint -> gmap string JsVal -> Prop) {A} (m : M A) : Prop :=
  forall w, exists evs, snd (m w) = w ++ evs /\ all_requests P evs.

(** The result of [parseFloat] is a number between [lo] and [hi]. *)
Definition parsed_in_range (lo hi : Z) (x : option number) : Prop :=
  match x with
  | Some n => Num.in_range lo hi n
  | None => False
  end.

(** The query map of an area request: the three required parameters and
    the two optional ones. *)
Definition area_query (q : gmap string JsVal) (lat lon rad : number)
    (min_type max_type : option number) : Prop :=
  q !! "center_lat" = Some (VNum lat)
  /\ q !! "center_lon" = Some (VNum lon)
  /\ q !! "radius" = Some (VNum rad)
  /\ q !! "min_ship_type" = VNum <$> min_type
  /\ q !! "max_ship_type" = VNum <$> max_type.

(** The request goes to endpoint [e] with the key of client [c]. *)
Definition keyed_to (c : MarineTrafficApiClient) (e : Endpoint)
    (e' : Endpoint) (q : gmap string JsVal) : Prop :=
  e' = e /\ q !! "apiKey" = Some (VStr (apiKey c)).

(** Concrete inputs for the area handlers and the server. *)
Module AreaExamples.

Definition golden_gate : VesselsInAreaTool.Args :=
  {| VesselsInAreaTool.arg_latitude := NFrac "37.8199";
     VesselsInAreaTool.arg_longitude := NFrac "-122.4783";
     VesselsInAreaTool.arg_radius := NInt 10;
     VesselsInAreaTool.arg_min_ship_type := None;
     VesselsInAreaTool.arg_max_ship_type := Some (NInt 89) |}.

(** A [parseFloat] that reads integer numerals only. *)
Definition runtime : Runtime :=
  {| parseFloat := fun s =>
       match Num.natural (snd (Num.signed s)) with
       | Some n => Some (NInt (if fst (Num.signed s) then - Z.of_N n else Z.of_N n))
       | None => None
       end;
     Date_now := "2024-01-01T00:00:00.000Z" |}.

End AreaExamples.

(** * Properties *)

(** ** Stepping [makeRequest] *)

Section ClientFacts.

Variable host : Host.
Variable c : MarineTrafficApiClient.

Lemma requests_sent_app (w1 w2 : World) :
  requests_sent (w1 ++ w2) = (requests_sent w1 + requests_sent w2)%nat.
Proof.
  induction w1 as [| [e p | ms] r IH]; simpl; rewrite ?IH; reflexivity.
Qed.

Lemma waits_app (w1 w2 : World) : waits (w1 ++ w2) = waits w1 ++ waits w2.
Proof.
  induction w1 as [| [e p | ms] r IH]; simpl; rewrite ?IH; reflexivity.
Qed.

(** One attempt of [makeRequest], as a single equation. *)
Lemma makeRequest_step e params retryCount w :
  let sent := request_interceptor c params in
  let o := http_get host (requests_sent w) e sent in
  let w1 := w ++ [EvGet e sent] in
  makeRequest host c e params retryCount w =
    if retries c o retryCount then
      makeRequest host c e params (retryCount + 1)
        (w1 ++ [EvSleep (retryDelay c * 2 ^ Z.of_nat retryCount)])
    else (settle o, w1).
Proof.
  intros sent o w1. rewrite makeRequest_equation_1.
  unfold axios_get. fold sent. fold o. fold w1.
  destruct o as [data | status data | | err]; simpl; try reflexivity.
  unfold makeRequest_unfold_clause_1_clause_2,
    makeRequest_unfold_clause_1_clause_2_clause_1.
  destruct (bool_decide (status = 429)) eqn:E429; simpl.
  - destruct (decide (retryCount < maxRetries c)%nat) as [Hlt | Hge]; simpl.
    + rewrite bool_decide_eq_true_2 by assumption. reflexivity.
    + rewrite (bool_decide_eq_false_2 (retryCount < maxRetries c)%nat) by exact Hge.
      simpl. destruct (bool_decide (status = 401)); reflexivity.
  - destruct (decide (retryCount < maxRetries c)%nat);
      destruct (bool_decide (status = 401)); reflexivity.
Qed.

Lemma requests_sent_backoff_log e sent retryCount k :
  requests_sent (backoff_log c e sent retryCount k) = k.
Proof.
  revert retryCount. induction k as [| k IH]; intros rc; simpl; [reflexivity |].
  rewrite IH. reflexivity.
Qed.

(** [k] consecutive 429 responses, with retries left for each of them, are
    [k] turns of the retry branch. *)
Lemma makeRequest_backoff e params k :
  forall retryCount w,
    (retryCount + k <= maxRetries c)%nat ->
    (forall i, (i < k)%nat ->
       rate_limited (http_get host (requests_sent w + i) e (request_interceptor c params))) ->
    makeRequest host c e params retryCount w =
    makeRequest host c e params (retryCount + k)
      (w ++ backoff_log c e (request_interceptor c params) retryCount k).
Proof.
  induction k as [| k IH]; intros rc w Hle H429.
  - simpl. rewrite Nat.add_0_r, app_nil_r. reflexivity.
  - rewrite makeRequest_step.
    destruct (H429 0%nat ltac:(lia)) as [d Hd].
    rewrite Nat.add_0_r in Hd. rewrite Hd. unfold retries.
    rewrite (bool_decide_eq_true_2 (429 = 429)) by reflexivity.
    rewrite (bool_decide_eq_true_2 (rc < maxRetries c)%nat) by lia. simpl.
    rewrite IH.
    + replace (rc + 1 + k)%nat with (rc + S k)%nat by lia.
      rewrite <- !app_assoc. reflexivity.
    + lia.
    + intros i Hi. rewrite !requests_sent_app. simpl.
      replace (requests_sent w + 1 + 0 + i)%nat with (requests_sent w + S i)%nat by lia.
      apply H429. lia.
Qed.

(** Once no retry is left, or the response is not a 429, the attempt settles. *)
Lemma makeRequest_last e params retryCount w :
  retries c (http_get host (requests_sent w) e (request_interceptor c params)) retryCount = false ->
  makeRequest host c e params retryCount w =
  (settle (http_get host (requests_sent w) e (request_interceptor c params)),
   w ++ [EvGet e (request_interceptor c params)]).
Proof.
  intros H. rewrite makeRequest_step. rewrite H. reflexivity.
Qed.

(** What [makeRequest] adds to the log: a first request, then waits and
    further requests, all to the same endpoint with the same parameters. *)
Lemma makeRequest_log e params :
  forall n retryCount w,
    (maxRetries c - retryCount = n)%nat ->
    exists rest,
      snd (makeRequest host c e params retryCount w)
      = w ++ EvGet e (request_interceptor c params) :: rest
      /\ all_requests (fun e' q => e' = e /\ q = request_interceptor c params) rest.
Proof.
  induction n as [| n IH]; intros rc w Hn; rewrite makeRequest_step.
  - replace (retries c _ rc) with false.
    + exists []. simpl. split; [reflexivity | constructor].
    + destruct (http_get host (requests_sent w) e (request_interceptor c params));
        simpl; try reflexivity.
      rewrite (bool_decide_eq_false_2 (rc < maxRetries c)%nat) by lia.
      symmetry. apply andb_false_r.
  - destruct (retries c _ rc).
    + destruct (IH (rc + 1)%nat
                  ((w ++ [EvGet e (request_interceptor c params)])
                     ++ [EvSleep (retryDelay c * 2 ^ Z.of_nat rc)]) ltac:(lia))
        as (rest & Hrest & Hall).
      exists (EvSleep (retryDelay c * 2 ^ Z.of_nat rc)
                :: EvGet e (request_interceptor c params) :: rest).
      split.
      * rewrite Hrest. rewrite <- !app_assoc. reflexivity.
      * constructor; [exact I |]. constructor; [split; reflexivity | exact Hall].
    + exists []. simpl. split; [reflexivity | constructor].
Qed.

Lemma makeRequest_sends_first e params retryCount w :
  sends_first (makeRequest host c e params retryCount) w
    (EvGet e (request_interceptor c params)).
Proof.
  destruct (makeRequest_log e params _ retryCount w eq_refl) as (rest & H & _).
  exists rest. exact H.
Qed.

End ClientFacts.

(** The fields the constructor fixes. *)
Lemma new_client_fields key c :
  new_MarineTrafficApiClient key = inr c ->
  key = Some (apiKey c) /\ apiKey c <> EmptyString
  /\ retryDelay c = 1000 /\ maxRetries c = 3%nat.
Proof.
  unfold new_MarineTrafficApiClient.
  destruct key as [k |]; simpl; [| discriminate].
  destruct k; simpl; [discriminate |].
  intros H. injection H as <-. simpl. repeat split. discriminate.
Qed.

Lemma example_client_new :
  new_MarineTrafficApiClient (Some "secret") = inr Examples.client.
Proof. reflexivity. Qed.

(** ** The retry policy *)

(** Three 429 responses in a row from a fresh request: three waits, then
    the fourth attempt settles, whatever it is. *)
Lemma makeRequest_after_three_429
    (host : Host) (key : option string) (c : MarineTrafficApiClient)
    (e : Endpoint) (params : gmap string JsVal) (w : World) :
  new_MarineTrafficApiClient key = inr c ->
  (forall i, (i < 3)%nat ->
     rate_limited (http_get host (requests_sent w + i) e (request_interceptor c params))) ->
  makeRequest host c e params 0 w
  = (settle (http_get host (requests_sent w + 3) e (request_interceptor c params)),
     w ++ [EvGet e (request_interceptor c params); EvSleep 1000;
           EvGet e (request_interceptor c params); EvSleep 2000;
           EvGet e (request_interceptor c params); EvSleep 4000;
           EvGet e (request_interceptor c params)]).
Proof.
  intros Hnew H429.
  destruct (new_client_fields _ _ Hnew) as (_ & _ & Hdelay & Hmax).
  rewrite (makeRequest_backoff host c e params 3).
  - rewrite makeRequest_last.
    + rewrite requests_sent_app, requests_sent_backoff_log.
      simpl. rewrite Hdelay. rewrite <- app_assoc. reflexivity.
    + rewrite requests_sent_app, requests_sent_backoff_log.
      destruct (http_get host (requests_sent w + 3) e (request_interceptor c params));
        simpl; try reflexivity.
      rewrite Hmax. rewrite (bool_decide_eq_false_2 (0 + 3 < 3)%nat) by lia.
      apply andb_false_r.
  - rewrite Hmax. lia.
  - exact H429.
Qed.

(** A 401 settles the attempt it answers, at any retry count. *)
Lemma makeRequest_401 (host : Host) (c : MarineTrafficApiClient)
    (e : Endpoint) (params : gmap string JsVal) (retryCount : nat) (w : World) data :
  http_get host (requests_sent w) e (request_interceptor c params)
  = RejectedWithResponse 401 data ->
  makeRequest host c e params retryCount w
  = (inl (McpError InvalidRequest ERROR_MESSAGES.INVALID_API_KEY),
     w ++ [EvGet e (request_interceptor c params)]).
Proof.
  intros H. rewrite makeRequest_last; rewrite H; reflexivity.
Qed.

(** C3: when the first three attempts of a request are all answered 429,
    the client waits 1000 ms, 2000 ms and 4000 ms before the 2nd, 3rd and
    4th attempt (1000 * 2^(k-1) before retry k), and whatever the 4th
    attempt yields, a payload or a classified error, is the result: the log
    ends with the 4th request. *)
Theorem retry_delays_then_fourth_outcome
    (host : Host) (key : option string) (c : MarineTrafficApiClient)
    (e : Endpoint) (params : gmap string JsVal) (w : World) :
  new_MarineTrafficApiClient key = inr c ->
  rate_limited (http_get host (requests_sent w) e (request_interceptor c params)) ->
  rate_limited (http_get host (requests_sent w + 1) e (request_interceptor c params)) ->
  rate_limited (http_get host (requests_sent w + 2) e (request_interceptor c params)) ->
  makeRequest host c e params 0 w
  = (settle (http_get host (requests_sent w + 3) e (request_interceptor c params)),
     w ++ [EvGet e (request_interceptor c params); EvSleep 1000;
           EvGet e (request_interceptor c params); EvSleep 2000;
           EvGet e (request_interceptor c params); EvSleep 4000;
           EvGet e (request_interceptor c params)])
  /\ waits (snd (makeRequest host c e params 0 w))
     = waits w ++ map (fun k => 1000 * 2 ^ (k - 1)) [1; 2; 3].
Proof.
  intros Hnew H0 H1 H2.
  assert (Hr := makeRequest_after_three_429 host key c e params w Hnew).
  rewrite Hr.
  - split; [reflexivity |]. simpl. rewrite waits_app. reflexivity.
  - intros i Hi.
    destruct i as [| [| [| i]]]; [| assumption | assumption | lia].
    rewrite Nat.add_0_r. assumption.
Qed.

Lemma retry_delays_then_fourth_outcome_witness :
  makeRequest (Examples.host_limited 3) Examples.client VESSEL_POSITION ∅ 0 []
  = (settle (http_get (Examples.host_limited 3) (requests_sent [] + 3) VESSEL_POSITION
               (request_interceptor Examples.client ∅)),
     [] ++ [EvGet VESSEL_POSITION (request_interceptor Examples.client ∅); EvSleep 1000;
            EvGet VESSEL_POSITION (request_interceptor Examples.client ∅); EvSleep 2000;
            EvGet VESSEL_POSITION (request_interceptor Examples.client ∅); EvSleep 4000;
            EvGet VESSEL_POSITION (request_interceptor Examples.client ∅)])
  /\ waits (snd (makeRequest (Examples.host_limited 3) Examples.client VESSEL_POSITION ∅ 0 []))
     = waits [] ++ map (fun k => 1000 * 2 ^ (k - 1)) [1; 2; 3].
Proof.
  apply (retry_delays_then_fourth_outcome (Examples.host_limited 3) (Some "secret")
           Examples.client VESSEL_POSITION ∅ []).
  - reflexivity.
  - exists "Too Many Requests". reflexivity.
  - exists "Too Many Requests". reflexivity.
  - exists "Too Many Requests". reflexivity.
Defined.

(** C4: when all four attempts of a request are answered 429, the caller
    gets the generic API error (InternalError, "MarineTraffic API error:
    429 - body"), not the rate-limit message, and exactly four requests
    have been sent. *)
Theorem four_429_surface_as_api_error
    (host : Host) (key : option string) (c : MarineTrafficApiClient)
    (e : Endpoint) (params : gmap string JsVal) (w : World) (body : string) :
  new_MarineTrafficApiClient key = inr c ->
  (forall i, (i < 3)%nat ->
     rate_limited (http_get host (requests_sent w + i) e (request_interceptor c params))) ->
  http_get host (requests_sent w + 3) e (request_interceptor c params)
  = RejectedWithResponse 429 body ->
  fst (makeRequest host c e params 0 w)
  = inl (McpError InternalError ("MarineTraffic API error: 429 - " +:+ body))
  /\ requests_sent (snd (makeRequest host c e params 0 w)) = (requests_sent w + 4)%nat
  /\ "MarineTraffic API error: 429 - " +:+ body <> ERROR_MESSAGES.RATE_LIMIT_EXCEEDED.
Proof.
  intros Hnew H429 H4.
  rewrite (makeRequest_after_three_429 host key c e params w Hnew H429).
  rewrite H4. simpl. repeat split.
  - rewrite requests_sent_app. simpl. reflexivity.
  - discriminate.
Qed.

Lemma four_429_surface_as_api_error_witness :
  fst (makeRequest (Examples.host_limited 4) Examples.client VESSEL_DETAILS ∅ 0 [])
  = inl (McpError InternalError ("MarineTraffic API error: 429 - " +:+ "Too Many Requests"))
  /\ requests_sent (snd (makeRequest (Examples.host_limited 4) Examples.client
                           VESSEL_DETAILS ∅ 0 []))
     = (requests_sent [] + 4)%nat
  /\ "MarineTraffic API error: 429 - " +:+ "Too Many Requests"
     <> ERROR_MESSAGES.RATE_LIMIT_EXCEEDED.
Proof.
  apply (four_429_surface_as_api_error (Examples.host_limited 4) (Some "secret")
           Examples.client VESSEL_DETAILS ∅ [] "Too Many Requests").
  - reflexivity.
  - intros i Hi. exists "Too Many Requests".
    destruct i as [| [| [| i]]]; [reflexivity | reflexivity | reflexivity | lia].
  - reflexivity.
Defined.

(** C5: at every retry depth, a 401 ends the request at once with the
    invalid-credential error.  If the first [k] attempts (k = 0, 1, 2, 3)
    are answered 429 and the next one 401, the result is that error, and
    the request answered 401 is the last one sent: [k + 1] requests in
    all. *)
Theorem unauthorized_never_retried
    (host : Host) (key : option string) (c : MarineTrafficApiClient)
    (e : Endpoint) (params : gmap string JsVal) (w : World)
    (k : nat) (body : string) :
  new_MarineTrafficApiClient key = inr c ->
  (k <= 3)%nat ->
  (forall i, (i < k)%nat ->
     rate_limited (http_get host (requests_sent w + i) e (request_interceptor c params))) ->
  http_get host (requests_sent w + k) e (request_interceptor c params)
  = RejectedWithResponse 401 body ->
  makeRequest host c e params 0 w
  = (inl (McpError InvalidRequest ERROR_MESSAGES.INVALID_API_KEY),
     w ++ backoff_log c e (request_interceptor c params) 0 k
       ++ [EvGet e (request_interceptor c params)])
  /\ requests_sent (snd (makeRequest host c e params 0 w)) = (requests_sent w + k + 1)%nat.
Proof.
  intros Hnew Hk H429 H401.
  destruct (new_client_fields _ _ Hnew) as (_ & _ & _ & Hmax).
  rewrite (makeRequest_backoff host c e params k 0 w) by (rewrite ?Hmax; auto with lia).
  rewrite (makeRequest_401 host c e params (0 + k) _ body).
  - split.
    + rewrite <- app_assoc. reflexivity.
    + simpl. rewrite !requests_sent_app, requests_sent_backoff_log. simpl. lia.
  - rewrite requests_sent_app, requests_sent_backoff_log. exact H401.
Qed.

Lemma unauthorized_never_retried_witness :
  makeRequest (Examples.host_limited_then_401 2) Examples.client VESSEL_SEARCH ∅ 0 []
  = (inl (McpError InvalidRequest ERROR_MESSAGES.INVALID_API_KEY),
     [] ++ backoff_log Examples.client VESSEL_SEARCH (request_interceptor Examples.client ∅) 0 2
        ++ [EvGet VESSEL_SEARCH (request_interceptor Examples.client ∅)])
  /\ requests_sent (snd (makeRequest (Examples.host_limited_then_401 2) Examples.client
                           VESSEL_SEARCH ∅ 0 []))
     = (requests_sent [] + 2 + 1)%nat.
Proof.
  apply (unauthorized_never_retried (Examples.host_limited_then_401 2) (Some "secret")
           Examples.client VESSEL_SEARCH ∅ [] 2 "Unauthorized").
  - reflexivity.
  - lia.
  - intros i Hi. exists "Too Many Requests".
    destruct i as [| [| i]]; [reflexivity | reflexivity | lia].
  - reflexivity.
Defined.

(** ** Query parameters *)




Lemma request_interceptor_carries c params :
  carries_credential (apiKey c) params (request_interceptor c params).
Proof.
  unfold carries_credential, request_interceptor. split.
  - apply lookup_insert_eq.
  - intros k Hk. apply lookup_insert_ne. congruence.
Qed.

Lemma all_requests_impl (P Q : Endpoint -> gmap string JsVal -> Prop) evs :
  (forall e q, P e q -> Q e q) -> all_requests P evs -> all_requests Q evs.
Proof.
  intros HPQ Hall. unfold all_requests in *.
  induction Hall as [| ev r Hev _ IH]; constructor; [| exact IH].
  destruct ev as [e q | ms]; [apply HPQ; exact Hev | exact I].
Qed.

(** The requests of one [makeRequest]: at least one, all to [e], all with
    the caller's parameters plus the credential. *)
Lemma makeRequest_requests host c e params retryCount w :
  exists evs,
    snd (makeRequest host c e params retryCount w) = w ++ evs
    /\ (1 <= requests_sent evs)%nat
    /\ all_requests (fun e' q => e' = e /\ q = request_interceptor c params) evs.
Proof.
  destruct (makeRequest_log host c e params _ retryCount w eq_refl) as (rest & H & Hall).
  exists (EvGet e (request_interceptor c params) :: rest).
  split; [exact H |]. split; [simpl; lia |].
  constructor; [split; reflexivity | exact Hall].
Qed.

(** The parameter map [getVesselPosition] and [getVesselDetails] build. *)
Lemma identifier_params_one identifier :
  one_identifier identifier
    (if Str.re_mmsi identifier then <["mmsi" := VStr identifier]> (∅ : gmap string JsVal)
     else <["imo" := VStr identifier]> ∅)
  /\ (if Str.re_mmsi identifier then <["mmsi" := VStr identifier]> (∅ : gmap string JsVal)
      else <["imo" := VStr identifier]> ∅) !! "apiKey" = None.
Proof.
  unfold one_identifier.
  destruct (Str.re_mmsi identifier); (split; [split |]);
    first [ apply lookup_insert_eq
          | rewrite lookup_insert_ne by discriminate; apply lookup_empty ].
Qed.

Lemma one_identifier_intercepted c identifier params :
  one_identifier identifier params ->
  one_identifier identifier (request_interceptor c params).
Proof.
  unfold one_identifier, request_interceptor.
  destruct (Str.re_mmsi identifier); intros [H1 H2];
    rewrite !lookup_insert_ne by discriminate; split; assumption.
Qed.

(** C2: for every identifier string, the parameter map built by
    [getVesselPosition] and by [getVesselDetails] has exactly one of the
    keys [mmsi] and [imo], holding the identifier: [mmsi] exactly when the
    string is 9 digits, [imo] for every other string; it has no other key,
    and every request the call sends carries that map (with the
    credential added). *)
Theorem exactly_one_identifier_key
    (host : Host) (c : MarineTrafficApiClient) (identifier : string) (w : World) :
  exists params : gmap string JsVal,
    one_identifier identifier params
    /\ (forall k, k <> "mmsi" -> k <> "imo" -> params !! k = None)
    /\ one_identifier identifier (request_interceptor c params)
    /\ (exists evs,
          snd (getVesselPosition host c identifier w) = w ++ evs
          /\ (1 <= requests_sent evs)%nat
          /\ all_requests (fun e q => e = VESSEL_POSITION
                                      /\ q = request_interceptor c params) evs)
    /\ (exists evs,
          snd (getVesselDetails host c identifier w) = w ++ evs
          /\ (1 <= requests_sent evs)%nat
          /\ all_requests (fun e q => e = VESSEL_DETAILS
                                      /\ q = request_interceptor c params) evs).
Proof.
  exists (if Str.re_mmsi identifier then <["mmsi" := VStr identifier]> ∅
          else <["imo" := VStr identifier]> ∅).
  destruct (identifier_params_one identifier) as [Hone _].
  split; [exact Hone |]. split.
  - intros k Hm Hi. destruct (Str.re_mmsi identifier);
      rewrite lookup_insert_ne by congruence; apply lookup_empty.
  - split; [apply one_identifier_intercepted; exact Hone |].
    split.
    + exact (makeRequest_requests host c VESSEL_POSITION _ 0 w).
    + exact (makeRequest_requests host c VESSEL_DETAILS _ 0 w).
Qed.



(** ** Identifier validation at the entry points *)

Lemma digit_not_I (ch : ascii) : Str.is_digit ch = true -> "I"%char <> ch.
Proof.
  intros Hd <-. vm_compute in Hd. discriminate.
Qed.

Lemma all_digits_not_IMO s : Str.all_digits s = true -> Str.startsWith "IMO" s = false.
Proof.
  destruct s as [| ch r]; [reflexivity |].
  intros H. cbn [Str.all_digits] in H. apply andb_true_iff in H as [Hd _].
  change (Str.startsWith "IMO" (String ch r))
    with (if ascii_dec "I" ch then String.prefix "MO" r else false).
  destruct (ascii_dec "I" ch) as [HI | _]; [| reflexivity].
  exfalso. exact (digit_not_I ch Hd HI).
Qed.

Lemma startsWith_IMO_not_digits s :
  Str.startsWith "IMO" s = true -> Str.all_digits s = false.
Proof.
  intros H. destruct (Str.all_digits s) eqn:E; [| reflexivity].
  rewrite (all_digits_not_IMO s E) in H. discriminate.
Qed.

Lemma re_mmsi_not_IMO s : Str.re_mmsi s = true -> Str.startsWith "IMO" s = false.
Proof.
  unfold Str.re_mmsi, Str.digits_exactly. intros H.
  apply andb_true_iff in H as [_ H]. apply all_digits_not_IMO. exact H.
Qed.

Lemma re_imo_bare_facts s :
  Str.re_imo_bare s = true ->
  Str.startsWith "IMO" s = false /\ Str.re_mmsi s = false.
Proof.
  unfold Str.re_imo_bare, Str.re_mmsi, Str.digits_exactly. intros H.
  apply andb_true_iff in H as [Hlen Hd]. split.
  - apply all_digits_not_IMO. exact Hd.
  - apply Nat.eqb_eq in Hlen. rewrite Hlen. reflexivity.
Qed.

Lemma re_imo_prefixed_facts s :
  Str.re_imo_prefixed s = true ->
  Str.startsWith "IMO" s = true
  /\ Str.re_imo_bare (Str.substring_from 3 s) = true
  /\ Str.re_mmsi (Str.substring_from 3 s) = false
  /\ Str.re_mmsi s = false
  /\ Str.re_imo_bare s = false.
Proof.
  unfold Str.re_imo_prefixed. intros H.
  apply andb_true_iff in H as [Hp Hd].
  split; [exact Hp |]. split; [exact Hd |].
  split; [apply (re_imo_bare_facts _ Hd) |].
  unfold Str.re_mmsi, Str.re_imo_bare, Str.digits_exactly.
  rewrite (startsWith_IMO_not_digits s Hp), !andb_false_r. split; reflexivity.
Qed.

(** The catch block of the handlers does not touch the world. *)
Lemma snd_try_catch_rethrow {A} (body : M A) what w :
  snd (try_catch body (rethrow_or_wrap what) w) = snd (body w).
Proof.
  unfold try_catch, rethrow_or_wrap, throw.
  destruct (body w) as [[t | a] w1]; simpl; [| reflexivity].
  destruct (is_McpError t); reflexivity.
Qed.

Lemma snd_bind_pure {A B} (m : M A) (k : A -> M B) w :
  (forall a w', snd (k a w') = w') -> snd (bind m k w) = snd (m w).
Proof.
  intros Hk. unfold bind. destruct (m w) as [[t | a] w1]; simpl; [reflexivity |].
  apply Hk.
Qed.

Lemma snd_bind_lift {A B} (r : Thrown + A) (f : A -> B) w :
  snd (bind (lift r) (fun a => ret (f a)) w) = w.
Proof.
  unfold bind, lift, ret. destruct r; reflexivity.
Qed.

(** A validation error passes through the catch block unchanged. *)
Lemma try_catch_throw_mcp {A} code message what w :
  try_catch (throw (A := A) (McpError code message)) (rethrow_or_wrap what) w
  = (inl (McpError code message), w).
Proof. reflexivity. Qed.

Section EntryPoints.

Variable host : Host.
Variable c : MarineTrafficApiClient.

Lemma getVesselPosition_sends identifier w :
  sends_first (getVesselPosition host c identifier) w
    (EvGet VESSEL_POSITION
       (request_interceptor c
          (if Str.re_mmsi identifier then <["mmsi" := VStr identifier]> ∅
           else <["imo" := VStr identifier]> ∅))).
Proof. exact (makeRequest_sends_first host c VESSEL_POSITION _ 0 w). Qed.

Lemma getVesselDetails_sends identifier w :
  sends_first (getVesselDetails host c identifier) w
    (EvGet VESSEL_DETAILS
       (request_interceptor c
          (if Str.re_mmsi identifier then <["mmsi" := VStr identifier]> ∅
           else <["imo" := VStr identifier]> ∅))).
Proof. exact (makeRequest_sends_first host c VESSEL_DETAILS _ 0 w). Qed.

(** Past validation, the world of the position tool is that of the client
    call on the cleaned identifier. *)
Lemma getVesselPositionTool_world identifier w :
  negb (Str.re_mmsi identifier) && negb (Str.re_imo_prefixed identifier) = false ->
  snd (PositionTool.getVesselPositionTool host c identifier w)
  = snd (getVesselPosition host c
           (if Str.startsWith "IMO" identifier then Str.substring_from 3 identifier
            else identifier) w).
Proof.
  intros Hvalid. unfold PositionTool.getVesselPositionTool.
  rewrite snd_try_catch_rethrow, Hvalid.
  apply snd_bind_pure. intros vp w'. apply snd_bind_lift.
Qed.

Lemma getVesselDetailsTool_world identifier w :
  negb (Str.re_mmsi identifier) && negb (Str.re_imo_prefixed identifier) = false ->
  snd (DetailsTool.getVesselDetailsTool host c identifier w)
  = snd (getVesselDetails host c
           (if Str.startsWith "IMO" identifier then Str.substring_from 3 identifier
            else identifier) w).
Proof.
  intros Hvalid. unfold DetailsTool.getVesselDetailsTool.
  rewrite snd_try_catch_rethrow, Hvalid.
  apply snd_bind_pure. intros vd w'. reflexivity.
Qed.

End EntryPoints.

Section InFlightFacts.

Variable host : Host.
Variable c : MarineTrafficApiClient.

(** Taking an answer, in the words of the retry policy. *)
Lemma resume_awaiting e params retryCount o w :
  resume host c e params (Awaiting retryCount o) w
  = if retries c o retryCount then
      (Sending (retryCount + 1), w ++ [EvSleep (retryDelay c * 2 ^ Z.of_nat retryCount)])
    else (Settled (settle o), w).
Proof.
  destruct o as [data | status data | | err]; simpl; try reflexivity.
  destruct (bool_decide (status = 429) && bool_decide (retryCount < maxRetries c)%nat);
    [reflexivity |].
  destruct (bool_decide (status = 401)); reflexivity.
Qed.

Lemma resume_sending e params retryCount w :
  resume host c e params (Sending retryCount) w
  = (Awaiting retryCount (http_get host (requests_sent w) e (request_interceptor c params)),
     w ++ [EvGet e (request_interceptor c params)]).
Proof. reflexivity. Qed.

(** A call that is in flight alone goes the way of [makeRequest]. *)
Lemma call_alone e1 e2 params1 params2 r2 retryCount w :
  await_both host c e1 e2 params1 params2 (Sending retryCount) (Settled r2) w
  = (fst (makeRequest host c e1 params1 retryCount w), r2,
     snd (makeRequest host c e1 params1 retryCount w)).
Proof.
  remember (maxRetries c - retryCount)%nat as m eqn:Hm.
  revert retryCount w Hm.
  induction m as [m IH] using lt_wf_ind. intros retryCount w Hm.
  rewrite await_both_equation_3, resume_sending. cbn [fst snd].
  rewrite await_both_equation_6, resume_awaiting, makeRequest_step. cbv zeta.
  destruct (retries c _ retryCount) eqn:Hr; cbn [fst snd].
  - assert (Hlt : (retryCount < maxRetries c)%nat).
    { destruct (http_get host (requests_sent w) e1 (request_interceptor c params1));
        simpl in Hr; try discriminate Hr.
      apply andb_true_iff in Hr. destruct Hr as [_ Hr].
      apply bool_decide_eq_true_1 in Hr. exact Hr. }
    apply (IH (maxRetries c - (retryCount + 1))%nat); [lia | reflexivity].
  - rewrite await_both_equation_9. reflexivity.
Qed.

(** *** The answers to the requests of a log *)

Lemma answers_app e n (evs1 evs2 : World) :
  answers host e n (evs1 ++ evs2)
  = answers host e n evs1 ++ answers host e (n + requests_sent evs1) evs2.
Proof.
  revert n. induction evs1 as [| [e' q | ms] r IH]; intros n;
    cbn [answers requests_sent app].
  - rewrite Nat.add_0_r. reflexivity.
  - rewrite IH, <- app_assoc, Nat.add_succ_r. reflexivity.
  - apply IH.
Qed.

Lemma answers_get_same e n q :
  answers host e n [EvGet e q] = [http_get host n e q].
Proof. simpl. destruct (decide (e = e)) as [_ | Hne]; [reflexivity | contradiction]. Qed.

Lemma answers_get_other e e' n q :
  e' <> e -> answers host e n [EvGet e' q] = [].
Proof. intros Hne. simpl. destruct (decide (e' = e)); [contradiction | reflexivity]. Qed.

Lemma retried_nil {T} retryCount : retried c (T := T) retryCount [].
Proof. intros i o H. destruct i; discriminate H. Qed.

Lemma retried_snoc {T} retryCount (given : list (AxiosOutcome T)) o :
  retried c retryCount given -> retries c o (retryCount + length given) = true ->
  retried c retryCount (given ++ [o]).
Proof.
  intros Hg Ho i o' Hi.
  destruct (decide (i < length given)%nat) as [Hlt | Hge].
  - rewrite lookup_app_l in Hi by exact Hlt. apply Hg. exact Hi.
  - rewrite lookup_app_r in Hi by lia.
    destruct (i - length given)%nat as [| j] eqn:Ej; [| destruct j; discriminate Hi].
    injection Hi as <-. replace i with (length given) by lia. exact Ho.
Qed.

Lemma verdict_settled {T} retryCount (given : list (AxiosOutcome T)) o :
  retried c retryCount given ->
  retries c o (retryCount + length given) = false ->
  verdict c retryCount (given ++ [o]) = Some (settle o).
Proof.
  revert retryCount. induction given as [| o' rest IH]; intros retryCount Hg Ho.
  - simpl in *. rewrite Nat.add_0_r in Ho. rewrite Ho. reflexivity.
  - assert (Ho' : retries c o' retryCount = true).
    { specialize (Hg 0%nat o' eq_refl). rewrite Nat.add_0_r in Hg. exact Hg. }
    assert (Hrest : verdict c (S retryCount) (rest ++ [o]) = Some (settle o)).
    { apply IH.
      - intros i x Hi. specialize (Hg (S i) x Hi).
        replace (S retryCount + i)%nat with (retryCount + S i)%nat by lia. exact Hg.
      - simpl in Ho. replace (S retryCount + length rest)%nat
          with (retryCount + S (length rest))%nat by lia. exact Ho. }
    change ((o' :: rest) ++ [o]) with (o' :: (rest ++ [o])).
    cbn [verdict]. rewrite Ho'.
    destruct (rest ++ [o]) as [| x xs] eqn:E; [destruct rest; discriminate E |].
    exact Hrest.
Qed.

(** The last answer is the one that settles the call. *)
Lemma verdict_last {T} retryCount (given : list (AxiosOutcome T)) r :
  verdict c retryCount given = Some r ->
  exists o, last given = Some o /\ r = settle o.
Proof.
  revert retryCount. induction given as [| o rest IH]; intros retryCount H; [discriminate H |].
  cbn [verdict] in H. destruct rest as [| x xs].
  - destruct (retries c o retryCount); [discriminate H |].
    injection H as <-. exists o. split; reflexivity.
  - destruct (retries c o retryCount); [| discriminate H].
    destruct (IH (S retryCount) H) as (o' & Hlast & Hr).
    exists o'. split; [exact Hlast | exact Hr].
Qed.

(** One resumption of a call on [e]: it adds to the log, only requests
    of its own; it keeps what it has made of its answers; and it leaves
    the answers to the requests of any other endpoint as they were. *)
Lemma resume_inv e params (k : Call (payload e)) (w0 evs : World) :
  unsettled k ->
  call_inv c k (answers host e (requests_sent w0) evs) ->
  exists new,
    snd (resume host c e params k (w0 ++ evs)) = w0 ++ evs ++ new
    /\ call_inv c (fst (resume host c e params k (w0 ++ evs)))
         (answers host e (requests_sent w0) (evs ++ new))
    /\ (forall e', e' <> e ->
          answers host e' (requests_sent w0) (evs ++ new)
          = answers host e' (requests_sent w0) evs)
    /\ all_requests (fun e' q => e' = e /\ q = request_interceptor c params) new.
Proof.
  intros Hk Hinv. destruct k as [retryCount | retryCount o | r]; [| | contradiction].
  - exists [EvGet e (request_interceptor c params)].
    rewrite resume_sending. cbn [fst snd].
    split; [rewrite app_assoc; reflexivity |]. split; [| split].
    + destruct Hinv as [Hret Hlen]. cbn [call_inv].
      exists (answers host e (requests_sent w0) evs).
      rewrite answers_app, answers_get_same, requests_sent_app.
      split; [reflexivity |]. split; assumption.
    + intros e' Hne. rewrite answers_app, answers_get_other by congruence.
      apply app_nil_r.
    + constructor; [split; reflexivity | constructor].
  - rewrite resume_awaiting.
    destruct Hinv as (before & Hgiven & Hret & Hlen).
    destruct (retries c o retryCount) eqn:Hr; cbn [fst snd].
    + exists [EvSleep (retryDelay c * 2 ^ Z.of_nat retryCount)].
      split; [rewrite app_assoc; reflexivity |]. split; [| split].
      * cbn [call_inv]. rewrite answers_app. simpl. rewrite app_nil_r, Hgiven.
        split.
        -- apply retried_snoc; [exact Hret |]. rewrite Hlen. exact Hr.
        -- rewrite length_app, Hlen. simpl. lia.
      * intros e' _. rewrite answers_app. simpl. apply app_nil_r.
      * constructor; [exact I | constructor].
    + exists []. rewrite !app_nil_r.
      split; [reflexivity |]. split; [| split].
      * cbn [call_inv]. rewrite Hgiven. apply verdict_settled; [exact Hret |].
        rewrite Hlen. exact Hr.
      * intros e' _. reflexivity.
      * constructor.
Qed.

Lemma resume_remaining e params (k : Call (payload e)) w :
  unsettled k -> (remaining c (fst (resume host c e params k w)) < remaining c k)%nat.
Proof.
  intros Hk. destruct k as [retryCount | retryCount o | r]; [| | contradiction].
  - simpl. lia.
  - rewrite resume_awaiting. destruct (retries c o retryCount) eqn:Hr; simpl; [| lia].
    destruct o; simpl in Hr; try discriminate Hr.
    apply andb_true_iff in Hr. destruct Hr as [_ Hr].
    apply bool_decide_eq_true_1 in Hr. lia.
Qed.

Section PairFacts.

Variables e1 e2 : Endpoint.
Variables params1 params2 : gmap string JsVal.
Hypothesis Hdistinct : e1 <> e2.

(** Two calls in flight both settle, in whatever order they are resumed;
    the log is only added to, with requests of the two calls; and each
    call settles to what the retry policy makes of the answers to its
    own requests. *)
Lemma await_both_settles (first : Call (payload e1)) (second : Call (payload e2))
    (w0 evs : World) :
  call_inv c first (answers host e1 (requests_sent w0) evs) ->
  call_inv c second (answers host e2 (requests_sent w0) evs) ->
  exists new r1 r2,
    await_both host c e1 e2 params1 params2 first second (w0 ++ evs)
    = (r1, r2, w0 ++ evs ++ new)
    /\ verdict c 0 (answers host e1 (requests_sent w0) (evs ++ new)) = Some r1
    /\ verdict c 0 (answers host e2 (requests_sent w0) (evs ++ new)) = Some r2
    /\ all_requests (of_the_two c e1 e2 params1 params2) new.
Proof.
  remember (remaining c first + remaining c second)%nat as m eqn:Hm.
  revert first second evs Hm.
  induction m as [m IH] using lt_wf_ind. intros first second evs Hm H1 H2.
  assert (Hfirst : unsettled first ->
    exists new r1 r2,
      await_both host c e1 e2 params1 params2
        (fst (resume host c e1 params1 first (w0 ++ evs))) second
        (snd (resume host c e1 params1 first (w0 ++ evs)))
      = (r1, r2, w0 ++ evs ++ new)
      /\ verdict c 0 (answers host e1 (requests_sent w0) (evs ++ new)) = Some r1
      /\ verdict c 0 (answers host e2 (requests_sent w0) (evs ++ new)) = Some r2
      /\ all_requests (of_the_two c e1 e2 params1 params2) new).
  { intros Hu.
    destruct (resume_inv e1 params1 first w0 evs Hu H1) as (new & Hw & Hinv & Hother & Hall).
    pose proof (resume_remaining e1 params1 first (w0 ++ evs) Hu) as Hlt.
    rewrite Hw.
    destruct (IH (remaining c (fst (resume host c e1 params1 first (w0 ++ evs)))
                  + remaining c second)%nat ltac:(lia)
                (fst (resume host c e1 params1 first (w0 ++ evs))) second (evs ++ new)
                eq_refl Hinv)
      as (new' & r1 & r2 & Hrun & Hv1 & Hv2 & Hall').
    { rewrite Hother by congruence. exact H2. }
    exists (new ++ new'), r1, r2.
    rewrite Hrun. rewrite <- !app_assoc in *.
    split; [reflexivity |]. split; [exact Hv1 |]. split; [exact Hv2 |].
    apply Forall_app. split; [| exact Hall'].
    eapply all_requests_impl; [| exact Hall]. intros e q H. left. exact H. }
  assert (Hsecond : unsettled second ->
    exists new r1 r2,
      await_both host c e1 e2 params1 params2 first
        (fst (resume host c e2 params2 second (w0 ++ evs)))
        (snd (resume host c e2 params2 second (w0 ++ evs)))
      = (r1, r2, w0 ++ evs ++ new)
      /\ verdict c 0 (answers host e1 (requests_sent w0) (evs ++ new)) = Some r1
      /\ verdict c 0 (answers host e2 (requests_sent w0) (evs ++ new)) = Some r2
      /\ all_requests (of_the_two c e1 e2 params1 params2) new).
  { intros Hu.
    destruct (resume_inv e2 params2 second w0 evs Hu H2) as (new & Hw & Hinv & Hother & Hall).
    pose proof (resume_remaining e2 params2 second (w0 ++ evs) Hu) as Hlt.
    rewrite Hw.
    destruct (IH (remaining c first
                  + remaining c (fst (resume host c e2 params2 second (w0 ++ evs))))%nat
                ltac:(lia)
                first (fst (resume host c e2 params2 second (w0 ++ evs))) (evs ++ new)
                eq_refl)
      as (new' & r1 & r2 & Hrun & Hv1 & Hv2 & Hall').
    { rewrite Hother by congruence. exact H1. }
    { exact Hinv. }
    exists (new ++ new'), r1, r2.
    rewrite Hrun. rewrite <- !app_assoc in *.
    split; [reflexivity |]. split; [exact Hv1 |]. split; [exact Hv2 |].
    apply Forall_app. split; [| exact Hall'].
    eapply all_requests_impl; [| exact Hall]. intros e q H. right. exact H. }
  destruct first as [n1 | n1 o1 | r1], second as [n2 | n2 o2 | r2].
  - rewrite await_both_equation_1. destruct (resumes_first host (w0 ++ evs));
      [apply Hfirst | apply Hsecond]; exact I.
  - rewrite await_both_equation_2. destruct (resumes_first host (w0 ++ evs));
      [apply Hfirst | apply Hsecond]; exact I.
  - rewrite await_both_equation_3. apply Hfirst. exact I.
  - rewrite await_both_equation_4. destruct (resumes_first host (w0 ++ evs));
      [apply Hfirst | apply Hsecond]; exact I.
  - rewrite await_both_equation_5. destruct (resumes_first host (w0 ++ evs));
      [apply Hfirst | apply Hsecond]; exact I.
  - rewrite await_both_equation_6. apply Hfirst. exact I.
  - rewrite await_both_equation_7. apply Hsecond. exact I.
  - rewrite await_both_equation_8. apply Hsecond. exact I.
  - rewrite await_both_equation_9. exists [], r1, r2. rewrite !app_nil_r.
    split; [reflexivity |]. split; [exact H1 |]. split; [exact H2 | constructor].
Qed.

End PairFacts.

End InFlightFacts.

Section ResourceFacts.

Variable host : Host.
Variable c : MarineTrafficApiClient.

(** The two guarded calls of the vessel resource: the first request of
    each is sent before anything else, both settle, each on the answers to
    its own requests, and nothing is thrown. *)
Lemma fetch_both_outcome cleanIdentifier w :
  let sent := request_interceptor c (identifier_params cleanIdentifier) in
  exists rest (rp : Thrown + VesselPosition) (rd : Thrown + VesselDetails),
    let log := EvGet VESSEL_POSITION sent :: EvGet VESSEL_DETAILS sent :: rest in
    VesselResource.fetch_both host c cleanIdentifier w
    = (inr (or_null rp, or_null rd), w ++ log)
    /\ verdict c 0 (answers host VESSEL_POSITION (requests_sent w) log) = Some rp
    /\ verdict c 0 (answers host VESSEL_DETAILS (requests_sent w) log) = Some rd
    /\ all_requests (fun e q => (e = VESSEL_POSITION \/ e = VESSEL_DETAILS) /\ q = sent) log.
Proof.
  intros sent.
  destruct (await_both_settles host c VESSEL_POSITION VESSEL_DETAILS
              (identifier_params cleanIdentifier) (identifier_params cleanIdentifier)
              ltac:(discriminate)
              (Awaiting 0 (http_get host (requests_sent w) VESSEL_POSITION sent))
              (Awaiting 0 (http_get host (S (requests_sent w)) VESSEL_DETAILS sent))
              w [EvGet VESSEL_POSITION sent; EvGet VESSEL_DETAILS sent])
    as (new & rp & rd & Hrun & Hp & Hd & Hall).
  { exists []. split; [reflexivity |]. split; [apply retried_nil | reflexivity]. }
  { exists []. split; [reflexivity |]. split; [apply retried_nil | reflexivity]. }
  exists new, rp, rd. cbv zeta.
  split; [| split; [exact Hp | split; [exact Hd |]]].
  - unfold VesselResource.fetch_both. rewrite !resume_sending.
    rewrite requests_sent_app. cbn [requests_sent]. rewrite Nat.add_1_r.
    rewrite <- app_assoc. cbn [app]. fold sent.
    rewrite Hrun. reflexivity.
  - constructor; [split; [left |]; reflexivity |].
    constructor; [split; [right |]; reflexivity |].
    eapply all_requests_impl; [| exact Hall].
    intros e q [[-> ->] | [-> ->]]; (split; [auto | reflexivity]).
Qed.

(** Past validation, the resource reader runs both calls, and what follows
    them leaves the world alone. *)
Lemma getVesselResource_world uri group identifier w :
  Str.match_vessel_uri uri = Some group ->
  decodeURIComponent host group = Some identifier ->
  negb (Str.re_mmsi identifier) && negb (Str.re_imo_prefixed identifier)
    && negb (Str.re_imo_bare identifier) = false ->
  snd (VesselResource.getVesselResource host c uri w)
  = snd (VesselResource.fetch_both host c
           (if Str.startsWith "IMO" identifier then Str.substring_from 3 identifier
            else identifier) w).
Proof.
  intros Hm Hd Hvalid. unfold VesselResource.getVesselResource.
  rewrite snd_try_catch_rethrow, Hm, Hd, Hvalid.
  unfold bind.
  destruct (VesselResource.fetch_both host c _ w) as [[t | [[p |] [d |]]] w1];
    try reflexivity;
    unfold lift, ret; destruct (VesselResource.vesselData _ _ _ _); reflexivity.
Qed.

Lemma fetch_both_sends cleanIdentifier w :
  sends_first (VesselResource.fetch_both host c cleanIdentifier) w
    (EvGet VESSEL_POSITION
       (request_interceptor c
          (if Str.re_mmsi cleanIdentifier then <["mmsi" := VStr cleanIdentifier]> ∅
           else <["imo" := VStr cleanIdentifier]> ∅))).
Proof.
  destruct (fetch_both_outcome cleanIdentifier w) as (rest & rp & rd & Hrun & _).
  unfold sends_first. rewrite Hrun. eexists. reflexivity.
Qed.

End ResourceFacts.

(** C1, as the code has it: the position tool and the details tool take
    9 digits as an MMSI and "IMO" followed by 7 digits as an IMO number,
    sent without the prefix, and reject every other string, bare 7 digits
    included, with an InvalidParams error and no request; the vessel
    resource takes 9 digits as an MMSI, and 7 digits or "IMO" followed by
    7 digits as an IMO number, sent without the prefix, and rejects every
    other string with an InvalidRequest error and no request. *)
Theorem identifier_validation_by_entry_point
    (host : Host) (c : MarineTrafficApiClient) (identifier : string) (w : World) :
  (* tools/vessel-position.ts *)
  (Str.re_mmsi identifier = true ->
     sends_first (PositionTool.getVesselPositionTool host c identifier) w
       (EvGet VESSEL_POSITION (id_query c "mmsi" identifier)))
  /\ (Str.re_imo_prefixed identifier = true ->
     Str.re_imo_bare (Str.substring_from 3 identifier) = true
     /\ sends_first (PositionTool.getVesselPositionTool host c identifier) w
          (EvGet VESSEL_POSITION (id_query c "imo" (Str.substring_from 3 identifier))))
  /\ (Str.re_mmsi identifier = false -> Str.re_imo_prefixed identifier = false ->
     rejects (PositionTool.getVesselPositionTool host c identifier) w
       (McpError InvalidParams PositionTool.invalid_identifier))
  (* tools/vessel-details.ts *)
  /\ (Str.re_mmsi identifier = true ->
     sends_first (DetailsTool.getVesselDetailsTool host c identifier) w
       (EvGet VESSEL_DETAILS (id_query c "mmsi" identifier)))
  /\ (Str.re_imo_prefixed identifier = true ->
     Str.re_imo_bare (Str.substring_from 3 identifier) = true
     /\ sends_first (DetailsTool.getVesselDetailsTool host c identifier) w
          (EvGet VESSEL_DETAILS (id_query c "imo" (Str.substring_from 3 identifier))))
  /\ (Str.re_mmsi identifier = false -> Str.re_imo_prefixed identifier = false ->
     rejects (DetailsTool.getVesselDetailsTool host c identifier) w
       (McpError InvalidParams DetailsTool.invalid_identifier))
  (* resources/vessel.ts *)
  /\ (forall uri group,
       Str.match_vessel_uri uri = Some group ->
       decodeURIComponent host group = Some identifier ->
       (Str.re_mmsi identifier = true ->
          sends_first (VesselResource.getVesselResource host c uri) w
            (EvGet VESSEL_POSITION (id_query c "mmsi" identifier)))
       /\ (Str.re_imo_bare identifier = true ->
          sends_first (VesselResource.getVesselResource host c uri) w
            (EvGet VESSEL_POSITION (id_query c "imo" identifier)))
       /\ (Str.re_imo_prefixed identifier = true ->
          Str.re_imo_bare (Str.substring_from 3 identifier) = true
          /\ sends_first (VesselResource.getVesselResource host c uri) w
               (EvGet VESSEL_POSITION (id_query c "imo" (Str.substring_from 3 identifier))))
       /\ (Str.re_mmsi identifier = false -> Str.re_imo_prefixed identifier = false ->
           Str.re_imo_bare identifier = false ->
          rejects (VesselResource.getVesselResource host c uri) w
            (McpError InvalidRequest VesselResource.invalid_identifier))).
Proof.
  split; [| split; [| split; [| split; [| split; [| split]]]]].
  - intros Hm. unfold sends_first.
    rewrite getVesselPositionTool_world by (rewrite Hm; reflexivity).
    rewrite (re_mmsi_not_IMO _ Hm).
    pose proof (getVesselPosition_sends host c identifier w) as H.
    rewrite Hm in H. exact H.
  - intros Hi. destruct (re_imo_prefixed_facts _ Hi) as (Hp & Hb & Hnm & _).
    split; [exact Hb |]. unfold sends_first.
    rewrite getVesselPositionTool_world by (rewrite Hi; apply andb_false_r).
    rewrite Hp.
    pose proof (getVesselPosition_sends host c (Str.substring_from 3 identifier) w) as H.
    rewrite Hnm in H. exact H.
  - intros Hm Hi. unfold rejects, PositionTool.getVesselPositionTool.
    rewrite Hm, Hi. reflexivity.
  - intros Hm. unfold sends_first.
    rewrite getVesselDetailsTool_world by (rewrite Hm; reflexivity).
    rewrite (re_mmsi_not_IMO _ Hm).
    pose proof (getVesselDetails_sends host c identifier w) as H.
    rewrite Hm in H. exact H.
  - intros Hi. destruct (re_imo_prefixed_facts _ Hi) as (Hp & Hb & Hnm & _).
    split; [exact Hb |]. unfold sends_first.
    rewrite getVesselDetailsTool_world by (rewrite Hi; apply andb_false_r).
    rewrite Hp.
    pose proof (getVesselDetails_sends host c (Str.substring_from 3 identifier) w) as H.
    rewrite Hnm in H. exact H.
  - intros Hm Hi. unfold rejects, DetailsTool.getVesselDetailsTool.
    rewrite Hm, Hi. reflexivity.
  - intros uri group Hmatch Hdec.
    split; [| split; [| split]].
    + intros Hm. unfold sends_first.
      rewrite (getVesselResource_world host c uri group identifier w Hmatch Hdec)
        by (rewrite Hm; reflexivity).
      rewrite (re_mmsi_not_IMO _ Hm).
      pose proof (fetch_both_sends host c identifier w) as H.
      rewrite Hm in H. exact H.
    + intros Hb. destruct (re_imo_bare_facts _ Hb) as (Hp & Hnm). unfold sends_first.
      rewrite (getVesselResource_world host c uri group identifier w Hmatch Hdec)
        by (rewrite Hb; apply andb_false_r).
      rewrite Hp.
      pose proof (fetch_both_sends host c identifier w) as H.
      rewrite Hnm in H. exact H.
    + intros Hi. destruct (re_imo_prefixed_facts _ Hi) as (Hp & Hb & Hnm & _).
      split; [exact Hb |]. unfold sends_first.
      rewrite (getVesselResource_world host c uri group identifier w Hmatch Hdec)
        by (rewrite Hi; rewrite andb_false_r; reflexivity).
      rewrite Hp.
      pose proof (fetch_both_sends host c (Str.substring_from 3 identifier) w) as H.
      rewrite Hnm in H. exact H.
    + intros Hm Hi Hb. unfold rejects, VesselResource.getVesselResource.
      rewrite Hmatch, Hdec, Hm, Hi, Hb. reflexivity.
Qed.

Lemma identifier_validation_by_entry_point_witness :
  sends_first (PositionTool.getVesselPositionTool Examples.host_ok Examples.client "123456789") []
    (EvGet VESSEL_POSITION (id_query Examples.client "mmsi" "123456789"))
  /\ sends_first (DetailsTool.getVesselDetailsTool Examples.host_ok Examples.client "123456789") []
    (EvGet VESSEL_DETAILS (id_query Examples.client "mmsi" "123456789"))
  /\ sends_first (VesselResource.getVesselResource Examples.host_ok Examples.client
                    "vessel://123456789") []
    (EvGet VESSEL_POSITION (id_query Examples.client "mmsi" "123456789")).
Proof.
  destruct (identifier_validation_by_entry_point Examples.host_ok Examples.client
              "123456789" [])
    as (Hposition & _ & _ & Hdetails & _ & _ & Hresource).
  split; [apply Hposition; reflexivity |].
  split; [apply Hdetails; reflexivity |].
  destruct (Hresource "vessel://123456789" "123456789" eq_refl eq_refl) as (Hmmsi & _).
  apply Hmmsi. reflexivity.
Defined.

(** C1 as stated fails: the position tool rejects a string of exactly 7
    digits instead of taking it as an IMO number, and the vessel resource
    rejects with InvalidRequest, not InvalidParams. *)
Lemma bare_imo_rejected_by_position_tool :
  Str.re_imo_bare "1234567" = true
  /\ PositionTool.getVesselPositionTool Examples.host_ok Examples.client "1234567" []
     = (inl (McpError InvalidParams PositionTool.invalid_identifier), [])
  /\ DetailsTool.getVesselDetailsTool Examples.host_ok Examples.client "1234567" []
     = (inl (McpError InvalidParams DetailsTool.invalid_identifier), [])
  /\ VesselResource.getVesselResource Examples.host_ok Examples.client "vessel://12345" []
     = (inl (McpError InvalidRequest VesselResource.invalid_identifier), []).
Proof. repeat split. Qed.

(** ** The combined vessel lookup *)

Section DualFetch.

Variable host : Host.
Variable c : MarineTrafficApiClient.

(** The only thing the formatting step can throw is the date error. *)
Lemma vesselData_throws identifier position details t :
  VesselResource.vesselData host identifier position details = inl t ->
  t = JsError "Invalid time value".
Proof.
  unfold VesselResource.vesselData, new_Date_toISOString.
  destruct position as [p |]; [| discriminate].
  destruct (dateToISOString host (vp_timestamp p)); [discriminate |].
  intros H. injection H as <-. reflexivity.
Qed.



Lemma vesselData_bad_date identifier p details :
  dateToISOString host (vp_timestamp p) = None ->
  VesselResource.vesselData host identifier (Some p) details
  = inl (JsError "Invalid time value").
Proof.
  intros Hdate. unfold VesselResource.vesselData, new_Date_toISOString.
  rewrite Hdate. reflexivity.
Qed.

(** The result of the resource reader, past validation, from what its two
    calls settled to. *)
Lemma getVesselResource_result uri group identifier w position details :
  Str.match_vessel_uri uri = Some group ->
  decodeURIComponent host group = Some identifier ->
  negb (Str.re_mmsi identifier) && negb (Str.re_imo_prefixed identifier)
    && negb (Str.re_imo_bare identifier) = false ->
  fst (VesselResource.fetch_both host c
         (if Str.startsWith "IMO" identifier then Str.substring_from 3 identifier
          else identifier) w) = inr (position, details) ->
  fst (VesselResource.getVesselResource host c uri w)
  = match position, details with
    | None, None => inl (VesselResource.no_data identifier)
    | _, _ =>
        match VesselResource.vesselData host identifier position details with
        | inl _ =>
            inl (McpError InternalError
                   "Error retrieving vessel resource: Invalid time value")
        | inr data => inr (JSON_stringify data)
        end
    end.
Proof.
  intros Hm Hd Hvalid Hboth. unfold VesselResource.getVesselResource.
  rewrite Hm, Hd, Hvalid.
  unfold try_catch, bind.
  destruct (VesselResource.fetch_both host c _ w) as [r w1]. simpl in Hboth. subst r.
  destruct position as [p |], details as [d |]; try reflexivity;
    unfold lift, ret;
    match goal with
    | |- context [VesselResource.vesselData ?h ?i ?a ?b] =>
        destruct (VesselResource.vesselData h i a b) as [t | data] eqn:Ev;
          [rewrite (vesselData_throws _ _ _ _ Ev) | ]; reflexivity
    end.
Qed.

(** What the two calls settled to, with the log of the reading. *)
Lemma getVesselResource_calls uri group identifier w :
  Str.match_vessel_uri uri = Some group ->
  decodeURIComponent host group = Some identifier ->
  negb (Str.re_mmsi identifier) && negb (Str.re_imo_prefixed identifier)
    && negb (Str.re_imo_bare identifier) = false ->
  let clean := if Str.startsWith "IMO" identifier then Str.substring_from 3 identifier
               else identifier in
  let sent := request_interceptor c (identifier_params clean) in
  let result := VesselResource.getVesselResource host c uri w in
  exists rest (rp : Thrown + VesselPosition) (rd : Thrown + VesselDetails),
    let log := EvGet VESSEL_POSITION sent :: EvGet VESSEL_DETAILS sent :: rest in
    snd result = w ++ log
    /\ all_requests (fun e q => (e = VESSEL_POSITION \/ e = VESSEL_DETAILS) /\ q = sent) log
    /\ verdict c 0 (answers host VESSEL_POSITION (requests_sent w) log) = Some rp
    /\ verdict c 0 (answers host VESSEL_DETAILS (requests_sent w) log) = Some rd
    /\ fst result
       = match or_null rp, or_null rd with
         | None, None => inl (VesselResource.no_data identifier)
         | position, details =>
             match VesselResource.vesselData host identifier position details with
             | inl _ =>
                 inl (McpError InternalError
                        "Error retrieving vessel resource: Invalid time value")
             | inr data => inr (JSON_stringify data)
             end
         end.
Proof.
  intros Hm Hd Hvalid clean sent result.
  destruct (fetch_both_outcome host c clean w) as (rest & rp & rd & Hrun & Hp & Hdd & Hall).
  exists rest, rp, rd. cbv zeta. fold sent in Hrun, Hp, Hdd, Hall.
  split; [| split; [exact Hall | split; [exact Hp | split; [exact Hdd |]]]].
  - unfold result. rewrite (getVesselResource_world host c uri group identifier w Hm Hd Hvalid).
    fold clean. rewrite Hrun. reflexivity.
  - unfold result.
    rewrite (getVesselResource_result uri group identifier w (or_null rp) (or_null rd)
               Hm Hd Hvalid); [destruct rp, rd; reflexivity |].
    fold clean. rewrite Hrun. reflexivity.
Qed.

(** The answer that settles a call with a value is that value. *)
Lemma settle_value {T} (o : AxiosOutcome T) (x : T) :
  settle o = inr x <-> o = Resolved x.
Proof.
  destruct o as [data | status data | | err]; simpl; split; intros H;
    try discriminate H; try congruence.
  destruct (bool_decide (status = 401)); discriminate H.
Qed.

Lemma verdict_value {T} retryCount (given : list (AxiosOutcome T)) r :
  verdict c retryCount given = Some r ->
  forall x, or_null r = Some x <-> last given = Some (Resolved x).
Proof.
  intros Hv x. destruct (verdict_last c retryCount given r Hv) as (o & Hlast & ->).
  rewrite Hlast. split.
  - intros H. destruct (settle o) as [t | y] eqn:E; [discriminate H |].
    injection H as ->. apply settle_value in E. rewrite E. reflexivity.
  - intros H. injection H as ->. reflexivity.
Qed.

End DualFetch.




(** ** The search tool *)

Lemma opt_str_truthy_false o : opt_str_truthy o = false <-> blank o.
Proof.
  unfold blank. destruct o as [[| ch r] |]; simpl; split; intros H;
    try reflexivity; try discriminate; auto.
  - destruct H as [H | H]; discriminate H.
Qed.

Lemma opt_num_truthy_false o :
  o <> Some (NInt 0) -> (opt_num_truthy o = false <-> o = None).
Proof.
  intros Hz. destruct o as [[z | repr] |]; simpl; split; intros H;
    try reflexivity; try discriminate.
  apply negb_false_iff, Z.eqb_eq in H. subst z. contradiction.
Qed.

Section SearchFacts.

Variable host : Host.
Variable c : MarineTrafficApiClient.

(** The object the caller passed, after the call: what the statements
    before the client call made of it. *)
Lemma searchVesselsTool_args args w :
  snd (fst (SearchTool.searchVesselsTool host c args w))
  = snd (SearchTool.validate_and_clean args).
Proof.
  unfold SearchTool.searchVesselsTool.
  destruct (SearchTool.validate_and_clean args) as [checked args1].
  destruct (try_catch _ _ w). reflexivity.
Qed.

(** A validation error leaves the object alone and is an [McpError]. *)
Lemma validate_and_clean_error args err :
  fst (SearchTool.validate_and_clean args) = inl err ->
  SearchTool.validate_and_clean args = (inl err, args)
  /\ (err = McpError InvalidParams SearchTool.missing_parameter
      \/ err = McpError InvalidParams SearchTool.invalid_mmsi
      \/ err = McpError InvalidParams SearchTool.invalid_imo).
Proof.
  unfold SearchTool.validate_and_clean.
  repeat match goal with
         | |- context [if ?b then _ else _] => destruct b
         end; simpl; intros H; try discriminate H; injection H as <-; auto.
Qed.

Lemma searchVesselsTool_rejected args w err :
  fst (SearchTool.validate_and_clean args) = inl err ->
  SearchTool.searchVesselsTool host c args w = (inl err, args, w).
Proof.
  intros H. destruct (validate_and_clean_error args err H) as [Hv Herr].
  unfold SearchTool.searchVesselsTool. rewrite Hv.
  destruct Herr as [-> | [-> | ->]]; reflexivity.
Qed.

Lemma searchVesselsTool_proceeds args w :
  fst (SearchTool.validate_and_clean args) = inr tt ->
  exists rest,
    snd (SearchTool.searchVesselsTool host c args w)
    = w ++ EvGet VESSEL_SEARCH
             (request_interceptor c
                (SearchParams_obj (snd (SearchTool.validate_and_clean args)))) :: rest.
Proof.
  intros H. unfold SearchTool.searchVesselsTool.
  destruct (SearchTool.validate_and_clean args) as [checked args1]. simpl in H. subst checked.
  simpl snd at 2.
  match goal with
  | |- context [try_catch ?b ?h w] =>
      pose proof (snd_try_catch_rethrow b "Error searching for vessels" w) as Hw;
      destruct (try_catch b h w) as [r w1] eqn:E
  end.
  simpl in *. rewrite Hw.
  unfold bind at 1. unfold lift at 1.
  rewrite snd_bind_pure by (intros a w'; apply snd_bind_lift).
  apply (makeRequest_sends_first host c VESSEL_SEARCH (SearchParams_obj args1) 0 w).
Qed.

End SearchFacts.

Lemma mmsi_format_ok_check (o : option string) :
  mmsi_format_ok o
  <-> opt_str_truthy o && negb (Str.re_mmsi (default EmptyString o)) = false.
Proof.
  unfold mmsi_format_ok, blank. destruct o as [[| ch r] |]; simpl.
  - split; [reflexivity | auto].
  - destruct (Str.re_mmsi (String ch r)) eqn:E; simpl; split; intros H;
      try reflexivity; try discriminate H.
    + right. eexists. split; [reflexivity | exact E].
    + destruct H as [[H | H] | (m & H & Hm)]; try discriminate H.
      injection H as <-. congruence.
  - split; [reflexivity | auto].
Qed.

Lemma imo_format_ok_check (o : option string) :
  imo_format_ok o
  <-> opt_str_truthy o && negb (Str.re_imo_prefixed (default EmptyString o))
        && negb (Str.re_imo_bare (default EmptyString o)) = false.
Proof.
  unfold imo_format_ok, blank.
  destruct o as [[| ch r] |];
    [change (default EmptyString (Some EmptyString)) with EmptyString
    |change (default EmptyString (Some (String ch r))) with (String ch r)
    |change (default EmptyString (@None string)) with EmptyString];
    cbn [opt_str_truthy Str.is_empty negb andb].
  - split; [reflexivity | auto].
  - destruct (Str.re_imo_prefixed (String ch r)) eqn:E1,
      (Str.re_imo_bare (String ch r)) eqn:E2; cbn [negb andb]; split; intros H;
      try reflexivity; try discriminate H;
      try (right; eexists; split; [reflexivity | auto]).
    destruct H as [[H | H] | (m & H & [Hm | Hm])]; try discriminate H;
      injection H as <-; congruence.
  - split; [reflexivity | auto].
Qed.

Lemma SearchParams_obj_query c args :
  let q := request_interceptor c (SearchParams_obj args) in
  q !! "apiKey" = Some (VStr (apiKey c))
  /\ q !! "vessel_name" = VStr <$> sp_vessel_name args
  /\ q !! "mmsi" = VStr <$> sp_mmsi args
  /\ q !! "imo" = VStr <$> sp_imo args
  /\ q !! "ship_type" = VNum <$> sp_ship_type args.
Proof.
  unfold request_interceptor, SearchParams_obj, set_prop.
  destruct (sp_vessel_name args), (sp_mmsi args), (sp_imo args), (sp_ship_type args); simpl;
    repeat split; by simplify_map_eq.
Qed.

(** Criteria whose formats are right pass the checks; the object is left
    with its imo stripped of the prefix. *)
Lemma validate_and_clean_passes args :
  fst (SearchTool.validate_and_clean args)
    <> inl (McpError InvalidParams SearchTool.missing_parameter) ->
  mmsi_format_ok (sp_mmsi args) -> imo_format_ok (sp_imo args) ->
  SearchTool.validate_and_clean args
  = (inr tt,
     {| sp_vessel_name := sp_vessel_name args;
        sp_mmsi := sp_mmsi args;
        sp_imo := without_IMO <$> sp_imo args;
        sp_ship_type := sp_ship_type args |}).
Proof.
  intros Hsome Hmmsi Himo.
  apply mmsi_format_ok_check in Hmmsi. apply imo_format_ok_check in Himo.
  unfold SearchTool.validate_and_clean in *.
  destruct (negb (opt_str_truthy (sp_vessel_name args))
            && negb (opt_str_truthy (sp_mmsi args))
            && negb (opt_str_truthy (sp_imo args))
            && negb (opt_num_truthy (sp_ship_type args))); [contradiction |].
  rewrite Hmmsi, Himo.
  destruct args as [vn mm [im |] st];
    cbn [opt_str_truthy sp_imo sp_vessel_name sp_mmsi sp_ship_type fmap option_fmap
         option_map andb];
    [change (default EmptyString (Some im)) with im |].
  - unfold without_IMO.
    destruct (Str.is_empty im) eqn:Ee; cbn [negb andb].
    + destruct im; [reflexivity | discriminate Ee].
    + destruct (Str.startsWith "IMO" im); reflexivity.
  - reflexivity.
Qed.

(** C6, as the code has it, for criteria whose ship_type is not the number
    0: the search tool rejects with the InvalidParams "at least one search
    parameter" error, sending nothing, exactly when vessel_name, mmsi and
    imo are each absent or empty and ship_type is absent.  Otherwise that
    check passes and the format checks follow: an mmsi that is given and
    is not 9 digits is rejected, then an imo that is given and is neither
    7 digits nor "IMO" followed by 7 digits, each with its own
    InvalidParams error and nothing sent; and when both formats are right
    the request to the search endpoint goes out, with the criteria as
    given and the imo without its prefix. *)
Theorem search_rejects_without_criterion
    (host : Host) (c : MarineTrafficApiClient) (args : SearchParams) (w : World) :
  sp_ship_type args <> Some (NInt 0) ->
  let none_given :=
    blank (sp_vessel_name args) /\ blank (sp_mmsi args) /\ blank (sp_imo args)
    /\ sp_ship_type args = None in
  (none_given <->
     SearchTool.searchVesselsTool host c args w
     = (inl (McpError InvalidParams SearchTool.missing_parameter), args, w))
  /\ (~ none_given -> ~ mmsi_format_ok (sp_mmsi args) ->
      SearchTool.searchVesselsTool host c args w
      = (inl (McpError InvalidParams SearchTool.invalid_mmsi), args, w))
  /\ (~ none_given -> mmsi_format_ok (sp_mmsi args) -> ~ imo_format_ok (sp_imo args) ->
      SearchTool.searchVesselsTool host c args w
      = (inl (McpError InvalidParams SearchTool.invalid_imo), args, w))
  /\ (~ none_given -> mmsi_format_ok (sp_mmsi args) -> imo_format_ok (sp_imo args) ->
      exists q rest,
        snd (SearchTool.searchVesselsTool host c args w)
        = w ++ EvGet VESSEL_SEARCH q :: rest
        /\ search_query (apiKey c) args q).
Proof.
  intros Hz none_given.
  assert (Hiff : none_given <->
     fst (SearchTool.validate_and_clean args)
     = inl (McpError InvalidParams SearchTool.missing_parameter)).
  { unfold none_given.
    rewrite <- !opt_str_truthy_false, <- (opt_num_truthy_false _ Hz).
    unfold SearchTool.validate_and_clean.
    destruct (opt_str_truthy (sp_vessel_name args)),
      (opt_str_truthy (sp_mmsi args)) eqn:Em,
      (opt_str_truthy (sp_imo args)) eqn:Ei,
      (opt_num_truthy (sp_ship_type args)); simpl;
      repeat match goal with
             | |- context [if ?b then _ else _] => destruct b
             end; simpl; split; intros H; try discriminate H; try reflexivity;
      try (destruct H as (H1 & H2 & H3 & H4); discriminate);
      try (repeat split; reflexivity). }
  assert (Hsent : ~ none_given -> mmsi_format_ok (sp_mmsi args) ->
                  imo_format_ok (sp_imo args) ->
      exists q rest,
        snd (SearchTool.searchVesselsTool host c args w)
        = w ++ EvGet VESSEL_SEARCH q :: rest
        /\ search_query (apiKey c) args q).
  { intros Hsome Hmmsi Himo.
    assert (Hpass := validate_and_clean_passes args
                       (fun H => Hsome (proj2 Hiff H)) Hmmsi Himo).
    destruct (searchVesselsTool_proceeds host c args w) as (rest & Hw).
    { rewrite Hpass. reflexivity. }
    rewrite Hpass in Hw. cbn [snd] in Hw.
    eexists. exists rest. split; [exact Hw |].
    exact (SearchParams_obj_query c _). }
  split; [| split; [| split]]; [| | | exact Hsent].
  - split.
    + intros Hnone. apply searchVesselsTool_rejected. apply Hiff. exact Hnone.
    + intros Hrun.
      destruct (fst (SearchTool.validate_and_clean args)) as [err | []] eqn:Ev.
      * rewrite (searchVesselsTool_rejected host c args w err Ev) in Hrun.
        apply Hiff. congruence.
      * exfalso.
        destruct (searchVesselsTool_proceeds host c args w Ev) as (rest & Hw).
        rewrite Hrun in Hw. cbn [snd] in Hw.
        apply (f_equal (@length Event)) in Hw. rewrite length_app in Hw. simpl in Hw. lia.
  - intros Hsome Hmmsi. apply searchVesselsTool_rejected.
    assert (Hm : opt_str_truthy (sp_mmsi args)
                 && negb (Str.re_mmsi (default EmptyString (sp_mmsi args))) = true).
    { destruct (opt_str_truthy (sp_mmsi args)
                && negb (Str.re_mmsi (default EmptyString (sp_mmsi args)))) eqn:E;
        [reflexivity |].
      exfalso. apply Hmmsi, mmsi_format_ok_check. exact E. }
    assert (Hn : fst (SearchTool.validate_and_clean args)
                 <> inl (McpError InvalidParams SearchTool.missing_parameter)).
    { intros H. apply Hsome, Hiff. exact H. }
    unfold SearchTool.validate_and_clean in *.
    destruct (negb (opt_str_truthy (sp_vessel_name args))
              && negb (opt_str_truthy (sp_mmsi args))
              && negb (opt_str_truthy (sp_imo args))
              && negb (opt_num_truthy (sp_ship_type args))); [contradiction |].
    rewrite Hm. reflexivity.
  - intros Hsome Hmmsi Himo. apply searchVesselsTool_rejected.
    apply mmsi_format_ok_check in Hmmsi.
    assert (Hi : opt_str_truthy (sp_imo args)
                 && negb (Str.re_imo_prefixed (default EmptyString (sp_imo args)))
                 && negb (Str.re_imo_bare (default EmptyString (sp_imo args))) = true).
    { destruct (opt_str_truthy (sp_imo args)
                && negb (Str.re_imo_prefixed (default EmptyString (sp_imo args)))
                && negb (Str.re_imo_bare (default EmptyString (sp_imo args)))) eqn:E;
        [reflexivity |].
      exfalso. apply Himo, imo_format_ok_check. exact E. }
    assert (Hn : fst (SearchTool.validate_and_clean args)
                 <> inl (McpError InvalidParams SearchTool.missing_parameter)).
    { intros H. apply Hsome, Hiff. exact H. }
    unfold SearchTool.validate_and_clean in *.
    destruct (negb (opt_str_truthy (sp_vessel_name args))
              && negb (opt_str_truthy (sp_mmsi args))
              && negb (opt_str_truthy (sp_imo args))
              && negb (opt_num_truthy (sp_ship_type args))); [contradiction |].
    rewrite Hmmsi, Hi. reflexivity.
Qed.

Lemma search_rejects_without_criterion_witness :
  SearchTool.searchVesselsTool Examples.host_ok Examples.client Examples.no_criteria []
  = (inl (McpError InvalidParams SearchTool.missing_parameter), Examples.no_criteria, [])
  /\ exists q rest,
       snd (SearchTool.searchVesselsTool Examples.host_ok Examples.client
              {| sp_vessel_name := Some "EVER"; sp_mmsi := None;
                 sp_imo := Some "IMO1234567"; sp_ship_type := None |} [])
       = [] ++ EvGet VESSEL_SEARCH q :: rest
       /\ search_query (apiKey Examples.client)
            {| sp_vessel_name := Some "EVER"; sp_mmsi := None;
               sp_imo := Some "IMO1234567"; sp_ship_type := None |} q.
Proof.
  split.
  - destruct (search_rejects_without_criterion Examples.host_ok Examples.client
                Examples.no_criteria []) as (Hreject & _).
    + discriminate.
    + apply Hreject. unfold blank. simpl. auto.
  - destruct (search_rejects_without_criterion Examples.host_ok Examples.client
                {| sp_vessel_name := Some "EVER"; sp_mmsi := None;
                   sp_imo := Some "IMO1234567"; sp_ship_type := None |} [])
      as (_ & _ & _ & Hsent).
    + discriminate.
    + apply Hsent.
      * intros ([H | H] & _); discriminate H.
      * left. left. reflexivity.
      * right. exists "IMO1234567". split; [reflexivity | left; reflexivity].
Defined.

(** C6 as stated fails: criteria whose vessel_name is present, but empty,
    are rejected by the at-least-one check. *)
Lemma search_rejects_present_empty_name :
  sp_vessel_name {| sp_vessel_name := Some EmptyString; sp_mmsi := None;
                    sp_imo := None; sp_ship_type := None |} <> None
  /\ SearchTool.searchVesselsTool Examples.host_ok Examples.client
       {| sp_vessel_name := Some EmptyString; sp_mmsi := None;
          sp_imo := None; sp_ship_type := None |} []
     = (inl (McpError InvalidParams SearchTool.missing_parameter),
        {| sp_vessel_name := Some EmptyString; sp_mmsi := None;
           sp_imo := None; sp_ship_type := None |}, []).
Proof. split; [discriminate | reflexivity]. Qed.

(** C9, as the code has it: when the criteria pass the checks that come
    first (mmsi absent, empty or 9 digits; imo "IMO" followed by 7 digits),
    the caller's object ends with the imo field replaced by its 7 digits;
    when a check rejects, or imo does not begin with "IMO", the object is
    left as it was; in every case vessel_name, mmsi and ship_type are
    unchanged, whatever the upstream service answers.  The object that is
    sent to the search endpoint is the caller's object as overwritten. *)
Theorem search_cleans_imo_in_place
    (host : Host) (c : MarineTrafficApiClient) (args : SearchParams) (w : World) :
  let args' := snd (fst (SearchTool.searchVesselsTool host c args w)) in
  sp_vessel_name args' = sp_vessel_name args
  /\ sp_mmsi args' = sp_mmsi args
  /\ sp_ship_type args' = sp_ship_type args
  /\ (forall s,
        sp_imo args = Some s ->
        Str.re_imo_prefixed s = true ->
        (blank (sp_mmsi args) \/ exists m, sp_mmsi args = Some m /\ Str.re_mmsi m = true) ->
        sp_imo args' = Some (Str.substring_from 3 s)
        /\ Str.re_imo_bare (Str.substring_from 3 s) = true)
  /\ (forall err, fst (SearchTool.validate_and_clean args) = inl err -> args' = args)
  /\ (forall s, sp_imo args = Some s -> Str.startsWith "IMO" s = false -> args' = args)
  /\ (sp_imo args = None -> args' = args)
  /\ (fst (SearchTool.validate_and_clean args) = inr tt ->
      exists rest,
        snd (SearchTool.searchVesselsTool host c args w)
        = w ++ EvGet VESSEL_SEARCH (request_interceptor c (SearchParams_obj args')) :: rest).
Proof.
  intros args'. unfold args'. rewrite searchVesselsTool_args.
  assert (Hsent := searchVesselsTool_proceeds host c args w).
  destruct args as [vn mm im st]. simpl.
  split; [| split; [| split; [| split; [| split; [| split; [| split]]]]]];
    [| | | | | | | exact Hsent].
  - unfold SearchTool.validate_and_clean.
    repeat match goal with
           | |- context [if ?b then _ else _] => destruct b
           end; reflexivity.
  - unfold SearchTool.validate_and_clean.
    repeat match goal with
           | |- context [if ?b then _ else _] => destruct b
           end; reflexivity.
  - unfold SearchTool.validate_and_clean.
    repeat match goal with
           | |- context [if ?b then _ else _] => destruct b
           end; reflexivity.
  - intros s -> Hs Hm.
    destruct (re_imo_prefixed_facts s Hs) as (Hp & Hb & _).
    split; [| exact Hb].
    assert (Hsne : Str.is_empty s = false).
    { destruct s; [discriminate Hp | reflexivity]. }
    assert (Hmm : opt_str_truthy mm
                  && negb (Str.re_mmsi (default EmptyString mm)) = false).
    { destruct Hm as [Hblank | (m & -> & Hre)].
      - apply opt_str_truthy_false in Hblank. rewrite Hblank. reflexivity.
      - simpl. rewrite Hre. apply andb_false_r. }
    unfold SearchTool.validate_and_clean. simpl.
    rewrite Hsne, Hmm, Hs, Hp. simpl.
    rewrite ?andb_false_r. reflexivity.
  - intros err Herr.
    destruct (validate_and_clean_error _ err Herr) as [Hv _]. rewrite Hv. reflexivity.
  - intros s -> Hp. unfold SearchTool.validate_and_clean. simpl. rewrite Hp.
    rewrite ?andb_false_r.
    repeat match goal with
           | |- context [if ?b then _ else _] => destruct b
           end; reflexivity.
  - intros ->. unfold SearchTool.validate_and_clean. simpl.
    rewrite ?andb_false_r.
    repeat match goal with
           | |- context [if ?b then _ else _] => destruct b
           end; reflexivity.
Qed.

Lemma search_cleans_imo_in_place_witness :
  sp_imo (snd (fst (SearchTool.searchVesselsTool Examples.host_ok Examples.client
                      {| sp_vessel_name := Some "EVER GIVEN"; sp_mmsi := None;
                         sp_imo := Some "IMO1234567"; sp_ship_type := Some (NInt 7) |} [])))
  = Some (Str.substring_from 3 "IMO1234567")
  /\ Str.re_imo_bare (Str.substring_from 3 "IMO1234567") = true.
Proof.
  destruct (search_cleans_imo_in_place Examples.host_ok Examples.client
              {| sp_vessel_name := Some "EVER GIVEN"; sp_mmsi := None;
                 sp_imo := Some "IMO1234567"; sp_ship_type := Some (NInt 7) |} [])
    as (_ & _ & _ & Hclean & _).
  apply (Hclean "IMO1234567"); [reflexivity | reflexivity |].
  left. left. reflexivity.
Defined.

(** C9 as stated fails: an imo that begins with "IMO" but does not pass
    the format check is not overwritten; the call throws first. *)
Lemma search_keeps_invalid_imo :
  Str.startsWith "IMO" "IMO12" = true
  /\ SearchTool.searchVesselsTool Examples.host_ok Examples.client
       {| sp_vessel_name := None; sp_mmsi := None;
          sp_imo := Some "IMO12"; sp_ship_type := None |} []
     = (inl (McpError InvalidParams SearchTool.invalid_imo),
        {| sp_vessel_name := None; sp_mmsi := None;
           sp_imo := Some "IMO12"; sp_ship_type := None |}, []).
Proof. split; reflexivity. Qed.

(** ** Rendering of zero values *)








(** * Further properties *)

(** ** The shape of every request *)

Section RequestShape.

Variable host : Host.
Variable c : MarineTrafficApiClient.

(** Every run of [makeRequest] is some number [k] of attempts answered
    429 and retried, then one attempt that settles. *)
Lemma makeRequest_shape e params :
  forall n retryCount w,
    (maxRetries c - retryCount = n)%nat ->
    exists k,
      (k <= n)%nat
      /\ (forall i, (i < k)%nat ->
            rate_limited (http_get host (requests_sent w + i) e (request_interceptor c params)))
      /\ retries c (http_get host (requests_sent w + k) e (request_interceptor c params))
           (retryCount + k) = false
      /\ makeRequest host c e params retryCount w
         = (settle (http_get host (requests_sent w + k) e (request_interceptor c params)),
            w ++ backoff_log c e (request_interceptor c params) retryCount k
              ++ [EvGet e (request_interceptor c params)]).
Proof.
  induction n as [| n IH]; intros rc w Hn.
  - exists 0%nat. rewrite !Nat.add_0_r.
    assert (Hno : retries c (http_get host (requests_sent w) e
                               (request_interceptor c params)) rc = false).
    { destruct (http_get host (requests_sent w) e (request_interceptor c params));
        simpl; try reflexivity.
      rewrite (bool_decide_eq_false_2 (rc < maxRetries c)%nat) by lia.
      apply andb_false_r. }
    split; [lia |]. split; [intros i Hi; lia |]. split; [exact Hno |].
    rewrite makeRequest_last by exact Hno. reflexivity.
  - destruct (retries c (http_get host (requests_sent w) e
                           (request_interceptor c params)) rc) eqn:Hretry.
    + assert (H429 : rate_limited (http_get host (requests_sent w) e
                                     (request_interceptor c params))).
      { destruct (http_get host (requests_sent w) e (request_interceptor c params))
          as [d | status d | | err]; simpl in Hretry; try discriminate Hretry.
        apply andb_true_iff in Hretry as [Hs _].
        apply bool_decide_eq_true in Hs. subst status. exists d. reflexivity. }
      destruct (IH (rc + 1)%nat
                  ((w ++ [EvGet e (request_interceptor c params)])
                     ++ [EvSleep (retryDelay c * 2 ^ Z.of_nat rc)]) ltac:(lia))
        as (k & Hk & Hrun & Hstop & Heq).
      rewrite !requests_sent_app in Hrun, Hstop, Heq. simpl in Hrun, Hstop, Heq.
      exists (S k). split; [lia |]. split; [| split].
      * intros i Hi. destruct i as [| i].
        -- rewrite Nat.add_0_r. exact H429.
        -- replace (requests_sent w + S i)%nat
             with (requests_sent w + 1 + 0 + i)%nat by lia.
           apply Hrun. lia.
      * replace (requests_sent w + S k)%nat
          with (requests_sent w + 1 + 0 + k)%nat by lia.
        replace (rc + S k)%nat with (rc + 1 + k)%nat by lia. exact Hstop.
      * rewrite makeRequest_step, Hretry, Heq.
        replace (requests_sent w + S k)%nat
          with (requests_sent w + 1 + 0 + k)%nat by lia.
        simpl. rewrite <- !app_assoc. reflexivity.
    + exists 0%nat. rewrite !Nat.add_0_r.
      split; [lia |]. split; [intros i Hi; lia |]. split; [exact Hretry |].
      rewrite makeRequest_last by exact Hretry. reflexivity.
Qed.

Lemma waits_backoff_log e sent retryCount k :
  waits (backoff_log c e sent retryCount k)
  = map (fun i => retryDelay c * 2 ^ Z.of_nat i) (seq retryCount k).
Proof.
  revert retryCount. induction k as [| k IH]; intros rc; simpl; [reflexivity |].
  rewrite IH. replace (rc + 1)%nat with (S rc) by lia. reflexivity.
Qed.

Lemma total_wait_app (w1 w2 : World) :
  total_wait (w1 ++ w2) = total_wait w1 + total_wait w2.
Proof.
  unfold total_wait. rewrite waits_app.
  induction (waits w1) as [| ms r IH]; simpl; [reflexivity |]. rewrite IH. lia.
Qed.

Lemma total_wait_backoff_log e sent retryCount k :
  total_wait (backoff_log c e sent retryCount k)
  = retryDelay c * (2 ^ Z.of_nat (retryCount + k) - 2 ^ Z.of_nat retryCount).
Proof.
  revert retryCount. induction k as [| k IH]; intros rc.
  - simpl. rewrite Nat.add_0_r. unfold total_wait. simpl. lia.
  - change (backoff_log c e sent rc (S k))
      with ([EvGet e sent; EvSleep (retryDelay c * 2 ^ Z.of_nat rc)]
              ++ backoff_log c e sent (rc + 1) k).
    rewrite total_wait_app, IH. unfold total_wait at 1. simpl.
    replace (rc + 1 + k)%nat with (rc + S k)%nat by lia.
    replace (Z.of_nat (rc + 1)) with (Z.succ (Z.of_nat rc)) by lia.
    rewrite Z.pow_succ_r by lia. lia.
Qed.

End RequestShape.

(** ** Bounds and classification of the client *)

(** X1: whatever the upstream service answers, one request of the client
    makes at least one and at most four attempts, waits before each
    attempt but the first, the waits being the first ones of 1000, 2000,
    4000 ms, and so waits 7000 ms at most. *)
Theorem attempts_and_waits_bounded
    (host : Host) (key : option string) (c : MarineTrafficApiClient)
    (e : Endpoint) (params : gmap string JsVal) (w : World) :
  new_MarineTrafficApiClient key = inr c ->
  exists evs,
    snd (makeRequest host c e params 0 w) = w ++ evs
    /\ (1 <= requests_sent evs <= 4)%nat
    /\ (length (waits evs) + 1 = requests_sent evs)%nat
    /\ waits evs `prefix_of` [1000; 2000; 4000]
    /\ 0 <= total_wait evs <= 7000.
Proof.
  intros Hnew.
  destruct (new_client_fields _ _ Hnew) as (_ & _ & Hdelay & Hmax).
  destruct (makeRequest_shape host c e params _ 0%nat w eq_refl) as (k & Hk & _ & _ & Heq).
  rewrite Hmax in Hk.
  exists (backoff_log c e (request_interceptor c params) 0 k
            ++ [EvGet e (request_interceptor c params)]).
  rewrite Heq. split; [reflexivity |].
  rewrite requests_sent_app, requests_sent_backoff_log, waits_app, waits_backoff_log,
    total_wait_app, total_wait_backoff_log, Hdelay.
  rewrite length_app, length_map, length_seq. simpl.
  split; [lia |]. split; [lia |].
  destruct k as [| [| [| [| k]]]]; try lia; simpl; rewrite ?app_nil_r.
  - split; [apply prefix_nil |]. unfold total_wait; simpl; lia.
  - split; [exists [2000; 4000]; reflexivity |]. unfold total_wait; simpl; lia.
  - split; [exists [4000]; reflexivity |]. unfold total_wait; simpl; lia.
  - split; [exists []; reflexivity |]. unfold total_wait; simpl; lia.
Qed.

Lemma attempts_and_waits_bounded_witness :
  exists evs,
    snd (makeRequest (Examples.host_limited 2) Examples.client VESSELS_IN_AREA ∅ 0 [])
    = [] ++ evs
    /\ (1 <= requests_sent evs <= 4)%nat
    /\ (length (waits evs) + 1 = requests_sent evs)%nat
    /\ waits evs `prefix_of` [1000; 2000; 4000]
    /\ 0 <= total_wait evs <= 7000.
Proof.
  apply (attempts_and_waits_bounded (Examples.host_limited 2) (Some "secret")
           Examples.client VESSELS_IN_AREA ∅ []).
  reflexivity.
Defined.

(** X2: an attempt that is answered by anything but a 429 is the last
    one, at any retry count: a payload is returned as it is, a status
    other than 401 and 429 becomes the InternalError "MarineTraffic API
    error: status - body", no response at all becomes the InternalError
    network error, and an error that is not an HTTP failure is thrown
    on unchanged.  A 429 with no retry left is classified like any other
    status. *)
Theorem attempt_without_retry
    (host : Host) (c : MarineTrafficApiClient)
    (e : Endpoint) (params : gmap string JsVal) (retryCount : nat) (w : World) :
  let sent := request_interceptor c params in
  let o := http_get host (requests_sent w) e sent in
  let run := makeRequest host c e params retryCount w in
  (forall data, o = Resolved data -> run = (inr data, w ++ [EvGet e sent]))
  /\ (forall status body,
        o = RejectedWithResponse status body ->
        status <> 401 ->
        (status <> 429 \/ (maxRetries c <= retryCount)%nat) ->
        run = (inl (McpError InternalError
                      ("MarineTraffic API error: " +:+ pretty status +:+ " - " +:+ body)),
               w ++ [EvGet e sent]))
  /\ (o = RejectedNoResponse ->
      run = (inl (McpError InternalError ERROR_MESSAGES.NETWORK_ERROR), w ++ [EvGet e sent]))
  /\ (forall err, o = RejectedOther err -> run = (inl err, w ++ [EvGet e sent])).
Proof.
  intros sent o run. unfold run.
  split; [| split; [| split]].
  - intros data Ho. rewrite makeRequest_last; fold sent; fold o; rewrite Ho; reflexivity.
  - intros status body Ho H401 Hstop.
    rewrite makeRequest_last; fold sent; fold o; rewrite Ho; simpl.
    + rewrite (bool_decide_eq_false_2 (status = 401)) by exact H401. reflexivity.
    + destruct Hstop as [H429 | Hmax].
      * rewrite (bool_decide_eq_false_2 (status = 429)) by exact H429. reflexivity.
      * rewrite (bool_decide_eq_false_2 (retryCount < maxRetries c)%nat) by lia.
        apply andb_false_r.
  - intros Ho. rewrite makeRequest_last; fold sent; fold o; rewrite Ho; reflexivity.
  - intros err Ho. rewrite makeRequest_last; fold sent; fold o; rewrite Ho; reflexivity.
Qed.

Lemma attempt_without_retry_witness :
  makeRequest Examples.host_no_position Examples.client VESSEL_POSITION ∅ 0 []
  = (inl (McpError InternalError
            ("MarineTraffic API error: " +:+ pretty 500 +:+ " - " +:+ "Internal Server Error")),
     [] ++ [EvGet VESSEL_POSITION (request_interceptor Examples.client ∅)]).
Proof.
  destruct (attempt_without_retry Examples.host_no_position Examples.client
              VESSEL_POSITION ∅ 0 []) as (_ & Hstatus & _).
  apply Hstatus; [reflexivity | discriminate | left; discriminate].
Defined.

(** X3: when the first [k] attempts of a request (k = 0, 1, 2, 3) are
    answered 429 and the next one is not, the result is that attempt's
    own outcome, [k + 1] attempts have been made, and the client has
    waited 1000 * (2^k - 1) ms in all: 0, 1000, 3000 or 7000 ms. *)
Theorem outcome_after_retries
    (host : Host) (key : option string) (c : MarineTrafficApiClient)
    (e : Endpoint) (params : gmap string JsVal) (w : World) (k : nat) :
  new_MarineTrafficApiClient key = inr c ->
  (k <= 3)%nat ->
  (forall i, (i < k)%nat ->
     rate_limited (http_get host (requests_sent w + i) e (request_interceptor c params))) ->
  ~ rate_limited (http_get host (requests_sent w + k) e (request_interceptor c params)) ->
  fst (makeRequest host c e params 0 w)
  = settle (http_get host (requests_sent w + k) e (request_interceptor c params))
  /\ requests_sent (snd (makeRequest host c e params 0 w)) = (requests_sent w + k + 1)%nat
  /\ total_wait (snd (makeRequest host c e params 0 w))
     = total_wait w + 1000 * (2 ^ Z.of_nat k - 1).
Proof.
  intros Hnew Hk H429 Hlast.
  destruct (new_client_fields _ _ Hnew) as (_ & _ & Hdelay & Hmax).
  rewrite (makeRequest_backoff host c e params k 0 w) by (rewrite ?Hmax; auto with lia).
  rewrite makeRequest_last.
  - rewrite requests_sent_app, requests_sent_backoff_log. simpl.
    split; [reflexivity |]. split.
    + rewrite !requests_sent_app, requests_sent_backoff_log. simpl. lia.
    + rewrite !total_wait_app, total_wait_backoff_log, Hdelay.
      unfold total_wait at 2. simpl. lia.
  - rewrite requests_sent_app, requests_sent_backoff_log.
    destruct (http_get host (requests_sent w + k) e (request_interceptor c params))
      as [d | status d | | err]; simpl; try reflexivity.
    destruct (bool_decide (status = 429)) eqn:E; [| reflexivity].
    exfalso. apply Hlast. apply bool_decide_eq_true in E. subst status.
    exists d. reflexivity.
Qed.

Lemma outcome_after_retries_witness :
  fst (makeRequest (Examples.host_limited 3) Examples.client VESSEL_DETAILS ∅ 0 [])
  = settle (http_get (Examples.host_limited 3) (requests_sent [] + 3) VESSEL_DETAILS
              (request_interceptor Examples.client ∅))
  /\ requests_sent (snd (makeRequest (Examples.host_limited 3) Examples.client
                           VESSEL_DETAILS ∅ 0 []))
     = (requests_sent [] + 3 + 1)%nat
  /\ total_wait (snd (makeRequest (Examples.host_limited 3) Examples.client
                        VESSEL_DETAILS ∅ 0 []))
     = total_wait [] + 1000 * (2 ^ Z.of_nat 3 - 1).
Proof.
  apply (outcome_after_retries (Examples.host_limited 3) (Some "secret")
           Examples.client VESSEL_DETAILS ∅ [] 3).
  - reflexivity.
  - lia.
  - intros i Hi. exists "Too Many Requests".
    destruct i as [| [| [| i]]]; [reflexivity | reflexivity | reflexivity | lia].
  - intros [d Hd]. discriminate Hd.
Defined.

(** X4: an error of the client is one of four things: the InvalidRequest
    invalid-key error, the InternalError API error with a status and a
    body, the InternalError network error, or an error that the
    transport itself threw and that is not an HTTP failure. *)
Theorem client_errors_classified
    (host : Host) (c : MarineTrafficApiClient)
    (e : Endpoint) (params : gmap string JsVal) (retryCount : nat) (w : World)
    (t : Thrown) :
  fst (makeRequest host c e params retryCount w) = inl t ->
  t = McpError InvalidRequest ERROR_MESSAGES.INVALID_API_KEY
  \/ (exists (status : Z) (body : string),
        t = McpError InternalError
              ("MarineTraffic API error: " +:+ pretty status +:+ " - " +:+ body))
  \/ t = McpError InternalError ERROR_MESSAGES.NETWORK_ERROR
  \/ (exists n, http_get host n e (request_interceptor c params) = RejectedOther t).
Proof.
  destruct (makeRequest_shape host c e params _ retryCount w eq_refl)
    as (k & _ & _ & _ & Heq).
  rewrite Heq. simpl.
  destruct (http_get host (requests_sent w + k) e (request_interceptor c params))
    as [d | status d | | err] eqn:Ho; simpl; intros H.
  - discriminate H.
  - destruct (bool_decide (status = 401)); injection H as <-.
    + left. reflexivity.
    + right. left. exists status, d. reflexivity.
  - injection H as <-. right. right. left. reflexivity.
  - injection H as <-. right. right. right. exists (requests_sent w + k)%nat. exact Ho.
Qed.

Lemma client_errors_classified_witness :
  McpError InternalError
    ("MarineTraffic API error: " +:+ pretty 500 +:+ " - " +:+ "Internal Server Error")
  = McpError InvalidRequest ERROR_MESSAGES.INVALID_API_KEY
  \/ (exists (status : Z) (body : string),
        McpError InternalError
          ("MarineTraffic API error: " +:+ pretty 500 +:+ " - " +:+ "Internal Server Error")
        = McpError InternalError
            ("MarineTraffic API error: " +:+ pretty status +:+ " - " +:+ body))
  \/ McpError InternalError
       ("MarineTraffic API error: " +:+ pretty 500 +:+ " - " +:+ "Internal Server Error")
     = McpError InternalError ERROR_MESSAGES.NETWORK_ERROR
  \/ (exists n,
        http_get Examples.host_no_position n VESSEL_POSITION
          (request_interceptor Examples.client ∅)
        = RejectedOther
            (McpError InternalError
               ("MarineTraffic API error: " +:+ pretty 500 +:+ " - "
                  +:+ "Internal Server Error"))).
Proof.
  apply (client_errors_classified Examples.host_no_position Examples.client
           VESSEL_POSITION ∅ 0 []).
  reflexivity.
Defined.

(** ** What the handlers make of the client's outcome *)

Lemma try_catch_rethrow_result {A} (body : M A) what w :
  try_catch body (rethrow_or_wrap what) w
  = match body w with
    | (inl (McpError code message), w1) => (inl (McpError code message), w1)
    | (inl (JsError message), w1) =>
        (inl (McpError InternalError (what +:+ ": " +:+ message)), w1)
    | (inr a, w1) => (inr a, w1)
    end.
Proof.
  unfold try_catch. destruct (body w) as [[[code m | m] | a] w1]; reflexivity.
Qed.

Lemma try_catch_rethrow_mcp {A} (body : M A) what w t :
  fst (try_catch body (rethrow_or_wrap what) w) = inl t -> is_McpError t = true.
Proof.
  rewrite try_catch_rethrow_result.
  destruct (body w) as [[[code m | m] | a] w1]; simpl; intros H;
    try discriminate H; injection H as <-; reflexivity.
Qed.

(** X5: past validation, the position tool relays what the client call
    yields.  An McpError of the client (invalid key, API error, network
    error) is thrown on as it is; any other error is wrapped in an
    InternalError "Error retrieving vessel position: message"; a position
    whose timestamp is not a date is an InternalError "... Invalid time
    value", after the request has been made; otherwise the position is
    returned formatted, its mmsi, coordinates and speed taken over and the
    timestamp in ISO form.  The tool sends what the client call sends. *)
Theorem position_tool_relays_client
    (host : Host) (c : MarineTrafficApiClient) (identifier : string) (w : World) :
  negb (Str.re_mmsi identifier) && negb (Str.re_imo_prefixed identifier) = false ->
  let call :=
    getVesselPosition host c
      (if Str.startsWith "IMO" identifier then Str.substring_from 3 identifier
       else identifier) w in
  let run := PositionTool.getVesselPositionTool host c identifier w in
  snd run = snd call
  /\ (forall code message,
        fst call = inl (McpError code message) -> fst run = inl (McpError code message))
  /\ (forall message,
        fst call = inl (JsError message) ->
        fst run = inl (McpError InternalError
                         ("Error retrieving vessel position: " +:+ message)))
  /\ (forall vp,
        fst call = inr vp -> dateToISOString host (vp_timestamp vp) = None ->
        fst run = inl (McpError InternalError
                         "Error retrieving vessel position: Invalid time value"))
  /\ (forall vp iso,
        fst call = inr vp -> dateToISOString host (vp_timestamp vp) = Some iso ->
        exists response,
          fst run = inr (ToolText (JSON_stringify response))
          /\ PositionTool.mmsi response = vp_mmsi vp
          /\ PositionTool.position response
             = {| latitude := vp_latitude vp; longitude := vp_longitude vp |}
          /\ PositionTool.speed response = num_to_string (vp_speed vp) +:+ " knots"
          /\ PositionTool.last_update response = iso).
Proof.
  intros Hvalid call run.
  assert (Hrun : run
    = match call with
      | (inl (McpError code message), w1) => (inl (McpError code message), w1)
      | (inl (JsError message), w1) =>
          (inl (McpError InternalError
                  ("Error retrieving vessel position" +:+ ": " +:+ message)), w1)
      | (inr vp, w1) =>
          match PositionTool.formattedResponse host vp with
          | inl (McpError code message) => (inl (McpError code message), w1)
          | inl (JsError message) =>
              (inl (McpError InternalError
                      ("Error retrieving vessel position" +:+ ": " +:+ message)), w1)
          | inr response => (inr (ToolText (JSON_stringify response)), w1)
          end
      end).
  { unfold run, PositionTool.getVesselPositionTool.
    rewrite try_catch_rethrow_result, Hvalid. unfold bind. fold call.
    destruct call as [[[code m | m] | vp] w1]; try reflexivity.
    unfold lift, ret.
    destruct (PositionTool.formattedResponse host vp) as [[code m | m] | r]; reflexivity. }
  rewrite Hrun. clear Hrun.
  destruct call as [[[code m | m] | vp] w1]; simpl;
    (split; [| split; [| split; [| split]]]);
    try reflexivity;
    try (intros; discriminate).
  - intros code' m' H. injection H as <- <-. reflexivity.
  - intros m' H. injection H as <-. reflexivity.
  - unfold PositionTool.formattedResponse, new_Date_toISOString.
    destruct (dateToISOString host (vp_timestamp vp)); reflexivity.
  - intros vp' H Hd. injection H as <-.
    unfold PositionTool.formattedResponse, new_Date_toISOString. rewrite Hd. reflexivity.
  - intros vp' iso H Hd. injection H as <-.
    unfold PositionTool.formattedResponse, new_Date_toISOString. rewrite Hd.
    eexists. split; [reflexivity |]. repeat split.
Qed.

Lemma position_tool_relays_client_witness :
  fst (PositionTool.getVesselPositionTool (Examples.host_limited_then_401 0)
         Examples.client "IMO1234567" [])
  = inl (McpError InvalidRequest ERROR_MESSAGES.INVALID_API_KEY).
Proof.
  destruct (position_tool_relays_client (Examples.host_limited_then_401 0)
              Examples.client "IMO1234567" []) as (_ & Hmcp & _).
  - reflexivity.
  - apply Hmcp. reflexivity.
Defined.

(** X6: past validation, the details tool relays what the client call
    yields: an McpError of the client is thrown on as it is, any other
    error is wrapped in an InternalError "Error retrieving vessel details:
    message", and details are always returned formatted, with the mmsi,
    the name and the ship type code taken over; nothing in the formatting
    can fail. *)
Theorem details_tool_relays_client
    (host : Host) (c : MarineTrafficApiClient) (identifier : string) (w : World) :
  negb (Str.re_mmsi identifier) && negb (Str.re_imo_prefixed identifier) = false ->
  let call :=
    getVesselDetails host c
      (if Str.startsWith "IMO" identifier then Str.substring_from 3 identifier
       else identifier) w in
  let run := DetailsTool.getVesselDetailsTool host c identifier w in
  snd run = snd call
  /\ (forall code message,
        fst call = inl (McpError code message) -> fst run = inl (McpError code message))
  /\ (forall message,
        fst call = inl (JsError message) ->
        fst run = inl (McpError InternalError
                         ("Error retrieving vessel details: " +:+ message)))
  /\ (forall vd,
        fst call = inr vd ->
        fst run = inr (ToolText (JSON_stringify (DetailsTool.formattedResponse vd)))
        /\ DetailsTool.mmsi (DetailsTool.formattedResponse vd) = vd_mmsi vd
        /\ DetailsTool.name (DetailsTool.formattedResponse vd) = vd_name vd
        /\ DetailsTool.code (DetailsTool.vessel_type (DetailsTool.formattedResponse vd))
           = vd_ship_type vd).
Proof.
  intros Hvalid call run.
  unfold run, DetailsTool.getVesselDetailsTool.
  rewrite try_catch_rethrow_result, Hvalid. unfold bind. fold call.
  destruct call as [[[code m | m] | vd] w1]; simpl;
    (split; [| split; [| split]]);
    try reflexivity;
    try (intros; discriminate).
  - intros code' m' H. injection H as <- <-. reflexivity.
  - intros m' H. injection H as <-. reflexivity.
  - intros vd' H. injection H as <-. repeat split.
Qed.

Lemma details_tool_relays_client_witness :
  fst (DetailsTool.getVesselDetailsTool Examples.host_ok Examples.client "123456789" [])
  = inr (ToolText (JSON_stringify (DetailsTool.formattedResponse Examples.details)))
  /\ DetailsTool.mmsi (DetailsTool.formattedResponse Examples.details)
     = vd_mmsi Examples.details
  /\ DetailsTool.name (DetailsTool.formattedResponse Examples.details)
     = vd_name Examples.details
  /\ DetailsTool.code (DetailsTool.vessel_type (DetailsTool.formattedResponse Examples.details))
     = vd_ship_type Examples.details.
Proof.
  destruct (details_tool_relays_client Examples.host_ok Examples.client "123456789" [])
    as (_ & _ & _ & Hok).
  - reflexivity.
  - apply Hok. reflexivity.
Defined.

(** ** Lists of vessels *)

Lemma map_throwing_inr {A B} (f : A -> Thrown + B) l ys :
  map_throwing f l = inr ys <-> Forall2 (fun x y => f x = inr y) l ys.
Proof.
  revert ys. induction l as [| x r IH]; intros ys; simpl.
  - split.
    + intros H. injection H as <-. constructor.
    + intros H. inversion H. reflexivity.
  - destruct (f x) as [t | y] eqn:Ex.
    + split; [discriminate |]. intros H. inversion H; subst. congruence.
    + destruct (map_throwing f r) as [t | ys'] eqn:Er.
      * split; [discriminate |]. intros H. inversion H as [| ? y' ? ys'' Hy Hr]; subst.
        apply IH in Hr. discriminate Hr.
      * split.
        -- intros H. injection H as <-. constructor; [exact Ex |]. apply IH. reflexivity.
        -- intros H. inversion H as [| ? y' ? ys'' Hy Hr]; subst.
           apply IH in Hr. injection Hr as <-. congruence.
Qed.

Lemma map_throwing_inl {A B} (f : A -> Thrown + B) l t :
  map_throwing f l = inl t -> Exists (fun x => f x = inl t) l.
Proof.
  induction l as [| x r IH]; simpl; [discriminate |].
  destruct (f x) as [t' | y] eqn:Ex.
  - intros H. injection H as <-. constructor 1. exact Ex.
  - destruct (map_throwing f r) as [t' | ys]; [| discriminate].
    intros H. injection H as <-. constructor 2. apply IH. reflexivity.
Qed.

Lemma map_throwing_fails {A B} (f : A -> Thrown + B) l :
  Exists (fun x => exists t, f x = inl t) l -> exists t, map_throwing f l = inl t.
Proof.
  induction 1 as [x r [t Hx] | x r _ [t IH]]; simpl.
  - rewrite Hx. exists t. reflexivity.
  - destruct (f x) as [t' | y]; [exists t'; reflexivity |].
    rewrite IH. exists t. reflexivity.
Qed.

Lemma map_throwing_succeeds {A B} (f : A -> Thrown + B) l :
  Forall (fun x => exists y, f x = inr y) l -> exists ys, map_throwing f l = inr ys.
Proof.
  induction 1 as [| x r [y Hx] _ [ys IH]]; simpl.
  - exists []. reflexivity.
  - rewrite Hx, IH. exists (y :: ys). reflexivity.
Qed.

(** [formatVesselData] fails exactly on a timestamp that is not a date,
    and then with the date error. *)
Lemma search_formatVesselData_cases host v :
  (dateToISOString host (vp_timestamp v) = None
   /\ SearchTool.formatVesselData host v = inl (JsError "Invalid time value"))
  \/ (exists fv,
        dateToISOString host (vp_timestamp v) <> None
        /\ SearchTool.formatVesselData host v = inr fv
        /\ fv_mmsi fv = vp_mmsi v).
Proof.
  unfold SearchTool.formatVesselData, new_Date_toISOString.
  destruct (dateToISOString host (vp_timestamp v)) as [iso |].
  - right. eexists. split; [discriminate |]. split; reflexivity.
  - left. split; reflexivity.
Qed.

Lemma searchVesselsTool_result host c args w :
  fst (SearchTool.validate_and_clean args) = inr tt ->
  SearchTool.searchVesselsTool host c args w
  = match searchVessels host c (snd (SearchTool.validate_and_clean args)) w with
    | (inl (McpError code message), w1) =>
        (inl (McpError code message), snd (SearchTool.validate_and_clean args), w1)
    | (inl (JsError message), w1) =>
        (inl (McpError InternalError ("Error searching for vessels: " +:+ message)),
         snd (SearchTool.validate_and_clean args), w1)
    | (inr vessels, w1) =>
        match map_throwing (SearchTool.formatVesselData host) vessels with
        | inl (McpError code message) =>
            (inl (McpError code message), snd (SearchTool.validate_and_clean args), w1)
        | inl (JsError message) =>
            (inl (McpError InternalError ("Error searching for vessels: " +:+ message)),
             snd (SearchTool.validate_and_clean args), w1)
        | inr formatted =>
            (inr (ToolText (JSON_stringify
                    {| SearchTool.count := length formatted;
                       SearchTool.vessels := formatted |})),
             snd (SearchTool.validate_and_clean args), w1)
        end
    end.
Proof.
  intros Hok. unfold SearchTool.searchVesselsTool.
  destruct (SearchTool.validate_and_clean args) as [checked args1].
  simpl in Hok. subst checked. simpl snd.
  rewrite try_catch_rethrow_result. unfold bind at 1. unfold lift at 1. unfold bind.
  destruct (searchVessels host c args1 w) as [[[code m | m] | vessels] w1]; try reflexivity.
  unfold lift, ret.
  destruct (map_throwing (SearchTool.formatVesselData host) vessels)
    as [[code m | m] | formatted]; reflexivity.
Qed.

(** X7: when the criteria pass validation and the search request
    succeeds, the search tool answers with one formatted vessel for each
    vessel of the upstream list, in the upstream order, and a count that
    is the length of that list (an empty list gives count 0); but if any
    one vessel of the list has a timestamp that is not a date, the whole
    search fails with the InternalError "Error searching for vessels:
    Invalid time value". *)
Theorem search_results_follow_upstream
    (host : Host) (c : MarineTrafficApiClient) (args : SearchParams) (w : World)
    (upstream : list VesselPosition) (w1 : World) :
  fst (SearchTool.validate_and_clean args) = inr tt ->
  searchVessels host c (snd (SearchTool.validate_and_clean args)) w = (inr upstream, w1) ->
  (Forall (fun v => dateToISOString host (vp_timestamp v) <> None) upstream ->
     exists response,
       SearchTool.searchVesselsTool host c args w
       = (inr (ToolText (JSON_stringify response)),
          snd (SearchTool.validate_and_clean args), w1)
       /\ SearchTool.count response = length upstream
       /\ length (SearchTool.vessels response) = length upstream
       /\ Forall2 (fun v fv => SearchTool.formatVesselData host v = inr fv
                               /\ fv_mmsi fv = vp_mmsi v)
            upstream (SearchTool.vessels response))
  /\ (Exists (fun v => dateToISOString host (vp_timestamp v) = None) upstream ->
      SearchTool.searchVesselsTool host c args w
      = (inl (McpError InternalError "Error searching for vessels: Invalid time value"),
         snd (SearchTool.validate_and_clean args), w1)).
Proof.
  intros Hok Hcall. rewrite (searchVesselsTool_result host c args w Hok), Hcall.
  split.
  - intros Hdates.
    destruct (map_throwing_succeeds (SearchTool.formatVesselData host) upstream)
      as [formatted Hf].
    { eapply Forall_impl; [exact Hdates |]. intros v Hv. simpl in Hv.
      destruct (search_formatVesselData_cases host v) as [[Hnone _] | (fv & _ & Hfv & _)];
        [contradiction | exists fv; exact Hfv]. }
    rewrite Hf. eexists. split; [reflexivity |]. simpl.
    apply map_throwing_inr in Hf.
    assert (Hlen : length formatted = length upstream).
    { symmetry. eapply Forall2_length. exact Hf. }
    split; [exact Hlen |]. split; [exact Hlen |].
    eapply Forall2_impl; [exact Hf |]. intros v fv Hfv. simpl in Hfv.
    split; [exact Hfv |].
    destruct (search_formatVesselData_cases host v) as [[_ Hbad] | (fv' & _ & Hfv' & Hm)];
      congruence.
  - intros Hbad.
    destruct (map_throwing_fails (SearchTool.formatVesselData host) upstream) as [t Ht].
    { eapply Exists_impl; [exact Hbad |]. intros v Hv. simpl in Hv.
      destruct (search_formatVesselData_cases host v) as [[_ Hfail] | (fv & Hsome & _)];
        [eexists; exact Hfail | contradiction]. }
    rewrite Ht. apply map_throwing_inl in Ht. apply Exists_exists in Ht as (v & _ & Hv).
    destruct (search_formatVesselData_cases host v) as [[_ Hfail] | (fv & _ & Hfv & _)];
      [| congruence].
    rewrite Hfail in Hv. injection Hv as <-. reflexivity.
Qed.

Lemma search_results_follow_upstream_witness :
  exists response,
    SearchTool.searchVesselsTool Examples.host_ok Examples.client
      {| sp_vessel_name := Some "EVER"; sp_mmsi := None; sp_imo := None;
         sp_ship_type := None |} []
    = (inr (ToolText (JSON_stringify response)),
       snd (SearchTool.validate_and_clean
              {| sp_vessel_name := Some "EVER"; sp_mmsi := None; sp_imo := None;
                 sp_ship_type := None |}),
       snd (searchVessels Examples.host_ok Examples.client
              {| sp_vessel_name := Some "EVER"; sp_mmsi := None; sp_imo := None;
                 sp_ship_type := None |} []))
    /\ SearchTool.count response = length [Examples.position]
    /\ length (SearchTool.vessels response) = length [Examples.position]
    /\ Forall2 (fun v fv => SearchTool.formatVesselData Examples.host_ok v = inr fv
                            /\ fv_mmsi fv = vp_mmsi v)
         [Examples.position] (SearchTool.vessels response).
Proof.
  destruct (search_results_follow_upstream Examples.host_ok Examples.client
              {| sp_vessel_name := Some "EVER"; sp_mmsi := None; sp_imo := None;
                 sp_ship_type := None |} [] [Examples.position]
              (snd (searchVessels Examples.host_ok Examples.client
                      {| sp_vessel_name := Some "EVER"; sp_mmsi := None; sp_imo := None;
                         sp_ship_type := None |} [])))
    as [Hgood _].
  - reflexivity.
  - reflexivity.
  - apply Hgood. constructor; [discriminate | constructor].
Defined.

(** X8: in the search criteria the "IMO" prefix is optional: an imo given
    as "IMO" followed by 7 digits and the same imo given as the 7 digits
    alone lead to the same result and the same requests, and, when the
    criteria pass validation, leave the caller's object in the same
    state, the one with the bare digits. *)
Theorem search_imo_prefix_optional
    (host : Host) (c : MarineTrafficApiClient)
    (vessel_name mmsi : option string) (ship_type : option number)
    (digits : string) (w : World) :
  Str.re_imo_bare digits = true ->
  let prefixed :=
    {| sp_vessel_name := vessel_name; sp_mmsi := mmsi;
       sp_imo := Some ("IMO" +:+ digits); sp_ship_type := ship_type |} in
  let bare :=
    {| sp_vessel_name := vessel_name; sp_mmsi := mmsi;
       sp_imo := Some digits; sp_ship_type := ship_type |} in
  fst (fst (SearchTool.searchVesselsTool host c prefixed w))
  = fst (fst (SearchTool.searchVesselsTool host c bare w))
  /\ snd (SearchTool.searchVesselsTool host c prefixed w)
     = snd (SearchTool.searchVesselsTool host c bare w)
  /\ (fst (SearchTool.validate_and_clean prefixed) = inr tt ->
      snd (fst (SearchTool.searchVesselsTool host c prefixed w)) = bare
      /\ snd (fst (SearchTool.searchVesselsTool host c bare w)) = bare).
Proof.
  intros Hd prefixed bare.
  destruct (re_imo_bare_facts digits Hd) as [Hnp _].
  assert (Hne : Str.is_empty digits = false).
  { destruct digits; [discriminate Hd | reflexivity]. }
  assert (Hsub : Str.substring_from 3 ("IMO" +:+ digits) = digits) by reflexivity.
  assert (Hst : Str.startsWith "IMO" ("IMO" +:+ digits) = true)
    by (destruct digits; reflexivity).
  assert (Hem : Str.is_empty ("IMO" +:+ digits) = false) by reflexivity.
  assert (Hpfx : Str.re_imo_prefixed ("IMO" +:+ digits) = true).
  { unfold Str.re_imo_prefixed. rewrite Hst, Hsub. exact Hd. }
  assert (Hbare : SearchTool.validate_and_clean bare
                  = (fst (SearchTool.validate_and_clean bare), bare)).
  { unfold SearchTool.validate_and_clean, bare.
    cbn [sp_vessel_name sp_mmsi sp_imo sp_ship_type opt_str_truthy from_option id].
    rewrite Hne, Hd, Hnp.
    cbn [negb andb]. rewrite ?andb_false_r.
    destruct (opt_str_truthy mmsi && negb (Str.re_mmsi (from_option id EmptyString mmsi)));
      reflexivity. }
  assert (Hpre : SearchTool.validate_and_clean prefixed
                 = (fst (SearchTool.validate_and_clean bare),
                    match fst (SearchTool.validate_and_clean bare) with
                    | inr _ => bare
                    | inl _ => prefixed
                    end)).
  { unfold SearchTool.validate_and_clean, prefixed, bare.
    cbn [sp_vessel_name sp_mmsi sp_imo sp_ship_type opt_str_truthy from_option id].
    rewrite Hne, Hem, Hd, Hnp, Hpfx, Hst, Hsub.
    cbn [negb andb]. rewrite ?andb_false_r.
    destruct (opt_str_truthy mmsi && negb (Str.re_mmsi (from_option id EmptyString mmsi)));
      reflexivity. }
  destruct (fst (SearchTool.validate_and_clean bare)) as [err | []] eqn:Ev.
  - unfold SearchTool.searchVesselsTool. rewrite Hpre, Hbare.
    unfold try_catch, bind, lift. simpl.
    destruct (rethrow_or_wrap (A := ToolResult SearchTool.Response)
                "Error searching for vessels" err w) as [r w1].
    split; [reflexivity |]. split; [reflexivity |]. intros H. discriminate H.
  - unfold SearchTool.searchVesselsTool. rewrite Hpre, Hbare.
    match goal with
    | |- context [try_catch ?b ?h w] => destruct (try_catch b h w) as [r w1]
    end.
    split; [reflexivity |]. split; [reflexivity |]. intros _. split; reflexivity.
Qed.

Lemma search_imo_prefix_optional_witness :
  fst (fst (SearchTool.searchVesselsTool Examples.host_ok Examples.client
              {| sp_vessel_name := None; sp_mmsi := None;
                 sp_imo := Some ("IMO" +:+ "1234567"); sp_ship_type := None |} []))
  = fst (fst (SearchTool.searchVesselsTool Examples.host_ok Examples.client
                {| sp_vessel_name := None; sp_mmsi := None;
                   sp_imo := Some "1234567"; sp_ship_type := None |} [])).
Proof.
  destruct (search_imo_prefix_optional Examples.host_ok Examples.client
              None None None "1234567" []) as [Hsame _].
  - reflexivity.
  - exact Hsame.
Defined.

(** ** The ship type tables *)








(** ** The URI of the vessel resource *)

Lemma prefix_empty s : String.prefix EmptyString s = true.
Proof. destruct s; reflexivity. Qed.

Lemma startsWith_append p r : Str.startsWith p (p +:+ r) = true.
Proof.
  unfold Str.startsWith. induction p as [| ch p IH]; simpl; [apply prefix_empty |].
  destruct (ascii_dec ch ch) as [_ | Hne]; [exact IH | contradiction].
Qed.

Lemma substring_from_append p r : Str.substring_from (String.length p) (p +:+ r) = r.
Proof.
  induction p as [| ch p IH]; simpl; [destruct r; reflexivity | exact IH].
Qed.

Lemma startsWith_split p s :
  Str.startsWith p s = true -> s = p +:+ Str.substring_from (String.length p) s.
Proof.
  unfold Str.startsWith. revert s. induction p as [| ch p IH]; intros s H.
  - simpl. destruct s; reflexivity.
  - destruct s as [| ch' s]; simpl in H; [discriminate H |].
    destruct (ascii_dec ch ch') as [<- | _]; [| discriminate H].
    change (String ch s = String ch (p +:+ Str.substring_from (String.length p) s)).
    f_equal. apply IH. exact H.
Qed.

Lemma match_vessel_uri_spec uri group :
  Str.match_vessel_uri uri = Some group
  <-> uri = "vessel://" +:+ group
      /\ Str.is_empty group = false /\ Str.no_slash group = true.
Proof.
  unfold Str.match_vessel_uri. split.
  - destruct (Str.startsWith "vessel://" uri) eqn:Hp; [| discriminate].
    destruct (negb (Str.is_empty (Str.substring_from 9 uri))
              && Str.no_slash (Str.substring_from 9 uri)) eqn:Hok; [| discriminate].
    intros H. injection H as <-.
    apply andb_true_iff in Hok as [Hne Hns]. apply negb_true_iff in Hne.
    split; [exact (startsWith_split "vessel://" uri Hp) |]. split; assumption.
  - intros (-> & Hne & Hns).
    rewrite (startsWith_append "vessel://" group).
    change (Str.substring_from 9 ("vessel://" +:+ group))
      with (Str.substring_from (String.length "vessel://") ("vessel://" +:+ group)).
    rewrite substring_from_append, Hne, Hns. reflexivity.
Qed.

(** X10: the vessel resource reads its identifier from a URI that is
    "vessel://" followed by one or more characters none of which is a
    slash.  Any other URI is rejected with the InvalidRequest "Invalid
    vessel resource URI: uri", and an identifier whose percent-encoding
    cannot be decoded with the InternalError "Error retrieving vessel
    resource: URI malformed"; neither sends a request. *)
Theorem vessel_resource_uri
    (host : Host) (c : MarineTrafficApiClient) (uri : string) (w : World) :
  (forall group,
      Str.match_vessel_uri uri = Some group
      <-> uri = "vessel://" +:+ group
          /\ Str.is_empty group = false /\ Str.no_slash group = true)
  /\ (Str.match_vessel_uri uri = None ->
      rejects (VesselResource.getVesselResource host c uri) w
        (McpError InvalidRequest ("Invalid vessel resource URI: " +:+ uri)))
  /\ (forall group,
      Str.match_vessel_uri uri = Some group ->
      decodeURIComponent host group = None ->
      rejects (VesselResource.getVesselResource host c uri) w
        (McpError InternalError "Error retrieving vessel resource: URI malformed")).
Proof.
  split; [intros group; apply match_vessel_uri_spec |]. split.
  - intros Hm. unfold rejects, VesselResource.getVesselResource. rewrite Hm. reflexivity.
  - intros group Hm Hd. unfold rejects, VesselResource.getVesselResource.
    rewrite Hm, Hd. reflexivity.
Qed.

Lemma vessel_resource_uri_witness :
  rejects (VesselResource.getVesselResource Examples.host_ok Examples.client
             "vessel://123456789/position") []
    (McpError InvalidRequest
       ("Invalid vessel resource URI: " +:+ "vessel://123456789/position")).
Proof.
  destruct (vessel_resource_uri Examples.host_ok Examples.client
              "vessel://123456789/position" []) as (_ & Hbad & _).
  apply Hbad. reflexivity.
Defined.

(** X11: what the vessel resource returns, past validation, in whatever
    order the answers to its two calls arrive.  The position block and the
    voyage block are present exactly when the last answer to a position
    request is a vessel position, the details block exactly when the last
    answer to a details request is the details of a vessel, and with
    details there is always a vessel_type.  A position whose timestamp is
    not a date makes the whole reading fail with the InternalError "Error
    retrieving vessel resource: Invalid time value", even when the details
    call succeeded. *)
Theorem vessel_resource_blocks
    (host : Host) (c : MarineTrafficApiClient)
    (uri group identifier : string) (w : World) :
  Str.match_vessel_uri uri = Some group ->
  decodeURIComponent host group = Some identifier ->
  negb (Str.re_mmsi identifier) && negb (Str.re_imo_prefixed identifier)
    && negb (Str.re_imo_bare identifier) = false ->
  let result := VesselResource.getVesselResource host c uri w in
  exists log,
    snd result = w ++ log
    /\ let position_answered p :=
         last (answers host VESSEL_POSITION (requests_sent w) log) = Some (Resolved p) in
       let details_answered d :=
         last (answers host VESSEL_DETAILS (requests_sent w) log) = Some (Resolved d) in
       (forall data,
           fst result = inr (JSON_stringify data) ->
           (is_Some (VesselResource.position data) <-> exists p, position_answered p)
           /\ (is_Some (VesselResource.voyage data) <-> exists p, position_answered p)
           /\ (is_Some (VesselResource.details data) <-> exists d, details_answered d)
           /\ ((exists d, details_answered d) -> is_Some (VesselResource.vessel_type data)))
       /\ (forall p,
           position_answered p -> dateToISOString host (vp_timestamp p) = None ->
           fst result = inl (McpError InternalError
                               "Error retrieving vessel resource: Invalid time value")).
Proof.
  intros Hm Hd Hvalid result.
  destruct (getVesselResource_calls host c uri group identifier w Hm Hd Hvalid)
    as (rest & rp & rd & Hw & _ & Hp & Hdd & Hres).
  cbv zeta in Hw, Hp, Hdd.
  match type of Hw with
  | _ = w ++ ?l => set (log := l) in *
  end.
  exists log. split; [exact Hw |]. cbv zeta.
  pose proof (verdict_value c 0 _ rp Hp) as Hpv.
  pose proof (verdict_value c 0 _ rd Hdd) as Hdv.
  fold result in Hres. rewrite Hres. clear Hres Hw Hp Hdd.
  split.
  - intros data Hdata.
    assert (Hpos : is_Some (or_null rp) <->
                   exists p, last (answers host VESSEL_POSITION (requests_sent w) log)
                             = Some (Resolved p)).
    { split.
      - intros [p Hsome]. exists p. apply Hpv. exact Hsome.
      - intros [p Hlast]. exists p. apply Hpv. exact Hlast. }
    assert (Hdet : is_Some (or_null rd) <->
                   exists d, last (answers host VESSEL_DETAILS (requests_sent w) log)
                             = Some (Resolved d)).
    { split.
      - intros [d Hsome]. exists d. apply Hdv. exact Hsome.
      - intros [d Hlast]. exists d. apply Hdv. exact Hlast. }
    rewrite <- Hpos, <- Hdet. clear Hpos Hdet Hpv Hdv.
    destruct (or_null rp) as [p |], (or_null rd) as [d |];
      try discriminate;
      unfold VesselResource.vesselData in Hdata;
      try (destruct (new_Date_toISOString host (vp_timestamp p)); [discriminate |]);
      injection Hdata as <-; simpl;
      repeat split; intros; try (eexists; reflexivity);
      match goal with
      | H : is_Some None |- _ => destruct H as [? H]; discriminate H
      end.
  - intros p Hlast Hdate. apply Hpv in Hlast. rewrite Hlast.
    rewrite (vesselData_bad_date host identifier p (or_null rd) Hdate).
    destruct (or_null rd); reflexivity.
Qed.

Lemma vessel_resource_blocks_witness :
  fst (VesselResource.getVesselResource Examples.host_no_dates Examples.client
         "vessel://123456789" [])
  = inl (McpError InternalError "Error retrieving vessel resource: Invalid time value").
Proof.
  destruct (vessel_resource_blocks Examples.host_no_dates Examples.client
              "vessel://123456789" "123456789" "123456789" [])
    as (log & Hw & _ & Hdate).
  - reflexivity.
  - reflexivity.
  - reflexivity.
  - change ([] ++ log) with log in Hw. subst log.
    apply (Hdate Examples.position); reflexivity.
Defined.

(** ** Numbers by value *)

Module NumFacts.
Import QArith.
Local Open Scope Q_scope.

(** The guard [n < lo || n > hi] of the area handlers fails exactly on
    the numbers in range. *)
Lemma range_guard (n : number) (lo hi : Z) :
  is_Some (Num.value n) ->
  (orb (Num.lt n (NInt lo)) (Num.gt n (NInt hi)) = false <-> Num.in_range lo hi n).
Proof.
  intros [x Hx]. unfold Num.gt, Num.lt, Num.in_range. rewrite Hx. simpl.
  rewrite orb_false_iff, !negb_false_iff, !Qle_bool_iff. reflexivity.
Qed.

Lemma in_range_integer (lo hi z : Z) :
  Num.in_range lo hi (NInt z) <-> (lo <= z /\ z <= hi)%Z.
Proof.
  unfold Num.in_range. simpl. rewrite <- !Zle_Qle. reflexivity.
Qed.

Lemma in_range_has_value lo hi n : Num.in_range lo hi n -> is_Some (Num.value n).
Proof.
  unfold Num.in_range. destruct (Num.value n) as [x |]; [eexists; reflexivity | contradiction].
Qed.

End NumFacts.

(** ** What the handlers send *)

Lemma all_requests_app P (a b : World) :
  all_requests P (a ++ b) <-> all_requests P a /\ all_requests P b.
Proof. unfold all_requests. apply Forall_app. Qed.

Lemma sends_only_ret P {A} (a : A) : sends_only P (ret a).
Proof. intros w. exists []. rewrite app_nil_r. split; [reflexivity | constructor]. Qed.

Lemma sends_only_throw P {A} t : sends_only P (throw (A := A) t).
Proof. intros w. exists []. rewrite app_nil_r. split; [reflexivity | constructor]. Qed.

Lemma sends_only_lift P {A} (r : Thrown + A) : sends_only P (lift r).
Proof. intros w. exists []. rewrite app_nil_r. split; [reflexivity | constructor]. Qed.

Lemma sends_only_rethrow P {A} what t : sends_only P (rethrow_or_wrap (A := A) what t).
Proof. unfold rethrow_or_wrap. destruct (is_McpError t); apply sends_only_throw. Qed.

Lemma sends_only_bind P {A B} (m : M A) (k : A -> M B) :
  sends_only P m -> (forall a, sends_only P (k a)) -> sends_only P (bind m k).
Proof.
  intros Hm Hk w. unfold bind.
  destruct (Hm w) as (evs & Hw & Hall).
  destruct (m w) as [[t | a] w1]; simpl in Hw; subst w1.
  - exists evs. split; [reflexivity | exact Hall].
  - destruct (Hk a (w ++ evs)) as (evs' & Hw' & Hall').
    exists (evs ++ evs'). rewrite Hw', app_assoc. split; [reflexivity |].
    apply all_requests_app. split; assumption.
Qed.

Lemma sends_only_try_catch P {A} (body : M A) (handler : Thrown -> M A) :
  sends_only P body -> (forall t, sends_only P (handler t)) ->
  sends_only P (try_catch body handler).
Proof.
  intros Hm Hk w. unfold try_catch.
  destruct (Hm w) as (evs & Hw & Hall).
  destruct (body w) as [[t | a] w1]; simpl in Hw; subst w1.
  - destruct (Hk t (w ++ evs)) as (evs' & Hw' & Hall').
    exists (evs ++ evs'). rewrite Hw', app_assoc. split; [reflexivity |].
    apply all_requests_app. split; assumption.
  - exists evs. split; [reflexivity | exact Hall].
Qed.

Lemma sends_only_impl (P Q : Endpoint -> gmap string JsVal -> Prop) {A} (m : M A) :
  (forall e q, P e q -> Q e q) -> sends_only P m -> sends_only Q m.
Proof.
  intros HPQ Hm w. destruct (Hm w) as (evs & Hw & Hall).
  exists evs. split; [exact Hw |]. eapply all_requests_impl; eassumption.
Qed.

Lemma sends_only_makeRequest host c e params retryCount :
  sends_only (keyed_to c e) (makeRequest host c e params retryCount).
Proof.
  intros w. destruct (makeRequest_requests host c e params retryCount w)
    as (evs & Hw & _ & Hall).
  exists evs. split; [exact Hw |].
  eapply all_requests_impl; [| exact Hall].
  intros e' q [-> ->]. split; [reflexivity |].
  apply (request_interceptor_carries c params).
Qed.

Section HandlerLogs.

Variable host : Host.
Variable runtime : Runtime.
Variable c : MarineTrafficApiClient.

Lemma getVesselPosition_sends_only identifier :
  sends_only (keyed_to c VESSEL_POSITION) (getVesselPosition host c identifier).
Proof. exact (sends_only_makeRequest host c VESSEL_POSITION _ 0). Qed.

Lemma getVesselDetails_sends_only identifier :
  sends_only (keyed_to c VESSEL_DETAILS) (getVesselDetails host c identifier).
Proof. exact (sends_only_makeRequest host c VESSEL_DETAILS _ 0). Qed.

Lemma position_tool_sends identifier :
  sends_only (keyed_to c VESSEL_POSITION)
    (PositionTool.getVesselPositionTool host c identifier).
Proof.
  unfold PositionTool.getVesselPositionTool.
  apply sends_only_try_catch; [| intros t; apply sends_only_rethrow].
  destruct (negb (Str.re_mmsi identifier) && negb (Str.re_imo_prefixed identifier));
    [apply sends_only_throw |].
  apply sends_only_bind; [apply sends_only_makeRequest |].
  intros vp. apply sends_only_bind; [apply sends_only_lift |].
  intros r. apply sends_only_ret.
Qed.

Lemma details_tool_sends identifier :
  sends_only (keyed_to c VESSEL_DETAILS)
    (DetailsTool.getVesselDetailsTool host c identifier).
Proof.
  unfold DetailsTool.getVesselDetailsTool.
  apply sends_only_try_catch; [| intros t; apply sends_only_rethrow].
  destruct (negb (Str.re_mmsi identifier) && negb (Str.re_imo_prefixed identifier));
    [apply sends_only_throw |].
  apply sends_only_bind; [apply sends_only_makeRequest |].
  intros vd. apply sends_only_ret.
Qed.

Lemma search_tool_sends args :
  sends_only (keyed_to c VESSEL_SEARCH)
    (fun w => (fst (fst (SearchTool.searchVesselsTool host c args w)),
               snd (SearchTool.searchVesselsTool host c args w))).
Proof.
  unfold SearchTool.searchVesselsTool.
  destruct (SearchTool.validate_and_clean args) as [checked args1].
  match goal with
  | |- sends_only _ (fun w => ((let '(r, w1) := ?m w in _).1.1, _)) =>
      assert (Hm : sends_only (keyed_to c VESSEL_SEARCH) m)
  end.
  { apply sends_only_try_catch; [| intros t; apply sends_only_rethrow].
    apply sends_only_bind; [apply sends_only_lift |]. intros _.
    apply sends_only_bind; [apply sends_only_makeRequest |]. intros vessels.
    apply sends_only_bind; [apply sends_only_lift |]. intros fvs.
    apply sends_only_ret. }
  intros w. destruct (Hm w) as (evs & Hw & Hall). exists evs.
  match goal with
  | |- context [try_catch ?b ?h w] => destruct (try_catch b h w) as [r w1]
  end.
  split; [exact Hw | exact Hall].
Qed.

Lemma area_tool_sends args :
  sends_only (keyed_to c VESSELS_IN_AREA)
    (VesselsInAreaTool.getVesselsInAreaTool host c args).
Proof.
  unfold VesselsInAreaTool.getVesselsInAreaTool.
  apply sends_only_try_catch; [| intros t; apply sends_only_rethrow].
  repeat match goal with
         | |- sends_only _ (if ?b then _ else _) => destruct b; [apply sends_only_throw |]
         end.
  apply sends_only_bind; [apply sends_only_makeRequest |]. intros vessels.
  apply sends_only_bind; [apply sends_only_lift |]. intros fvs.
  apply sends_only_ret.
Qed.

Lemma area_resource_sends uri :
  sends_only (keyed_to c VESSELS_IN_AREA)
    (VesselsAreaResource.getVesselsAreaResource host runtime c uri).
Proof.
  unfold VesselsAreaResource.getVesselsAreaResource.
  apply sends_only_try_catch; [| intros t; apply sends_only_rethrow].
  destruct (VesselsAreaResource.match_area_uri uri) as [[[g1 g2] g3] |];
    [| apply sends_only_throw].
  repeat (apply sends_only_bind; [apply sends_only_lift |]; intros ?).
  apply sends_only_bind; [apply sends_only_makeRequest |]. intros vessels.
  apply sends_only_bind; [apply sends_only_lift |]. intros fvs.
  apply sends_only_ret.
Qed.

Lemma vessel_resource_sends uri :
  sends_only (fun e q => keyed_to c VESSEL_POSITION e q \/ keyed_to c VESSEL_DETAILS e q)
    (VesselResource.getVesselResource host c uri).
Proof.
  unfold VesselResource.getVesselResource.
  apply sends_only_try_catch; [| intros t; apply sends_only_rethrow].
  destruct (Str.match_vessel_uri uri) as [group |]; [| apply sends_only_throw].
  destruct (decodeURIComponent host group) as [identifier |]; [| apply sends_only_throw].
  destruct (negb (Str.re_mmsi identifier) && negb (Str.re_imo_prefixed identifier)
            && negb (Str.re_imo_bare identifier)); [apply sends_only_throw |].
  apply sends_only_bind.
  - intros w.
    destruct (fetch_both_outcome host c
                (if Str.startsWith "IMO" identifier then Str.substring_from 3 identifier
                 else identifier) w) as (rest & rp & rd & Hrun & _ & _ & Hall).
    eexists. rewrite Hrun. split; [reflexivity |].
    eapply all_requests_impl; [| exact Hall].
    intros e q [[-> | ->] ->]; [left | right];
      (split; [reflexivity | apply (request_interceptor_carries c)]).
  - intros [[p |] [d |]];
      try (apply sends_only_bind; [apply sends_only_lift | intros data; apply sends_only_ret]).
    apply sends_only_throw.
Qed.

End HandlerLogs.

(** X12: every handler only adds to the log of requests, every request it
    sends carries the key of the client it was given, and it goes to the
    handler's own endpoint: the position tool to the position endpoint,
    the details tool to the details endpoint, the search tool to the
    search endpoint, the area tool and the area resource to the area
    endpoint, and the vessel resource to the position and the details
    endpoints only. *)
Theorem handlers_send_keyed_requests
    (host : Host) (runtime : Runtime) (c : MarineTrafficApiClient) :
  (forall identifier,
      sends_only (keyed_to c VESSEL_POSITION)
        (PositionTool.getVesselPositionTool host c identifier))
  /\ (forall identifier,
      sends_only (keyed_to c VESSEL_DETAILS)
        (DetailsTool.getVesselDetailsTool host c identifier))
  /\ (forall args,
      sends_only (keyed_to c VESSEL_SEARCH)
        (fun w => (fst (fst (SearchTool.searchVesselsTool host c args w)),
                   snd (SearchTool.searchVesselsTool host c args w))))
  /\ (forall args,
      sends_only (keyed_to c VESSELS_IN_AREA)
        (VesselsInAreaTool.getVesselsInAreaTool host c args))
  /\ (forall uri,
      sends_only (fun e q => keyed_to c VESSEL_POSITION e q \/ keyed_to c VESSEL_DETAILS e q)
        (VesselResource.getVesselResource host c uri))
  /\ (forall uri,
      sends_only (keyed_to c VESSELS_IN_AREA)
        (VesselsAreaResource.getVesselsAreaResource host runtime c uri)).
Proof.
  split; [exact (position_tool_sends host c) |].
  split; [exact (details_tool_sends host c) |].
  split; [exact (search_tool_sends host c) |].
  split; [exact (area_tool_sends host c) |].
  split; [exact (vessel_resource_sends host c) |].
  exact (area_resource_sends host runtime c).
Qed.

(** ** The area handlers *)

Lemma AreaParams_obj_query c ap :
  area_query (request_interceptor c (AreaParams_obj ap))
    (ap_center_lat ap) (ap_center_lon ap) (ap_radius ap)
    (ap_min_ship_type ap) (ap_max_ship_type ap).
Proof.
  unfold area_query, request_interceptor, AreaParams_obj, set_prop.
  destruct (ap_min_ship_type ap), (ap_max_ship_type ap); simpl;
    repeat split; by simplify_map_eq.
Qed.

Lemma guard_true (n : number) (lo hi : Z) :
  is_Some (Num.value n) -> ~ Num.in_range lo hi n ->
  Num.lt n (NInt lo) || Num.gt n (NInt hi) = true.
Proof.
  intros Hv Hout.
  destruct (Num.lt n (NInt lo) || Num.gt n (NInt hi)) eqn:E; [reflexivity |].
  exfalso. apply Hout. apply (NumFacts.range_guard n lo hi Hv). exact E.
Qed.

Lemma guard_false (n : number) (lo hi : Z) :
  Num.in_range lo hi n -> Num.lt n (NInt lo) || Num.gt n (NInt hi) = false.
Proof.
  intros Hin. apply (NumFacts.range_guard n lo hi); [| exact Hin].
  exact (NumFacts.in_range_has_value lo hi n Hin).
Qed.

Lemma getVesselsInArea_sends host c ap w :
  sends_first (getVesselsInArea host c ap) w
    (EvGet VESSELS_IN_AREA (request_interceptor c (AreaParams_obj ap))).
Proof. exact (makeRequest_sends_first host c VESSELS_IN_AREA _ 0 w). Qed.

(** X13: the area tool checks its three numbers in turn.  A latitude
    outside -90..90, then a longitude outside -180..180, then a radius
    outside 1..100 is rejected with its own InvalidParams error and no
    request; when the three are in range, the request to the area
    endpoint carries the latitude, the longitude and the radius as they
    were given (the radius is not converted), and the optional ship type
    bounds exactly when they were given. *)
Theorem area_tool_checks_ranges
    (host : Host) (c : MarineTrafficApiClient)
    (args : VesselsInAreaTool.Args) (w : World) :
  is_Some (Num.value (VesselsInAreaTool.arg_latitude args)) ->
  is_Some (Num.value (VesselsInAreaTool.arg_longitude args)) ->
  is_Some (Num.value (VesselsInAreaTool.arg_radius args)) ->
  let lat_ok := Num.in_range (-90) 90 (VesselsInAreaTool.arg_latitude args) in
  let lon_ok := Num.in_range (-180) 180 (VesselsInAreaTool.arg_longitude args) in
  let rad_ok := Num.in_range 1 100 (VesselsInAreaTool.arg_radius args) in
  (~ lat_ok ->
     rejects (VesselsInAreaTool.getVesselsInAreaTool host c args) w
       (McpError InvalidParams VesselsInAreaTool.invalid_latitude))
  /\ (lat_ok -> ~ lon_ok ->
     rejects (VesselsInAreaTool.getVesselsInAreaTool host c args) w
       (McpError InvalidParams VesselsInAreaTool.invalid_longitude))
  /\ (lat_ok -> lon_ok -> ~ rad_ok ->
     rejects (VesselsInAreaTool.getVesselsInAreaTool host c args) w
       (McpError InvalidParams VesselsInAreaTool.invalid_radius))
  /\ (lat_ok -> lon_ok -> rad_ok ->
     exists q,
       sends_first (VesselsInAreaTool.getVesselsInAreaTool host c args) w
         (EvGet VESSELS_IN_AREA q)
       /\ area_query q
            (VesselsInAreaTool.arg_latitude args) (VesselsInAreaTool.arg_longitude args)
            (VesselsInAreaTool.arg_radius args)
            (VesselsInAreaTool.arg_min_ship_type args)
            (VesselsInAreaTool.arg_max_ship_type args)).
Proof.
  intros Hlat Hlon Hrad lat_ok lon_ok rad_ok.
  split; [| split; [| split]].
  - intros Hout. unfold rejects, VesselsInAreaTool.getVesselsInAreaTool.
    rewrite (guard_true _ _ _ Hlat Hout). reflexivity.
  - intros Hin Hout. unfold rejects, VesselsInAreaTool.getVesselsInAreaTool.
    rewrite (guard_false _ _ _ Hin), (guard_true _ _ _ Hlon Hout). reflexivity.
  - intros Hin1 Hin2 Hout. unfold rejects, VesselsInAreaTool.getVesselsInAreaTool.
    rewrite (guard_false _ _ _ Hin1), (guard_false _ _ _ Hin2),
      (guard_true _ _ _ Hrad Hout). reflexivity.
  - intros Hin1 Hin2 Hin3.
    exists (request_interceptor c
              (AreaParams_obj
                 {| ap_center_lat := VesselsInAreaTool.arg_latitude args;
                    ap_center_lon := VesselsInAreaTool.arg_longitude args;
                    ap_radius := VesselsInAreaTool.arg_radius args;
                    ap_min_ship_type := VesselsInAreaTool.arg_min_ship_type args;
                    ap_max_ship_type := VesselsInAreaTool.arg_max_ship_type args |})).
    split; [| apply AreaParams_obj_query].
    unfold sends_first, VesselsInAreaTool.getVesselsInAreaTool.
    rewrite snd_try_catch_rethrow.
    rewrite (guard_false _ _ _ Hin1), (guard_false _ _ _ Hin2), (guard_false _ _ _ Hin3).
    rewrite snd_bind_pure by (intros a w'; apply snd_bind_lift).
    apply getVesselsInArea_sends.
Qed.

Lemma area_tool_checks_ranges_witness :
  exists q,
    sends_first (VesselsInAreaTool.getVesselsInAreaTool Examples.host_ok Examples.client
                   AreaExamples.golden_gate) []
      (EvGet VESSELS_IN_AREA q)
    /\ area_query q (NFrac "37.8199") (NFrac "-122.4783") (NInt 10) None (Some (NInt 89)).
Proof.
  destruct (area_tool_checks_ranges Examples.host_ok Examples.client
              AreaExamples.golden_gate []) as (_ & _ & _ & Hok).
  - eexists. reflexivity.
  - eexists. reflexivity.
  - eexists. reflexivity.
  - apply Hok; vm_compute; split; discriminate.
Defined.

Lemma split_at_found s rest :
  snd (Num.split_at "/" s) = Some rest ->
  s = fst (Num.split_at "/" s) +:+ String "/" rest
  /\ Str.no_slash (fst (Num.split_at "/" s)) = true.
Proof.
  induction s as [| ch r IH]; simpl; [discriminate |].
  destruct (Ascii.eqb ch "/") eqn:E; simpl.
  - intros H. injection H as <-. apply Ascii.eqb_eq in E. subst ch.
    split; reflexivity.
  - intros H. destruct (IH H) as [Hr Hns]. rewrite E. simpl.
    split; [| exact Hns].
    change (String ch r = String ch (fst (Num.split_at "/" r) +:+ String "/" rest)).
    f_equal. exact Hr.
Qed.

Lemma split_at_append a rest :
  Str.no_slash a = true ->
  Num.split_at "/" (a +:+ String "/" rest) = (a, Some rest).
Proof.
  induction a as [| ch a IH]; simpl; [reflexivity |].
  intros H. apply andb_true_iff in H as [Hch Ha]. apply negb_true_iff in Hch.
  rewrite Hch, (IH Ha). reflexivity.
Qed.

Lemma match_area_uri_spec uri g1 g2 g3 :
  VesselsAreaResource.match_area_uri uri = Some (g1, g2, g3)
  <-> uri = "vessels://area/" +:+ g1 +:+ "/" +:+ g2 +:+ "/" +:+ g3
      /\ (Str.is_empty g1 = false /\ Str.no_slash g1 = true)
      /\ (Str.is_empty g2 = false /\ Str.no_slash g2 = true)
      /\ (Str.is_empty g3 = false /\ Str.no_slash g3 = true).
Proof.
  unfold VesselsAreaResource.match_area_uri. split.
  - destruct (Str.startsWith "vessels://area/" uri) eqn:Hp; [| discriminate].
    pose proof (startsWith_split "vessels://area/" uri Hp) as Huri.
    change (String.length "vessels://area/") with 15%nat in Huri.
    destruct (Num.split_at "/" (Str.substring_from 15 uri)) as [a [r1 |]] eqn:E1;
      [| discriminate].
    destruct (Num.split_at "/" r1) as [b [r2 |]] eqn:E2; [| discriminate].
    destruct (negb (Str.is_empty a) && negb (Str.is_empty b) && negb (Str.is_empty r2)
              && Str.no_slash r2) eqn:Hok; [| discriminate].
    intros H. injection H as <- <- <-.
    destruct (split_at_found (Str.substring_from 15 uri) r1) as [H1 Hn1];
      [rewrite E1; reflexivity |].
    destruct (split_at_found r1 r2) as [H2 Hn2]; [rewrite E2; reflexivity |].
    rewrite E1 in H1, Hn1. rewrite E2 in H2, Hn2. cbn [fst] in H1, Hn1, H2, Hn2.
    apply andb_true_iff in Hok as [Hok Hn3].
    apply andb_true_iff in Hok as [Hok He3].
    apply andb_true_iff in Hok as [He1 He2].
    apply negb_true_iff in He1, He2, He3.
    split; [| repeat split; assumption].
    rewrite Huri at 1. rewrite H1. rewrite H2 at 1. reflexivity.
  - intros (-> & [He1 Hn1] & [He2 Hn2] & [He3 Hn3]).
    rewrite (startsWith_append "vessels://area/").
    change 15%nat with (String.length "vessels://area/").
    rewrite substring_from_append.
    change ("/" +:+ g2 +:+ "/" +:+ g3) with (String "/" (g2 +:+ String "/" g3)).
    rewrite (split_at_append g1 _ Hn1), (split_at_append g2 _ Hn2).
    rewrite He1, He2, He3, Hn3. reflexivity.
Qed.

Lemma check_range_ok x lo hi message :
  parsed_in_range lo hi x ->
  exists n, x = Some n /\ VesselsAreaResource.check_range x lo hi message = inr n.
Proof.
  destruct x as [n |]; simpl; [| contradiction].
  intros Hin. exists n. split; [reflexivity |].
  unfold VesselsAreaResource.check_range. rewrite (guard_false n lo hi Hin). reflexivity.
Qed.

Lemma check_range_bad x lo hi message :
  (forall n, x = Some n -> is_Some (Num.value n)) ->
  ~ parsed_in_range lo hi x ->
  VesselsAreaResource.check_range x lo hi message = inl (McpError InvalidRequest message).
Proof.
  intros Hv Hout. destruct x as [n |]; simpl in *; [| reflexivity].
  rewrite (guard_true n lo hi (Hv n eq_refl) Hout). reflexivity.
Qed.

(** X14: the area resource reads three numbers from a URI that is
    "vessels://area/" followed by three non-empty parts without a slash,
    separated by slashes; any other URI is rejected with the
    InvalidRequest "Invalid vessels area resource URI: uri".  Each part
    is decoded and parsed; a latitude that is not a number or lies
    outside -90..90, then such a longitude outside -180..180, then such a
    radius outside 1..100 is rejected with its own InvalidRequest error;
    no rejection sends a request.  With the three in range, the request
    to the area endpoint carries them as parsed, and no ship type
    bound. *)
Theorem area_resource_checks_ranges
    (host : Host) (runtime : Runtime) (c : MarineTrafficApiClient)
    (uri : string) (w : World) :
  (forall s n, parseFloat runtime s = Some n -> is_Some (Num.value n)) ->
  (forall g1 g2 g3,
      VesselsAreaResource.match_area_uri uri = Some (g1, g2, g3)
      <-> uri = "vessels://area/" +:+ g1 +:+ "/" +:+ g2 +:+ "/" +:+ g3
          /\ (Str.is_empty g1 = false /\ Str.no_slash g1 = true)
          /\ (Str.is_empty g2 = false /\ Str.no_slash g2 = true)
          /\ (Str.is_empty g3 = false /\ Str.no_slash g3 = true))
  /\ (VesselsAreaResource.match_area_uri uri = None ->
      rejects (VesselsAreaResource.getVesselsAreaResource host runtime c uri) w
        (McpError InvalidRequest ("Invalid vessels area resource URI: " +:+ uri)))
  /\ (forall g1 g2 g3 t1 t2 t3,
      VesselsAreaResource.match_area_uri uri = Some (g1, g2, g3) ->
      decodeURIComponent host g1 = Some t1 ->
      decodeURIComponent host g2 = Some t2 ->
      decodeURIComponent host g3 = Some t3 ->
      let lat := parseFloat runtime t1 in
      let lon := parseFloat runtime t2 in
      let rad := parseFloat runtime t3 in
      (~ parsed_in_range (-90) 90 lat ->
         rejects (VesselsAreaResource.getVesselsAreaResource host runtime c uri) w
           (McpError InvalidRequest VesselsAreaResource.invalid_latitude))
      /\ (parsed_in_range (-90) 90 lat -> ~ parsed_in_range (-180) 180 lon ->
         rejects (VesselsAreaResource.getVesselsAreaResource host runtime c uri) w
           (McpError InvalidRequest VesselsAreaResource.invalid_longitude))
      /\ (parsed_in_range (-90) 90 lat -> parsed_in_range (-180) 180 lon ->
          ~ parsed_in_range 1 100 rad ->
         rejects (VesselsAreaResource.getVesselsAreaResource host runtime c uri) w
           (McpError InvalidRequest VesselsAreaResource.invalid_radius))
      /\ (parsed_in_range (-90) 90 lat -> parsed_in_range (-180) 180 lon ->
          parsed_in_range 1 100 rad ->
         exists a b r q,
           lat = Some a /\ lon = Some b /\ rad = Some r
           /\ sends_first (VesselsAreaResource.getVesselsAreaResource host runtime c uri) w
                (EvGet VESSELS_IN_AREA q)
           /\ area_query q a b r None None)).
Proof.
  intros Hvalues.
  split; [intros g1 g2 g3; apply match_area_uri_spec |]. split.
  - intros Hm. unfold rejects, VesselsAreaResource.getVesselsAreaResource.
    rewrite Hm. reflexivity.
  - intros g1 g2 g3 t1 t2 t3 Hm H1 H2 H3 lat lon rad.
    assert (Hbody :
      VesselsAreaResource.getVesselsAreaResource host runtime c uri w
      = try_catch
          (do lat' <- lift (VesselsAreaResource.check_range lat (-90) 90
                              VesselsAreaResource.invalid_latitude);
           do lon' <- lift (VesselsAreaResource.check_range lon (-180) 180
                              VesselsAreaResource.invalid_longitude);
           do rad' <- lift (VesselsAreaResource.check_range rad 1 100
                              VesselsAreaResource.invalid_radius);
           do vessels <- getVesselsInArea host c
                           {| ap_center_lat := lat'; ap_center_lon := lon';
                              ap_radius := rad'; ap_min_ship_type := None;
                              ap_max_ship_type := None |};
           do formattedVessels <-
             lift (map_throwing (AreaResource.formatVesselData host) vessels);
           ret (JSON_stringify
                  {| VesselsAreaResource.area :=
                       {| VesselsAreaResource.center :=
                            {| latitude := lat'; longitude := lon' |};
                          VesselsAreaResource.radius :=
                            num_to_string rad' +:+ " nautical miles" |};
                     VesselsAreaResource.timestamp := Date_now runtime;
                     VesselsAreaResource.count := length formattedVessels;
                     VesselsAreaResource.vessels := formattedVessels |}))
          (rethrow_or_wrap "Error retrieving vessels in area") w).
    { unfold VesselsAreaResource.getVesselsAreaResource.
      rewrite Hm. unfold VesselsAreaResource.parse_group. rewrite H1, H2, H3.
      reflexivity. }
    split; [| split; [| split]].
    + intros Hout. unfold rejects. rewrite Hbody.
      rewrite (check_range_bad lat _ _ _ (fun n Hn => Hvalues t1 n Hn) Hout). reflexivity.
    + intros Hin Hout. unfold rejects. rewrite Hbody.
      destruct (check_range_ok lat _ _ VesselsAreaResource.invalid_latitude Hin)
        as (a & _ & ->).
      rewrite (check_range_bad lon _ _ _ (fun n Hn => Hvalues t2 n Hn) Hout). reflexivity.
    + intros Hin1 Hin2 Hout. unfold rejects. rewrite Hbody.
      destruct (check_range_ok lat _ _ VesselsAreaResource.invalid_latitude Hin1)
        as (a & _ & ->).
      destruct (check_range_ok lon _ _ VesselsAreaResource.invalid_longitude Hin2)
        as (b & _ & ->).
      rewrite (check_range_bad rad _ _ _ (fun n Hn => Hvalues t3 n Hn) Hout). reflexivity.
    + intros Hin1 Hin2 Hin3.
      destruct (check_range_ok lat _ _ VesselsAreaResource.invalid_latitude Hin1)
        as (a & Ha & Hca).
      destruct (check_range_ok lon _ _ VesselsAreaResource.invalid_longitude Hin2)
        as (b & Hb & Hcb).
      destruct (check_range_ok rad _ _ VesselsAreaResource.invalid_radius Hin3)
        as (r & Hr & Hcr).
      exists a, b, r,
        (request_interceptor c
           (AreaParams_obj {| ap_center_lat := a; ap_center_lon := b; ap_radius := r;
                              ap_min_ship_type := None; ap_max_ship_type := None |})).
      split; [exact Ha |]. split; [exact Hb |]. split; [exact Hr |].
      split; [| apply AreaParams_obj_query].
      unfold sends_first. rewrite Hbody, snd_try_catch_rethrow, Hca, Hcb, Hcr.
      unfold bind at 1. unfold lift at 1.
      unfold bind at 1. unfold lift at 1.
      unfold bind at 1. unfold lift at 1.
      rewrite snd_bind_pure by (intros x w'; apply snd_bind_lift).
      apply getVesselsInArea_sends.
Qed.

Lemma area_resource_checks_ranges_witness :
  rejects (VesselsAreaResource.getVesselsAreaResource Examples.host_ok AreaExamples.runtime
             Examples.client "vessels://area/37/-122/1000") []
    (McpError InvalidRequest VesselsAreaResource.invalid_radius).
Proof.
  destruct (area_resource_checks_ranges Examples.host_ok AreaExamples.runtime
              Examples.client "vessels://area/37/-122/1000" []) as (_ & _ & Hparts).
  - intros s n H. unfold AreaExamples.runtime in H. simpl in H.
    destruct (Num.natural (snd (Num.signed s))); [| discriminate H].
    injection H as <-. eexists. reflexivity.
  - destruct (Hparts "37" "-122" "1000" "37" "-122" "1000" eq_refl eq_refl eq_refl eq_refl)
      as (_ & _ & Hradius & _).
    apply Hradius.
    + vm_compute. split; discriminate.
    + vm_compute. split; discriminate.
    + vm_compute. intros [_ H]. apply H. reflexivity.
Defined.

(** X15: when its three numbers are in range and the area request
    succeeds, the area tool answers with the centre and the radius it was
    given, the radius as "radius nautical miles", one formatted vessel for
    each vessel of the upstream list, in the upstream order, and their
    count; if any one vessel has a timestamp that is not a date, the call
    fails with the InternalError "Error retrieving vessels in area:
    Invalid time value". *)
Theorem area_tool_response
    (host : Host) (c : MarineTrafficApiClient)
    (args : VesselsInAreaTool.Args) (w : World)
    (upstream : list VesselPosition) (w1 : World) :
  Num.in_range (-90) 90 (VesselsInAreaTool.arg_latitude args) ->
  Num.in_range (-180) 180 (VesselsInAreaTool.arg_longitude args) ->
  Num.in_range 1 100 (VesselsInAreaTool.arg_radius args) ->
  getVesselsInArea host c
    {| ap_center_lat := VesselsInAreaTool.arg_latitude args;
       ap_center_lon := VesselsInAreaTool.arg_longitude args;
       ap_radius := VesselsInAreaTool.arg_radius args;
       ap_min_ship_type := VesselsInAreaTool.arg_min_ship_type args;
       ap_max_ship_type := VesselsInAreaTool.arg_max_ship_type args |} w
  = (inr upstream, w1) ->
  (Forall (fun v => dateToISOString host (vp_timestamp v) <> None) upstream ->
     exists response,
       VesselsInAreaTool.getVesselsInAreaTool host c args w
       = (inr (ToolText (JSON_stringify response)), w1)
       /\ VesselsInAreaTool.center (VesselsInAreaTool.area response)
          = {| latitude := VesselsInAreaTool.arg_latitude args;
               longitude := VesselsInAreaTool.arg_longitude args |}
       /\ VesselsInAreaTool.radius (VesselsInAreaTool.area response)
          = num_to_string (VesselsInAreaTool.arg_radius args) +:+ " nautical miles"
       /\ VesselsInAreaTool.count response = length upstream
       /\ Forall2 (fun v fv => AreaTool.formatVesselData host v = inr fv
                               /\ fv_mmsi fv = vp_mmsi v)
            upstream (VesselsInAreaTool.vessels response))
  /\ (Exists (fun v => dateToISOString host (vp_timestamp v) = None) upstream ->
      VesselsInAreaTool.getVesselsInAreaTool host c args w
      = (inl (McpError InternalError
                "Error retrieving vessels in area: Invalid time value"), w1)).
Proof.
  intros Hlat Hlon Hrad Hcall.
  assert (Hrun : VesselsInAreaTool.getVesselsInAreaTool host c args w
    = match map_throwing (AreaTool.formatVesselData host) upstream with
      | inl (McpError code message) => (inl (McpError code message), w1)
      | inl (JsError message) =>
          (inl (McpError InternalError
                  ("Error retrieving vessels in area: " +:+ message)), w1)
      | inr formatted =>
          (inr (ToolText (JSON_stringify
             {| VesselsInAreaTool.area :=
                  {| VesselsInAreaTool.center :=
                       {| latitude := VesselsInAreaTool.arg_latitude args;
                          longitude := VesselsInAreaTool.arg_longitude args |};
                     VesselsInAreaTool.radius :=
                       num_to_string (VesselsInAreaTool.arg_radius args)
                         +:+ " nautical miles" |};
                VesselsInAreaTool.count := length formatted;
                VesselsInAreaTool.vessels := formatted |})), w1)
      end).
  { unfold VesselsInAreaTool.getVesselsInAreaTool.
    rewrite try_catch_rethrow_result.
    rewrite (guard_false _ _ _ Hlat), (guard_false _ _ _ Hlon), (guard_false _ _ _ Hrad).
    unfold bind at 1. rewrite Hcall. unfold bind, lift, ret.
    destruct (map_throwing (AreaTool.formatVesselData host) upstream)
      as [[code m | m] | formatted]; reflexivity. }
  rewrite Hrun. clear Hrun.
  change (AreaTool.formatVesselData host) with (SearchTool.formatVesselData host).
  split.
  - intros Hdates.
    destruct (map_throwing_succeeds (SearchTool.formatVesselData host) upstream)
      as [formatted Hf].
    { eapply Forall_impl; [exact Hdates |]. intros v Hv. simpl in Hv.
      destruct (search_formatVesselData_cases host v) as [[Hnone _] | (fv & _ & Hfv & _)];
        [contradiction | exists fv; exact Hfv]. }
    rewrite Hf. eexists. split; [reflexivity |]. simpl.
    apply map_throwing_inr in Hf.
    split; [reflexivity |]. split; [reflexivity |].
    split; [symmetry; eapply Forall2_length; exact Hf |].
    eapply Forall2_impl; [exact Hf |]. intros v fv Hfv. simpl in Hfv.
    split; [exact Hfv |].
    destruct (search_formatVesselData_cases host v) as [[_ Hbad] | (fv' & _ & Hfv' & Hm)];
      congruence.
  - intros Hbad.
    destruct (map_throwing_fails (SearchTool.formatVesselData host) upstream) as [t Ht].
    { eapply Exists_impl; [exact Hbad |]. intros v Hv. simpl in Hv.
      destruct (search_formatVesselData_cases host v) as [[_ Hfail] | (fv & Hsome & _)];
        [eexists; exact Hfail | contradiction]. }
    rewrite Ht. apply map_throwing_inl in Ht. apply Exists_exists in Ht as (v & _ & Hv).
    destruct (search_formatVesselData_cases host v) as [[_ Hfail] | (fv & _ & Hfv & _)];
      [| congruence].
    rewrite Hfail in Hv. injection Hv as <-. reflexivity.
Qed.

Lemma area_tool_response_witness :
  exists response,
    VesselsInAreaTool.getVesselsInAreaTool Examples.host_ok Examples.client
      AreaExamples.golden_gate []
    = (inr (ToolText (JSON_stringify response)),
       snd (getVesselsInArea Examples.host_ok Examples.client
              {| ap_center_lat := NFrac "37.8199"; ap_center_lon := NFrac "-122.4783";
                 ap_radius := NInt 10; ap_min_ship_type := None;
                 ap_max_ship_type := Some (NInt 89) |} []))
    /\ VesselsInAreaTool.center (VesselsInAreaTool.area response)
       = {| latitude := NFrac "37.8199"; longitude := NFrac "-122.4783" |}
    /\ VesselsInAreaTool.radius (VesselsInAreaTool.area response)
       = num_to_string (NInt 10) +:+ " nautical miles"
    /\ VesselsInAreaTool.count response = length [Examples.position]
    /\ Forall2 (fun v fv => AreaTool.formatVesselData Examples.host_ok v = inr fv
                            /\ fv_mmsi fv = vp_mmsi v)
         [Examples.position] (VesselsInAreaTool.vessels response).
Proof.
  destruct (area_tool_response Examples.host_ok Examples.client
              AreaExamples.golden_gate [] [Examples.position]
              (snd (getVesselsInArea Examples.host_ok Examples.client
                      {| ap_center_lat := NFrac "37.8199";
                         ap_center_lon := NFrac "-122.4783";
                         ap_radius := NInt 10; ap_min_ship_type := None;
                         ap_max_ship_type := Some (NInt 89) |} [])))
    as [Hgood _].
  - vm_compute. split; discriminate.
  - vm_compute. split; discriminate.
  - vm_compute. split; discriminate.
  - reflexivity.
  - apply Hgood. constructor; [discriminate | constructor].
Defined.

(** ** The server *)

Section ServerFacts.

Variable host : Host.
Variable runtime : Runtime.

Lemma getApiClient_none env s :
  Server.apiClient s = None -> blank env ->
  Server.getApiClient env s
  = (inl (McpError InvalidRequest Server.missing_environment), s).
Proof.
  intros Hs Hblank. unfold Server.getApiClient. rewrite Hs.
  apply opt_str_truthy_false in Hblank. rewrite Hblank. reflexivity.
Qed.

Lemma getApiClient_new env s :
  Server.apiClient s = None -> opt_str_truthy env = true ->
  exists c,
    new_MarineTrafficApiClient env = inr c
    /\ Server.getApiClient env s = (inr c, {| Server.apiClient := Some c |}).
Proof.
  intros Hs Henv. unfold Server.getApiClient, new_MarineTrafficApiClient.
  rewrite Hs, Henv. simpl. eexists. split; reflexivity.
Qed.

Lemma getApiClient_kept env s c :
  Server.apiClient s = Some c -> Server.getApiClient env s = (inr c, s).
Proof. intros Hs. unfold Server.getApiClient. rewrite Hs. reflexivity. Qed.

(** With a client in hand, a tool call keeps the state and sends only
    requests that carry that client's key. *)
Lemma CallTool_with_client env request s c w :
  Server.apiClient s = Some c ->
  snd (fst (Server.CallTool host env request s w)) = s
  /\ exists evs,
       snd (Server.CallTool host env request s w) = w ++ evs
       /\ all_requests (fun _ q => q !! "apiKey" = Some (VStr (apiKey c))) evs.
Proof.
  intros Hs. unfold Server.CallTool. rewrite (getApiClient_kept env s c Hs).
  destruct request as [identifier | identifier | args | args | name]; simpl;
    (split; [reflexivity |]).
  - destruct (position_tool_sends host c identifier w) as (evs & Hw & Hall).
    exists evs. split; [exact Hw |].
    eapply all_requests_impl; [| exact Hall]. intros e q [_ H]. exact H.
  - destruct (details_tool_sends host c identifier w) as (evs & Hw & Hall).
    exists evs. split; [exact Hw |].
    eapply all_requests_impl; [| exact Hall]. intros e q [_ H]. exact H.
  - destruct (search_tool_sends host c args w) as (evs & Hw & Hall).
    exists evs. split; [exact Hw |].
    eapply all_requests_impl; [| exact Hall]. intros e q [_ H]. exact H.
  - destruct (area_tool_sends host c args w) as (evs & Hw & Hall).
    exists evs. split; [exact Hw |].
    eapply all_requests_impl; [| exact Hall]. intros e q [_ H]. exact H.
  - exists []. rewrite app_nil_r. split; [reflexivity | constructor].
Qed.

Lemma ReadResource_with_client env uri s c w :
  Server.apiClient s = Some c ->
  snd (fst (Server.ReadResource host runtime env uri s w)) = s
  /\ exists evs,
       snd (Server.ReadResource host runtime env uri s w) = w ++ evs
       /\ all_requests (fun _ q => q !! "apiKey" = Some (VStr (apiKey c))) evs.
Proof.
  intros Hs. unfold Server.ReadResource. rewrite (getApiClient_kept env s c Hs).
  destruct (Str.startsWith "vessel://" uri); [| destruct (Str.startsWith "vessels://area/" uri)];
    simpl; (split; [reflexivity |]).
  - destruct (vessel_resource_sends host c uri w) as (evs & Hw & Hall).
    exists evs. split; [exact Hw |].
    eapply all_requests_impl; [| exact Hall]. intros e q [[_ H] | [_ H]]; exact H.
  - destruct (area_resource_sends host runtime c uri w) as (evs & Hw & Hall).
    exists evs. split; [exact Hw |].
    eapply all_requests_impl; [| exact Hall]. intros e q [_ H]. exact H.
  - exists []. rewrite app_nil_r. split; [reflexivity | constructor].
Qed.

End ServerFacts.

(** X16: while the server has no client and the environment holds no key
    (the variable is unset or empty), every tool call and every resource
    reading fails with the InvalidRequest "MARINETRAFFIC_API_KEY
    environment variable is required", whatever is asked, an unknown tool
    or an unsupported URI included; nothing is sent, and the server is
    left as it was, so that a later call can still make the client. *)
Theorem server_requires_key
    (host : Host) (runtime : Runtime) (env : option string)
    (s : Server.MarineTrafficServer) (w : World) :
  Server.apiClient s = None ->
  blank env ->
  (forall request,
      Server.CallTool host env request s w
      = (inl (McpError InvalidRequest Server.missing_environment), s, w))
  /\ (forall uri,
      Server.ReadResource host runtime env uri s w
      = (inl (McpError InvalidRequest Server.missing_environment), s, w)).
Proof.
  intros Hs Hblank. split.
  - intros request. unfold Server.CallTool.
    rewrite (getApiClient_none env s Hs Hblank). reflexivity.
  - intros uri. unfold Server.ReadResource.
    rewrite (getApiClient_none env s Hs Hblank). reflexivity.
Qed.

Lemma server_requires_key_witness :
  Server.CallTool Examples.host_ok (Some EmptyString) (Server.call_other "ping")
    Server.new_MarineTrafficServer []
  = (inl (McpError InvalidRequest Server.missing_environment),
     Server.new_MarineTrafficServer, []).
Proof.
  destruct (server_requires_key Examples.host_ok AreaExamples.runtime (Some EmptyString)
              Server.new_MarineTrafficServer []) as [Hcall _].
  - reflexivity.
  - right. reflexivity.
  - apply Hcall.
Defined.

(** X17: the server makes its client once.  The first call served while
    the environment holds a key makes a client with that key and keeps
    it; from then on the environment is not read again: whatever it
    holds, even nothing, every call keeps the same client, and every
    request the server sends carries the key of that client. *)
Theorem server_makes_client_once
    (host : Host) (runtime : Runtime) (env : option string)
    (s : Server.MarineTrafficServer) (w : World) :
  (Server.apiClient s = None -> opt_str_truthy env = true ->
   exists c,
     new_MarineTrafficApiClient env = inr c
     /\ env = Some (apiKey c)
     /\ (forall request,
           snd (fst (Server.CallTool host env request s w))
           = {| Server.apiClient := Some c |})
     /\ (forall uri,
           snd (fst (Server.ReadResource host runtime env uri s w))
           = {| Server.apiClient := Some c |}))
  /\ (forall c,
      Server.apiClient s = Some c ->
      (forall request,
          snd (fst (Server.CallTool host env request s w)) = s
          /\ exists evs,
               snd (Server.CallTool host env request s w) = w ++ evs
               /\ all_requests (fun _ q => q !! "apiKey" = Some (VStr (apiKey c))) evs)
      /\ (forall uri,
          snd (fst (Server.ReadResource host runtime env uri s w)) = s
          /\ exists evs,
               snd (Server.ReadResource host runtime env uri s w) = w ++ evs
               /\ all_requests (fun _ q => q !! "apiKey" = Some (VStr (apiKey c))) evs)).
Proof.
  split.
  - intros Hs Henv. destruct (getApiClient_new env s Hs Henv) as (c & Hnew & Hget).
    exists c. split; [exact Hnew |].
    split; [exact (proj1 (new_client_fields env c Hnew)) |]. split.
    + intros request. unfold Server.CallTool. rewrite Hget.
      destruct request; reflexivity.
    + intros uri. unfold Server.ReadResource. rewrite Hget.
      destruct (Str.startsWith "vessel://" uri);
        [| destruct (Str.startsWith "vessels://area/" uri)]; reflexivity.
  - intros c Hs. split.
    + intros request. exact (CallTool_with_client host env request s c w Hs).
    + intros uri. exact (ReadResource_with_client host runtime env uri s c w Hs).
Qed.

Lemma server_makes_client_once_witness :
  snd (fst (Server.CallTool Examples.host_ok None (Server.get_vessel_position "123456789")
              {| Server.apiClient := Some Examples.client |} []))
  = {| Server.apiClient := Some Examples.client |}
  /\ exists evs,
       snd (Server.CallTool Examples.host_ok None (Server.get_vessel_position "123456789")
              {| Server.apiClient := Some Examples.client |} [])
       = [] ++ evs
       /\ all_requests (fun _ q => q !! "apiKey" = Some (VStr (apiKey Examples.client))) evs.
Proof.
  destruct (server_makes_client_once Examples.host_ok AreaExamples.runtime None
              {| Server.apiClient := Some Examples.client |} []) as [_ Hkept].
  destruct (Hkept Examples.client eq_refl) as [Hcall _].
  apply Hcall.
Defined.

(** ** Errors that leave the server *)

Lemma returns_error {A B} (f : A -> B) (r : Thrown + A) t :
  Server.returns f r = inl t -> r = inl t.
Proof. destruct r; simpl; intros H; [congruence | discriminate H]. Qed.

Lemma search_tool_error host c args w t :
  fst (fst (SearchTool.searchVesselsTool host c args w)) = inl t -> is_McpError t = true.
Proof.
  unfold SearchTool.searchVesselsTool.
  destruct (SearchTool.validate_and_clean args) as [checked args1].
  match goal with
  | |- context [try_catch ?body ?handler w] =>
      pose proof (try_catch_rethrow_mcp body "Error searching for vessels" w t) as H;
      destruct (try_catch body handler w) as [r w1]
  end.
  exact H.
Qed.

Lemma getApiClient_error env s t :
  fst (Server.getApiClient env s) = inl t ->
  t = McpError InvalidRequest Server.missing_environment.
Proof.
  unfold Server.getApiClient, new_MarineTrafficApiClient.
  destruct (Server.apiClient s); [discriminate |].
  destruct (negb (opt_str_truthy env)); simpl; [congruence | discriminate].
Qed.

(** X18: no error leaves the server unclassified.  Whatever the state,
    the environment and the upstream do, an error thrown by the tool call
    handler or by the resource handler is an McpError, never a plain
    JavaScript error: each of the six readers ends in a catch block that
    passes an McpError on and wraps anything else as InternalError, and
    the server's own errors are McpErrors.  The only error of the client
    lookup is the InvalidRequest about the environment variable: the
    constructor's own check of the key (InvalidParams) is never the one
    that fails, since the lookup has tested the key before. *)
Theorem server_errors_classified
    (host : Host) (runtime : Runtime) (env : option string)
    (s : Server.MarineTrafficServer) (w : World) (t : Thrown) :
  (forall request,
     fst (fst (Server.CallTool host env request s w)) = inl t -> is_McpError t = true)
  /\ (forall uri,
     fst (fst (Server.ReadResource host runtime env uri s w)) = inl t ->
     is_McpError t = true)
  /\ (fst (Server.getApiClient env s) = inl t ->
      t = McpError InvalidRequest Server.missing_environment).
Proof.
  split; [| split].
  - intros request. unfold Server.CallTool.
    pose proof (getApiClient_error env s) as Hget.
    destruct (Server.getApiClient env s) as [[t0 | c] s1].
    + simpl. intros H. injection H as <-. rewrite (Hget t0 eq_refl). reflexivity.
    + destruct request as [identifier | identifier | args | args | name]; simpl; intros H.
      * apply returns_error in H.
        exact (try_catch_rethrow_mcp _ _ _ _ H).
      * apply returns_error in H.
        exact (try_catch_rethrow_mcp _ _ _ _ H).
      * apply returns_error in H. exact (search_tool_error _ _ _ _ _ H).
      * apply returns_error in H.
        exact (try_catch_rethrow_mcp _ _ _ _ H).
      * injection H as <-. reflexivity.
  - intros uri. unfold Server.ReadResource.
    pose proof (getApiClient_error env s) as Hget.
    destruct (Server.getApiClient env s) as [[t0 | c] s1].
    + simpl. intros H. injection H as <-. rewrite (Hget t0 eq_refl). reflexivity.
    + destruct (Str.startsWith "vessel://" uri);
        [| destruct (Str.startsWith "vessels://area/" uri)]; simpl; intros H.
      * apply returns_error in H.
        exact (try_catch_rethrow_mcp _ _ _ _ H).
      * apply returns_error in H.
        exact (try_catch_rethrow_mcp _ _ _ _ H).
      * injection H as <-. reflexivity.
  - apply getApiClient_error.
Qed.

Lemma server_errors_classified_witness :
  is_McpError (McpError MethodNotFound "Unknown tool: ping") = true.
Proof.
  destruct (server_errors_classified Examples.host_ok AreaExamples.runtime None
              {| Server.apiClient := Some Examples.client |} []
              (McpError MethodNotFound "Unknown tool: ping")) as [Hcall _].
  apply (Hcall (Server.call_other "ping")). reflexivity.
Defined.

Lemma bind_lift_inr {A B} (a : A) (k : A -> M B) : bind (lift (inr a)) k = k a.
Proof. reflexivity. Qed.

(** X19: the area resource answers as the area tool does, with the time
    of the reading added.  When the three parts of the URI decode and
    parse to numbers in range and the area request succeeds, the text
    holds the centre and the radius read from the URI, the radius as
    "radius nautical miles", the current time, and one formatted vessel
    for each vessel of the upstream list, with their count; the request
    never carries a ship type bound.  A part that cannot be decoded makes
    the reading fail with the InternalError "Error retrieving vessels in
    area: URI malformed", before any request. *)
Theorem area_resource_response
    (host : Host) (runtime : Runtime) (c : MarineTrafficApiClient)
    (uri : string) (w : World) (g1 g2 g3 : string) :
  VesselsAreaResource.match_area_uri uri = Some (g1, g2, g3) ->
  (forall t1 t2 t3 a b r upstream w1,
      decodeURIComponent host g1 = Some t1 ->
      decodeURIComponent host g2 = Some t2 ->
      decodeURIComponent host g3 = Some t3 ->
      parseFloat runtime t1 = Some a -> Num.in_range (-90) 90 a ->
      parseFloat runtime t2 = Some b -> Num.in_range (-180) 180 b ->
      parseFloat runtime t3 = Some r -> Num.in_range 1 100 r ->
      getVesselsInArea host c
        {| ap_center_lat := a; ap_center_lon := b; ap_radius := r;
           ap_min_ship_type := None; ap_max_ship_type := None |} w
      = (inr upstream, w1) ->
      Forall (fun v => dateToISOString host (vp_timestamp v) <> None) upstream ->
      exists response,
        VesselsAreaResource.getVesselsAreaResource host runtime c uri w
        = (inr (JSON_stringify response), w1)
        /\ VesselsAreaResource.center (VesselsAreaResource.area response)
           = {| latitude := a; longitude := b |}
        /\ VesselsAreaResource.radius (VesselsAreaResource.area response)
           = num_to_string r +:+ " nautical miles"
        /\ VesselsAreaResource.timestamp response = Date_now runtime
        /\ VesselsAreaResource.count response = length upstream
        /\ Forall2 (fun v fv => AreaResource.formatVesselData host v = inr fv
                                /\ fv_mmsi fv = vp_mmsi v)
             upstream (VesselsAreaResource.vessels response))
  /\ (decodeURIComponent host g1 = None
      \/ decodeURIComponent host g2 = None
      \/ decodeURIComponent host g3 = None ->
      rejects (VesselsAreaResource.getVesselsAreaResource host runtime c uri) w
        (McpError InternalError "Error retrieving vessels in area: URI malformed")).
Proof.
  intros Hm. split.
  - intros t1 t2 t3 a b r upstream w1 H1 H2 H3 Ha Hina Hb Hinb Hr Hinr Hcall Hdates.
    unfold VesselsAreaResource.getVesselsAreaResource.
    rewrite try_catch_rethrow_result. rewrite Hm.
    unfold VesselsAreaResource.parse_group. rewrite H1, H2, H3.
    rewrite !bind_lift_inr. rewrite Ha, Hb, Hr.
    unfold VesselsAreaResource.check_range.
    rewrite (guard_false _ _ _ Hina). rewrite bind_lift_inr.
    rewrite (guard_false _ _ _ Hinb). rewrite bind_lift_inr.
    rewrite (guard_false _ _ _ Hinr). rewrite bind_lift_inr.
    unfold bind at 1. rewrite Hcall. unfold bind, lift, ret.
    change (AreaResource.formatVesselData host) with (SearchTool.formatVesselData host).
    destruct (map_throwing_succeeds (SearchTool.formatVesselData host) upstream)
      as [formatted Hf].
    { eapply Forall_impl; [exact Hdates |]. intros v Hv. simpl in Hv.
      destruct (search_formatVesselData_cases host v) as [[Hnone _] | (fv & _ & Hfv & _)];
        [contradiction | exists fv; exact Hfv]. }
    rewrite Hf. eexists. split; [reflexivity |]. simpl.
    apply map_throwing_inr in Hf.
    split; [reflexivity |]. split; [reflexivity |]. split; [reflexivity |].
    split; [symmetry; eapply Forall2_length; exact Hf |].
    eapply Forall2_impl; [exact Hf |]. intros v fv Hfv. simpl in Hfv.
    split; [exact Hfv |].
    destruct (search_formatVesselData_cases host v) as [[_ Hbad] | (fv' & _ & Hfv' & Hmm)];
      congruence.
  - intros Hbad. unfold rejects, VesselsAreaResource.getVesselsAreaResource.
    rewrite try_catch_rethrow_result. rewrite Hm.
    unfold VesselsAreaResource.parse_group.
    destruct (decodeURIComponent host g1) as [t1 |]; [| reflexivity].
    destruct (decodeURIComponent host g2) as [t2 |]; [| reflexivity].
    destruct (decodeURIComponent host g3) as [t3 |]; [| reflexivity].
    destruct Hbad as [H | [H | H]]; discriminate H.
Qed.

Lemma area_resource_response_witness :
  exists response,
    VesselsAreaResource.getVesselsAreaResource Examples.host_ok AreaExamples.runtime
      Examples.client "vessels://area/37/-122/10" []
    = (inr (JSON_stringify response),
       snd (getVesselsInArea Examples.host_ok Examples.client
              {| ap_center_lat := NInt 37; ap_center_lon := NInt (-122);
                 ap_radius := NInt 10; ap_min_ship_type := None;
                 ap_max_ship_type := None |} []))
    /\ VesselsAreaResource.center (VesselsAreaResource.area response)
       = {| latitude := NInt 37; longitude := NInt (-122) |}
    /\ VesselsAreaResource.radius (VesselsAreaResource.area response)
       = num_to_string (NInt 10) +:+ " nautical miles"
    /\ VesselsAreaResource.timestamp response = Date_now AreaExamples.runtime
    /\ VesselsAreaResource.count response = length [Examples.position]
    /\ Forall2 (fun v fv => AreaResource.formatVesselData Examples.host_ok v = inr fv
                            /\ fv_mmsi fv = vp_mmsi v)
         [Examples.position] (VesselsAreaResource.vessels response).
Proof.
  destruct (area_resource_response Examples.host_ok AreaExamples.runtime Examples.client
              "vessels://area/37/-122/10" [] "37" "-122" "10" eq_refl) as [Hgood _].
  apply (Hgood "37" "-122" "10" (NInt 37) (NInt (-122)) (NInt 10) [Examples.position]).
  - reflexivity.
  - reflexivity.
  - reflexivity.
  - reflexivity.
  - vm_compute. split; discriminate.
  - reflexivity.
  - vm_compute. split; discriminate.
  - reflexivity.
  - vm_compute. split; discriminate.
  - reflexivity.
  - constructor; [discriminate | constructor].
Defined.
